(** * Fee, seat, attendance and progress bookkeeping of the institute back office

    A shallow embedding of the bookkeeping code of the student database
    back end (Mongoose models and Express controllers), and the properties
    its specification states about it.

    Conventions of the embedding.
    - A collection is a finite map from [_id] to document; [findById] is
      lookup, [findByIdAndUpdate] is [alter] (no document, no change),
      [create] inserts under a fresh [_id].
    - Numbers of requests and documents are integers ([Z]): on whole
      amounts the double arithmetic of [+] and [-] is exact.  The ledger
      of a student keeps its amounts as [option Z], [None] standing for a
      path the stored document does not have; a document read by
      [Student.findById] has the defaults of the schema in their place.
    - A percentage is computed by a division in double arithmetic,
      modelled by [spec_float] with the binary64 parameters, and rounded
      by [Math.round] to the integer that is stored.
    - Status fields are the strings the code compares them with.
    - A save validates the document before its [pre('save')] hook runs,
      and what does not pass is rejected and not written.  The validators
      of the paths of the model are part of the model; for a batch this
      is [currentStudents], the one path of a batch that is also written
      without validation (by [$inc]), and the statuses of the roster
      entries and sessions of a stored batch are taken to be in their
      enumerations.  The paths of the schemas that the model leaves out
      are taken to pass their validators on a stored document; on the
      body of a [create] their verdict is an input, the [StoreVerdict],
      which also says what the database answers.
    - A unique index is checked when a document is inserted and when an
      update changes its key.
    - Update documents are cast before they are sent: an update that sets
      a Number path to an object is rejected as a whole.
    - Time stamps, the [meta] audit envelope and the [_id]s of
      subdocuments are left out. *)

From Stdlib Require Import ZArith List Bool Lia SpecFloat.
From stdpp Require Import base option list gmap strings pretty.

Local Open Scope string_scope.
Local Open Scope list_scope.
Local Open Scope nat_scope.

(** ** JavaScript numbers *)

Module Number.
Definition t : Type := spec_float.
Definition prec : Z := 53.
Definition emax : Z := 1024.

(** The double nearest to an integer (exact below 2^53). *)
Definition of_Z (z : Z) : t := binary_normalize prec emax z 0 false.
Definition of_nat (n : nat) : t := of_Z (Z.of_nat n).

Definition div : t → t → t := SFdiv prec emax.
Definition mul : t → t → t := SFmul prec emax.

(** The integer a double holds; it is read off the results of
    [Math.round], which are integers. *)
Definition to_Z (x : t) : Z :=
  match x with
  | S754_finite s m e =>
      let sm := if s then Z.neg m else Z.pos m in
      if (0 <=? e)%Z then (sm * 2 ^ e)%Z else (sm / 2 ^ (- e))%Z
  | _ => 0%Z
  end.
End Number.

Module Math.
(** [Math.round]: the nearest integer, a tie going up; NaN, the
    infinities and the zeros are returned as they are. *)
Definition round (x : Number.t) : Number.t :=
  match x with
  | S754_finite s m e =>
      let sm := if s then Z.neg m else Z.pos m in
      let r := if (0 <=? e)%Z then (sm * 2 ^ e)%Z
               else ((2 * sm + 2 ^ (- e)) / 2 ^ (1 - e))%Z in
      binary_normalize Number.prec Number.emax r 0 s
  | _ => x
  end.

Definition max (a b : Z) : Z := Z.max a b.
End Math.

(** [Math.round((part / whole) * 100)], the expression every percentage
    site of the code evaluates. *)
Definition round_ratio_times_100 (part whole : nat) : Number.t :=
  Math.round (Number.mul (Number.div (Number.of_nat part) (Number.of_nat whole))
                         (Number.of_Z 100)).

(** The same quantity in exact arithmetic: 100 * part / whole rounded to the
    nearest integer, a half going up. *)
Definition round_half_up_percent (part whole : nat) : Z :=
  ((200 * Z.of_nat part + Z.of_nat whole) / (2 * Z.of_nat whole))%Z.

(** [x || 0] on a stored number. *)
Definition or_zero (x : option Z) : Z := default 0%Z x.

(** JavaScript [+] and [-] on values that may fail to be numbers. *)
Definition js_add (x y : option Z) : option Z :=
  match x, y with Some a, Some b => Some (a + b)%Z | _, _ => None end.
Definition js_sub (x y : option Z) : option Z :=
  match x, y with Some a, Some b => Some (a - b)%Z | _, _ => None end.

(** [!s] on a string that may be missing. *)
Definition falsy (s : option string) : Prop := s = None ∨ s = Some "".

(** [String(n).padStart(width, '0')] *)
Definition pad_start (width : nat) (n : nat) : string :=
  let digits := pretty n in
  String.concat "" (replicate (width - String.length digits) "0") +:+ digits.

(** ** Documents *)

Definition ObjectId : Type := nat.

Module Fees.
Record t := mk { total : Z; paid : Z; pending : Z }.
End Fees.

Module Installment.
Record t := mk { status : string; paidAmount : option Z }.
End Installment.

Module ModuleCompletion.
Record t := mk { moduleId : ObjectId; score : option Z }.
End ModuleCompletion.

Module Progress.
Record t := mk { percentage : Z;
                 completedModules : list ModuleCompletion.t }.
End Progress.

Module AttendanceRecord.
Record t := mk { session : ObjectId; date : nat; status : string;
                 remarks : string }.
End AttendanceRecord.

Module enrollmentSchema.
Record t := mk {
  enrollmentId : option string;
  student : ObjectId;
  course : ObjectId;
  batch : option ObjectId;
  status : string;
  fees : Fees.t;
  paymentPlan : list Installment.t;
  progress : Progress.t;
  attendance : list AttendanceRecord.t }.

Definition with_enrollmentId (i : option string) (e : t) : t :=
  mk i (student e) (course e) (batch e) (status e) (fees e)
     (paymentPlan e) (progress e) (attendance e).
Definition with_fees (f : Fees.t) (e : t) : t :=
  mk (enrollmentId e) (student e) (course e) (batch e) (status e) f
     (paymentPlan e) (progress e) (attendance e).
Definition with_paymentPlan (p : list Installment.t) (e : t) : t :=
  mk (enrollmentId e) (student e) (course e) (batch e) (status e) (fees e)
     p (progress e) (attendance e).
Definition with_progress (p : Progress.t) (e : t) : t :=
  mk (enrollmentId e) (student e) (course e) (batch e) (status e) (fees e)
     (paymentPlan e) p (attendance e).
Definition with_attendance (a : list AttendanceRecord.t) (e : t) : t :=
  mk (enrollmentId e) (student e) (course e) (batch e) (status e) (fees e)
     (paymentPlan e) (progress e) a.
End enrollmentSchema.

Module PaymentPlan.
Record t := mk {
  totalFees : option Z;
  paidAmount : option Z;
  pendingAmount : option Z;
  paymentSchedule : list Installment.t }.
End PaymentPlan.

Module StudentEnrollment.
(** An element of the [enrollments] array of a student: a subdocument
    with a course of its own, not a reference to an enrollment. *)
Record t := mk { course : option ObjectId; batch : option ObjectId;
                 status : string }.

(** What the array makes of an [ObjectId] that is pushed on it: a
    subdocument with the defaults of its schema and no course. *)
Definition of_ObjectId (id : ObjectId) : t := mk None None "active".
End StudentEnrollment.

Module studentSchema.
Record t := mk {
  studentId : option string;
  fullName : string;
  phone : string;
  email : option string;
  admissionType : string;
  leadSource : option ObjectId;
  enrollments : list StudentEnrollment.t;
  paymentPlan : PaymentPlan.t }.

Definition with_studentId (i : option string) (s : t) : t :=
  mk i (fullName s) (phone s) (email s) (admissionType s) (leadSource s)
     (enrollments s) (paymentPlan s).
Definition with_enrollments (l : list StudentEnrollment.t) (s : t) : t :=
  mk (studentId s) (fullName s) (phone s) (email s) (admissionType s)
     (leadSource s) l (paymentPlan s).
Definition with_paymentPlan (p : PaymentPlan.t) (s : t) : t :=
  mk (studentId s) (fullName s) (phone s) (email s) (admissionType s)
     (leadSource s) (enrollments s) p.
End studentSchema.

Module RosterRecord.
(** An entry of the [attendanceRecords] list the batch controller sets on
    a roster entry in memory. *)
Record t := mk { session : nat; status : string; remarks : string }.
End RosterRecord.

Module RosterEntry.
(** [attendanceRecords] is not a path of the schema: it is a property of
    the object in memory only. *)
Record t := mk {
  student : ObjectId;
  status : string;
  attendancePercentage : option Number.t;
  attendanceRecords : option (list RosterRecord.t) }.
End RosterEntry.

Module SessionEntry.
Record t := mk { topic : string; status : string; attendanceTaken : bool }.
End SessionEntry.

Module batchSchema.
Record t := mk {
  batchId : string;
  course : ObjectId;
  maxStudents : Z;
  currentStudents : Z;
  students : list RosterEntry.t;
  sessions : list SessionEntry.t }.

Definition with_currentStudents (n : Z) (b : t) : t :=
  mk (batchId b) (course b) (maxStudents b) n (students b) (sessions b).
Definition with_students (l : list RosterEntry.t) (b : t) : t :=
  mk (batchId b) (course b) (maxStudents b) (currentStudents b) l (sessions b).
Definition with_sessions (l : list SessionEntry.t) (b : t) : t :=
  mk (batchId b) (course b) (maxStudents b) (currentStudents b) (students b) l.
End batchSchema.

Module EnrollmentStats.
Record t := mk { totalEnrolled : nat; active : nat; completed : nat;
                 dropout : nat }.
End EnrollmentStats.

Module courseSchema.
(** [curriculum] holds the titles of the modules, [batches] the batch
    numbers of the embedded batch summaries ([None] where a summary has
    none). *)
Record t := mk {
  courseCode : string;
  curriculum : list string;
  enrollmentStats : EnrollmentStats.t;
  batches : list (option string) }.

Definition with_enrollmentStats (s : EnrollmentStats.t) (c : t) : t :=
  mk (courseCode c) (curriculum c) s (batches c).
End courseSchema.

Module leadSchema.
Record t := mk {
  leadId : option string;
  fullName : string;
  phone : string;
  email : option string;
  status : string;
  convertedToStudent : bool;
  convertedStudentId : option ObjectId }.
End leadSchema.

Module paymentSchema.
Record t := mk {
  paymentId : option string;
  student : ObjectId;
  enrollment : option ObjectId;
  amount : Z;
  paymentMode : option string;
  status : string;
  receiptNumber : option string;
  installmentNumber : option nat }.

Definition with_paymentId (i : option string) (p : t) : t :=
  mk i (student p) (enrollment p) (amount p) (paymentMode p) (status p)
     (receiptNumber p) (installmentNumber p).
Definition with_status (s : string) (p : t) : t :=
  mk (paymentId p) (student p) (enrollment p) (amount p) (paymentMode p) s
     (receiptNumber p) (installmentNumber p).
Definition with_receiptNumber (r : option string) (p : t) : t :=
  mk (paymentId p) (student p) (enrollment p) (amount p) (paymentMode p)
     (status p) r (installmentNumber p).
End paymentSchema.

(** ** The store *)

Record Store := mkStore {
  students : gmap ObjectId studentSchema.t;
  courses : gmap ObjectId courseSchema.t;
  batches : gmap ObjectId batchSchema.t;
  enrollments : gmap ObjectId enrollmentSchema.t;
  leads : gmap ObjectId leadSchema.t;
  payments : gmap ObjectId paymentSchema.t;
  counters : gmap string nat }.

Definition with_students (m : gmap ObjectId studentSchema.t) (st : Store) : Store :=
  mkStore m (courses st) (batches st) (enrollments st) (leads st) (payments st)
          (counters st).
Definition with_courses (m : gmap ObjectId courseSchema.t) (st : Store) : Store :=
  mkStore (students st) m (batches st) (enrollments st) (leads st) (payments st)
          (counters st).
Definition with_batches (m : gmap ObjectId batchSchema.t) (st : Store) : Store :=
  mkStore (students st) (courses st) m (enrollments st) (leads st) (payments st)
          (counters st).
Definition with_enrollments (m : gmap ObjectId enrollmentSchema.t) (st : Store) : Store :=
  mkStore (students st) (courses st) (batches st) m (leads st) (payments st)
          (counters st).
Definition with_leads (m : gmap ObjectId leadSchema.t) (st : Store) : Store :=
  mkStore (students st) (courses st) (batches st) (enrollments st) m (payments st)
          (counters st).
Definition with_payments (m : gmap ObjectId paymentSchema.t) (st : Store) : Store :=
  mkStore (students st) (courses st) (batches st) (enrollments st) (leads st) m
          (counters st).
Definition with_counters (m : gmap string nat) (st : Store) : Store :=
  mkStore (students st) (courses st) (batches st) (enrollments st) (leads st)
          (payments st) m.

Definition empty_store : Store := mkStore ∅ ∅ ∅ ∅ ∅ ∅ ∅.

(** The [_id] the driver gives a new document of a collection. *)
Definition new_id {D : Type} (m : gmap ObjectId D) : ObjectId := fresh (dom m).

(** All documents of a collection, for queries and aggregations. *)
Definition documents {D : Type} (m : gmap ObjectId D) : list D :=
  (map_to_list m).*2.

(** [Counter.findByIdAndUpdate(name, {$inc: {seq: 1}}, {new: true, upsert: true})]:
    the incremented sequence number and the store holding it. *)
Definition next_seq (name : string) (st : Store) : nat * Store :=
  let seq := S (default 0 (counters st !! name)) in
  (seq, with_counters (<[name := seq]> (counters st)) st).

(** What the validators of the paths outside the model and the database
    answer to a [create]. *)
Inductive StoreVerdict :=
| Accepted
| ValidationError (messages : list string)
| DuplicateKey
| StoreFailure.

#[global] Instance StoreVerdict_eq_dec : EqDecision StoreVerdict.
Proof. solve_decision. Defined.

(** What a rejected promise or a [throw] carries: a Mongoose
    [ValidationError] with the messages of its [errors], a duplicate key
    error of the database (code 11000), the [CastError] of an update
    document, another failure of the database, or an [Error] thrown by
    the code itself. *)
Inductive Exception :=
| ValidationFailed (messages : list string)
| DuplicateKeyError
| CastError
| DatabaseError
| Error (message : string).

(** A JSON response: the HTTP status and the [message] field. *)
Record Response := mkResponse { statusCode : nat; message : string }.

(** ** Validators and unique indexes *)

Module Validator.
(** The messages of the built-in validators. *)
Definition required_message (path : string) : string :=
  "Path `" +:+ path +:+ "` is required.".
Definition min_message (path : string) (value min : Z) : string :=
  "Path `" +:+ path +:+ "` (" +:+ pretty value
  +:+ ") is less than minimum allowed value (" +:+ pretty min +:+ ").".
Definition max_message (path : string) (value max : Z) : string :=
  "Path `" +:+ path +:+ "` (" +:+ pretty value
  +:+ ") is more than maximum allowed value (" +:+ pretty max +:+ ").".
Definition enum_message (path value : string) : string :=
  "`" +:+ value +:+ "` is not a valid enum value for path `" +:+ path +:+ "`.".

(** [required: true]; a String path is also refused when it is empty. *)
Definition required {A} (path : string) (value : option A) : list string :=
  match value with None => [required_message path] | Some _ => [] end.
Definition required_string (path : string) (value : option string) : list string :=
  if decide (falsy value) then [required_message path] else [].

(** [min] and [max] of a Number path that has a value. *)
Definition min (path : string) (bound value : Z) : list string :=
  if (value <? bound)%Z then [min_message path value bound] else [].
Definition max (path : string) (bound value : Z) : list string :=
  if (bound <? value)%Z then [max_message path value bound] else [].
Definition range (path : string) (low high value : Z) : list string :=
  if (value <? low)%Z then [min_message path value low]
  else max path high value.
Definition min_if_set (path : string) (bound : Z) (value : option Z) : list string :=
  match value with Some v => min path bound v | None => [] end.

(** [enum] of a String path that has a value. *)
Definition enum (path : string) (values : list string) (value : string)
    : list string :=
  if decide (value ∈ values) then [] else [enum_message path value].

(** The messages of a validation: those of the paths of the model, then
    those of the other paths, when the verdict has any.  [None] when the
    document passes. *)
Definition run (failed : list string) (verdict : StoreVerdict)
    : option (list string) :=
  match verdict with
  | ValidationError messages => Some (failed ++ messages)
  | _ => if decide (failed = []) then None else Some failed
  end.
End Validator.

(** A unique index on [key] refuses the document [this] written under
    [id] when the write gives it a key that another document has. *)
Definition index_violated {D K : Type} `{EqDecision K} (key : D → K)
    (id : ObjectId) (m : gmap ObjectId D) (this : D) : Prop :=
  key <$> m !! id ≠ Some (key this)
  ∧ map_Exists (λ id' other, id' ≠ id ∧ key other = key this) m.

#[global] Instance index_violated_dec {D K : Type} `{EqDecision K} (key : D → K)
    id m this : Decision (index_violated key id m this).
Proof. unfold index_violated. apply _. Defined.

(** What the database answers to the write of a document that passed
    validation; [duplicate] says whether a unique index of the model
    refuses it. *)
Definition write_error (verdict : StoreVerdict) (duplicate : bool)
    : option Exception :=
  if duplicate then Some DuplicateKeyError
  else match verdict with
       | DuplicateKey => Some DuplicateKeyError
       | StoreFailure => Some DatabaseError
       | _ => None
       end.

(** ** models/Enrollment.js *)

Module Enrollment.
Import enrollmentSchema.

Definition statuses : list string :=
  ["pending"; "active"; "completed"; "dropped"; "suspended"; "transferred"].
Definition installment_statuses : list string :=
  ["pending"; "paid"; "overdue"; "waived"].
Definition attendance_statuses : list string :=
  ["present"; "absent"; "late"; "leave"].

(** The validators of the schema, path by path ([student], [course] and
    [fees.total] are required and always there in the model). *)
Definition validate (this : t) : list string :=
  Validator.required_string "enrollmentId" (enrollmentId this)
  ++ Validator.enum "status" statuses (status this)
  ++ Validator.min "fees.total" 0 (Fees.total (fees this))
  ++ Validator.min "fees.paid" 0 (Fees.paid (fees this))
  ++ Validator.min "fees.pending" 0 (Fees.pending (fees this))
  ++ (paymentPlan this
      ≫= λ i, Validator.enum "status" installment_statuses (Installment.status i))
  ++ Validator.range "progress.percentage" 0 100 (Progress.percentage (progress this))
  ++ (attendance this
      ≫= λ a, Validator.enum "status" attendance_statuses (AttendanceRecord.status a)).

(** [enrollmentSchema.pre('save')]: the enrollment number when there is
    none, the pending fees, and the progress percentage against the
    curriculum of the course, when the course is found.  (The progress
    record of a document and its list of completed modules always exist,
    and so does the curriculum of a course that is found.) *)
Definition pre_save (st : Store) (this : t) : Store * t :=
  let '(st1, this1) :=
    if decide (falsy (enrollmentId this))
    then
      let '(seq, st') := next_seq "enrollmentId" st in
      (st', with_enrollmentId (Some ("ENR" +:+ pad_start 8 seq)) this)
    else (st, this) in
  let this2 :=
    with_fees (Fees.mk (Fees.total (fees this1)) (Fees.paid (fees this1))
                       (Fees.total (fees this1) - Fees.paid (fees this1))%Z)
              this1 in
  let this3 :=
    match courses st1 !! course this2 with
    | Some c =>
        let totalModules := length (courseSchema.curriculum c) in
        let completedModules :=
          length (Progress.completedModules (progress this2)) in
        with_progress
          (Progress.mk (if (0 <? totalModules)%nat
                        then Number.to_Z
                               (round_ratio_times_100 completedModules totalModules)
                        else 0%Z)
                       (Progress.completedModules (progress this2)))
          this2
    | None => this2
    end in
  (st1, this3).

(** The unique indexes: [enrollmentId], and the pair of student and
    course. *)
Definition duplicate_key (id : ObjectId) (st : Store) (this : t) : Prop :=
  index_violated enrollmentId id (enrollments st) this
  ∨ index_violated (λ e, (student e, course e)) id (enrollments st) this.

(** A save of the document with [_id] [id]: validation, the hook, the
    write.  The document in memory is the one the hook left. *)
Definition save_with (verdict : StoreVerdict) (id : ObjectId) (st : Store)
    (this : t) : Store * (Exception + t) :=
  match Validator.run (validate this) verdict with
  | Some messages => (st, inl (ValidationFailed messages))
  | None =>
      let '(st1, this1) := pre_save st this in
      match write_error verdict (bool_decide (duplicate_key id st1 this1)) with
      | Some error => (st1, inl error)
      | None =>
          (with_enrollments (<[id := this1]> (enrollments st1)) st1, inr this1)
      end
  end.

(** [this.save()] of a document read from the store. *)
Definition save : ObjectId → Store → t → Store * (Exception + t) :=
  save_with Accepted.

(** [Enrollment.create(data)] *)
Definition create (verdict : StoreVerdict) (st : Store) (data : t)
    : Store * (Exception + ObjectId * t) :=
  let id := new_id (enrollments st) in
  match save_with verdict id st data with
  | (st1, inr this1) => (st1, inr (id, this1))
  | (st1, inl error) => (st1, inl error)
  end.

Definition is_present_or_late (status : string) : Prop :=
  status = "present" ∨ status = "late".

#[global] Instance is_present_or_late_dec status :
  Decision (is_present_or_late status).
Proof. unfold is_present_or_late. apply _. Defined.

(** [enrollmentSchema.virtual('attendancePercentage')] *)
Definition attendancePercentage (this : t) : Number.t :=
  if decide (length (attendance this) = 0%nat) then Number.of_Z 0
  else
    let presentDays :=
      length (filter (λ session,
                        is_present_or_late (AttendanceRecord.status session))
                     (attendance this)) in
    round_ratio_times_100 presentDays (length (attendance this)).

(** [enrollmentSchema.methods.markAttendance] *)
Definition markAttendance (id : ObjectId) (st : Store) (this : t)
    (date : nat) (sessionId : ObjectId) (status remarks : string)
    : Store * (Exception + t) :=
  let attendanceRecord := AttendanceRecord.mk sessionId date status remarks in
  let attendance' :=
    match list_find (λ a, AttendanceRecord.session a = sessionId
                          ∧ AttendanceRecord.date a = date)
                    (attendance this) with
    | Some (existingIndex, _) =>
        <[existingIndex := attendanceRecord]> (attendance this)
    | None => attendance this ++ [attendanceRecord]
    end in
  save id st (with_attendance attendance' this).

(** [enrollmentSchema.methods.updatePayment] *)
Definition updatePayment (id : ObjectId) (st : Store) (this : t)
    (amount : Z) (installmentNumber : option nat) : Store * (Exception + t) :=
  let paid' := (Fees.paid (fees this) + amount)%Z in
  let this1 :=
    with_fees (Fees.mk (Fees.total (fees this)) paid'
                       (Fees.total (fees this) - paid')%Z) this in
  let this2 :=
    match installmentNumber with
    | Some n =>
        match paymentPlan this1 !! n with
        | Some _ =>
            with_paymentPlan
              (<[n := Installment.mk "paid" (Some amount)]> (paymentPlan this1))
              this1
        | None => this1
        end
    | None => this1
    end in
  save id st this2.

(** [enrollmentSchema.methods.completeModule] *)
Definition completeModule (id : ObjectId) (st : Store) (this : t)
    (moduleId : ObjectId) (score : option Z) : Store * (Exception + t) :=
  let moduleCompletion := ModuleCompletion.mk moduleId score in
  let completed := Progress.completedModules (progress this) in
  let completed' :=
    match list_find (λ m, ModuleCompletion.moduleId m = moduleId) completed with
    | Some (existingIndex, _) => <[existingIndex := moduleCompletion]> completed
    | None => completed ++ [moduleCompletion]
    end in
  save id st
       (with_progress (Progress.mk (Progress.percentage (progress this)) completed')
                      this).
End Enrollment.

(** ** models/Student.js *)

Module FeeSummary.
Record t := mk {
  totalFees : Z;
  paidAmount : Z;
  pendingAmount : Z;
  paidPercentage : Number.t;
  installments : list Installment.t }.
End FeeSummary.

Module Student.
Import studentSchema.

Definition admission_types : list string :=
  ["direct"; "lead_conversion"; "online"; "reference"; "corporate"].
Definition enrollment_statuses : list string :=
  ["active"; "completed"; "dropped"; "suspended"; "transferred"].
Definition schedule_statuses : list string :=
  ["pending"; "paid"; "overdue"; "waived"; "partial"].

(** The defaults of the schema on a document that is built or read:
    [paidAmount] and [pendingAmount] are 0 where the data have none. *)
Definition defaults (this : t) : t :=
  let plan := paymentPlan this in
  with_paymentPlan
    (PaymentPlan.mk (PaymentPlan.totalFees plan)
                    (Some (or_zero (PaymentPlan.paidAmount plan)))
                    (Some (or_zero (PaymentPlan.pendingAmount plan)))
                    (PaymentPlan.paymentSchedule plan))
    this.

(** [Student.findById(id)] *)
Definition findById (st : Store) (id : ObjectId) : option t :=
  defaults <$> students st !! id.

(** The validators of the schema, path by path. *)
Definition validate (this : t) : list string :=
  Validator.required_string "studentId" (studentId this)
  ++ Validator.required_string "personalDetails.fullName" (Some (fullName this))
  ++ Validator.required_string "personalDetails.phone" (Some (phone this))
  ++ Validator.enum "admissionDetails.admissionType" admission_types
                    (admissionType this)
  ++ (studentSchema.enrollments this
      ≫= λ e, Validator.required "course" (StudentEnrollment.course e)
              ++ Validator.enum "status" enrollment_statuses
                                (StudentEnrollment.status e))
  ++ Validator.required "paymentPlan.totalFees"
                        (PaymentPlan.totalFees (paymentPlan this))
  ++ Validator.min_if_set "paymentPlan.totalFees" 0
                          (PaymentPlan.totalFees (paymentPlan this))
  ++ Validator.min_if_set "paymentPlan.paidAmount" 0
                          (PaymentPlan.paidAmount (paymentPlan this))
  ++ Validator.min_if_set "paymentPlan.pendingAmount" 0
                          (PaymentPlan.pendingAmount (paymentPlan this))
  ++ (PaymentPlan.paymentSchedule (paymentPlan this)
      ≫= λ i, Validator.enum "status" schedule_statuses (Installment.status i)).

(** [studentSchema.pre('save')]: the student number when there is none,
    and the pending amount of the payment plan. *)
Definition pre_save (st : Store) (this : t) : Store * t :=
  let '(st1, this1) :=
    if decide (falsy (studentId this))
    then
      let '(seq, st') := next_seq "studentId" st in
      (st', with_studentId (Some ("STU" +:+ pad_start 6 seq)) this)
    else (st, this) in
  let plan := paymentPlan this1 in
  (st1,
   with_paymentPlan
     (PaymentPlan.mk (PaymentPlan.totalFees plan) (PaymentPlan.paidAmount plan)
                     (js_sub (PaymentPlan.totalFees plan)
                             (PaymentPlan.paidAmount plan))
                     (PaymentPlan.paymentSchedule plan))
     this1).

(** The unique index of the model: [studentId] (those on the phone, the
    email and the user name are the verdict's). *)
Definition duplicate_key (id : ObjectId) (st : Store) (this : t) : Prop :=
  index_violated studentId id (students st) this.

Definition save_with (verdict : StoreVerdict) (id : ObjectId) (st : Store)
    (this : t) : Store * (Exception + t) :=
  match Validator.run (validate this) verdict with
  | Some messages => (st, inl (ValidationFailed messages))
  | None =>
      let '(st1, this1) := pre_save st this in
      match write_error verdict (bool_decide (duplicate_key id st1 this1)) with
      | Some error => (st1, inl error)
      | None => (with_students (<[id := this1]> (students st1)) st1, inr this1)
      end
  end.

(** [this.save()] of a document read from the store. *)
Definition save : ObjectId → Store → t → Store * (Exception + t) :=
  save_with Accepted.

(** [Student.create(data)] *)
Definition create (verdict : StoreVerdict) (st : Store) (data : t)
    : Store * (Exception + ObjectId * t) :=
  let id := new_id (students st) in
  match save_with verdict id st (defaults data) with
  | (st1, inr this1) => (st1, inr (id, this1))
  | (st1, inl error) => (st1, inl error)
  end.

(** [studentSchema.methods.updatePayment] *)
Definition updatePayment (id : ObjectId) (st : Store) (this : t)
    (amount : Z) (installmentNumber : option nat) : Store * (Exception + t) :=
  let plan := paymentPlan this in
  let paidAmount' := js_add (PaymentPlan.paidAmount plan) (Some amount) in
  let pendingAmount' := js_sub (PaymentPlan.totalFees plan) paidAmount' in
  let schedule := PaymentPlan.paymentSchedule plan in
  let schedule' :=
    match installmentNumber with
    | Some n =>
        match schedule !! n with
        | Some _ => <[n := Installment.mk "paid" (Some amount)]> schedule
        | None => schedule
        end
    | None => schedule
    end in
  save id st
       (with_paymentPlan
          (PaymentPlan.mk (PaymentPlan.totalFees plan) paidAmount' pendingAmount'
                          schedule')
          this).

(** [studentSchema.methods.getFeeSummary].  The schedule is an array, so
    [paymentSchedule || []] is the schedule itself; [paidPercentage] is
    the number [toFixed(2)] is applied to. *)
Definition getFeeSummary (this : t) : FeeSummary.t :=
  let totalFees := or_zero (PaymentPlan.totalFees (paymentPlan this)) in
  let paidAmount := or_zero (PaymentPlan.paidAmount (paymentPlan this)) in
  let pendingAmount := (totalFees - paidAmount)%Z in
  let paidPercentage :=
    if (0 <? totalFees)%Z
    then Number.mul (Number.div (Number.of_Z paidAmount) (Number.of_Z totalFees))
                    (Number.of_Z 100)
    else Number.of_Z 0 in
  FeeSummary.mk totalFees paidAmount pendingAmount paidPercentage
                (PaymentPlan.paymentSchedule (paymentPlan this)).
End Student.

(** ** models/Lead.js *)

Module Lead.
Import leadSchema.

Definition statuses : list string :=
  ["new"; "contacted"; "follow_up"; "qualified"; "converted"; "lost";
   "not_interested"].

Definition validate (this : t) : list string :=
  Validator.required_string "leadId" (leadId this)
  ++ Validator.required_string "fullName" (Some (fullName this))
  ++ Validator.required_string "phone" (Some (phone this))
  ++ Validator.enum "status" statuses (status this).

(** [this.save()] of a lead read from the store.  (Its hook only numbers
    a lead that has no [leadId], and such a lead does not pass the
    validation.) *)
Definition save (id : ObjectId) (st : Store) (this : t) : Store * (Exception + t) :=
  match Validator.run (validate this) Accepted with
  | Some messages => (st, inl (ValidationFailed messages))
  | None => (with_leads (<[id := this]> (leads st)) st, inr this)
  end.
End Lead.

(** ** models/Payment.js *)

(** The value an update document gives a path: a number, or an object
    built with an operator, as [{$subtract: [...]}]. *)
Inductive UpdateValue := Literal (n : Z) | Operator (name : string).

(** The cast of the value an update document gives a Number path. *)
Definition cast_number (value : UpdateValue) : Exception + Z :=
  match value with Literal n => inr n | Operator _ => inl CastError end.

Module Payment.
Import paymentSchema.

Definition modes : list string :=
  ["cash"; "cheque"; "online"; "card"; "bank_transfer"; "upi"; "other"].
Definition statuses : list string :=
  ["pending"; "completed"; "failed"; "refunded"; "cancelled"].

(** The validators of the schema, path by path ([student] and [amount]
    are required and always there in the model). *)
Definition validate (this : t) : list string :=
  Validator.required_string "paymentId" (paymentId this)
  ++ Validator.min "amount" 0 (amount this)
  ++ (if decide (falsy (paymentMode this))
      then [Validator.required_message "paymentMode"]
      else Validator.enum "paymentMode" modes (default "" (paymentMode this)))
  ++ Validator.enum "status" statuses (status this).

(** [paymentSchema.pre('save')]: the payment number when there is none,
    and the receipt number when there is none, counted by the month
    [period] (two digits of the year, two of the month) of the clock. *)
Definition pre_save (period : string) (st : Store) (this : t) : Store * t :=
  let '(st1, this1) :=
    if decide (falsy (paymentId this))
    then
      let '(seq, st') := next_seq "paymentId" st in
      (st', with_paymentId (Some ("PAY" +:+ pad_start 8 seq)) this)
    else (st, this) in
  if decide (falsy (receiptNumber this1))
  then
    let '(seq, st') := next_seq ("receipt_" +:+ period) st1 in
    (st', with_receiptNumber (Some ("RCPT" +:+ period +:+ pad_start 4 seq)) this1)
  else (st1, this1).

(** [Student.findByIdAndUpdate(id, {$inc: {'paymentPlan.paidAmount': inc},
    $set: {'paymentPlan.pendingAmount': pending}})]: the update document
    is cast first. *)
Definition update_student (id : ObjectId) (inc : Z) (pending : UpdateValue)
    (st : Store) : Exception + Store :=
  match cast_number pending with
  | inl error => inl error
  | inr pendingAmount =>
      inr (with_students
             (alter (λ s,
                       let plan := studentSchema.paymentPlan s in
                       studentSchema.with_paymentPlan
                         (PaymentPlan.mk
                            (PaymentPlan.totalFees plan)
                            (Some (or_zero (PaymentPlan.paidAmount plan) + inc)%Z)
                            (Some pendingAmount)
                            (PaymentPlan.paymentSchedule plan))
                         s)
                    id (students st))
             st)
  end.

(** [Enrollment.findByIdAndUpdate(id, {$inc: {'fees.paid': inc},
    $set: {'fees.pending': pending}})] *)
Definition update_enrollment (id : ObjectId) (inc : Z) (pending : UpdateValue)
    (st : Store) : Exception + Store :=
  match cast_number pending with
  | inl error => inl error
  | inr pendingAmount =>
      inr (with_enrollments
             (alter (λ e,
                       let f := enrollmentSchema.fees e in
                       enrollmentSchema.with_fees
                         (Fees.mk (Fees.total f) (Fees.paid f + inc)%Z pendingAmount)
                         e)
                    id (enrollments st))
             st)
  end.

(** [paymentSchema.post('save')]: it runs after every save of a payment,
    whatever its status.  Each update sets the pending amount to an
    object, [{$subtract: [...]}]; the two updates are in one [try], and
    its [catch] only logs. *)
Definition post_save (st : Store) (this : t) : Store :=
  match update_student (student this) (amount this) (Operator "$subtract") st with
  | inl _ => st
  | inr st1 =>
      match enrollment this with
      | Some enrollmentId =>
          match update_enrollment enrollmentId (amount this)
                                  (Operator "$subtract") st1 with
          | inl _ => st1
          | inr st2 => st2
          end
      | None => st1
      end
  end.

(** The unique indexes: [paymentId] and [receiptNumber]. *)
Definition duplicate_key (id : ObjectId) (st : Store) (this : t) : Prop :=
  index_violated paymentId id (payments st) this
  ∨ index_violated receiptNumber id (payments st) this.

(** A save of the payment with [_id] [id]: validation, the hook before
    the write, the write, the hook after it. *)
Definition save_with (verdict : StoreVerdict) (period : string) (id : ObjectId)
    (st : Store) (this : t) : Store * (Exception + t) :=
  match Validator.run (validate this) verdict with
  | Some messages => (st, inl (ValidationFailed messages))
  | None =>
      let '(st1, this1) := pre_save period st this in
      match write_error verdict (bool_decide (duplicate_key id st1 this1)) with
      | Some error => (st1, inl error)
      | None =>
          (post_save (with_payments (<[id := this1]> (payments st1)) st1) this1,
           inr this1)
      end
  end.

(** [this.save()] of a payment read from the store. *)
Definition save : string → ObjectId → Store → t → Store * (Exception + t) :=
  save_with Accepted.

(** [Payment.create(data)] *)
Definition create (verdict : StoreVerdict) (period : string) (st : Store)
    (data : t) : Store * (Exception + ObjectId * t) :=
  let id := new_id (payments st) in
  match save_with verdict period id st data with
  | (st1, inr this1) => (st1, inr (id, this1))
  | (st1, inl error) => (st1, inl error)
  end.
End Payment.

(** ** models/Course.js and the aggregation of enrollments by status *)

(** An identifier as a function receives it: the string of a request
    body, or the [ObjectId] of a document.  Queries and [findById] cast
    the string; an aggregation pipeline is sent as it is, and there a
    stored [ObjectId] is equal to an [ObjectId] only. *)
Inductive IdValue := AsString (id : ObjectId) | AsObjectId (id : ObjectId).

Definition cast_id (value : IdValue) : ObjectId :=
  match value with AsString id | AsObjectId id => id end.

#[global] Instance IdValue_eq_dec : EqDecision IdValue.
Proof. solve_decision. Defined.

(** One more document with key [k] in a [$group ... {$sum: 1}] result. *)
Fixpoint bump (k : string) (groups : list (string * nat)) : list (string * nat) :=
  match groups with
  | [] => [(k, 1)]
  | (k', n) :: rest =>
      if decide (k = k') then (k', S n) :: rest else (k', n) :: bump k rest
  end.

(** [Enrollment.aggregate([{$match: {course: courseId}}, {$group: {_id:
    '$status', count: {$sum: 1}}}])] over the documents of the collection. *)
Definition aggregate_by_status (docs : list enrollmentSchema.t) (courseId : IdValue)
    : list (string * nat) :=
  foldl (λ groups e, bump (enrollmentSchema.status e) groups) []
        (filter (λ e, AsObjectId (enrollmentSchema.course e) = courseId) docs).

(** The [forEach] over the groups that fills the [enrollmentStats] object. *)
Definition tally_stats (stats : list (string * nat)) : EnrollmentStats.t :=
  foldl (λ enrollmentStats stat,
           let '(_id, count) := stat in
           EnrollmentStats.mk
             (EnrollmentStats.totalEnrolled enrollmentStats + count)
             (if decide (_id = "active") then count
              else EnrollmentStats.active enrollmentStats)
             (if decide (_id = "completed") then count
              else EnrollmentStats.completed enrollmentStats)
             (if decide (_id = "dropped") then count
              else EnrollmentStats.dropout enrollmentStats))
        (EnrollmentStats.mk 0 0 0 0) stats.

Module Course.
(** The validators of the schema on the paths of the model: the course
    code, the title of each module and the batch number of each embedded
    batch summary are required. *)
Definition validate (this : courseSchema.t) : list string :=
  Validator.required_string "courseCode" (Some (courseSchema.courseCode this))
  ++ (courseSchema.curriculum this
      ≫= λ title, Validator.required_string "title" (Some title))
  ++ (courseSchema.batches this ≫= Validator.required_string "batchId").

(** [this.save()] of a course read from the store.  (Its hook only gives
    a course code to a course without one, and such a course does not
    pass the validation.) *)
Definition save (id : ObjectId) (st : Store) (this : courseSchema.t)
    : Store * (Exception + courseSchema.t) :=
  match Validator.run (validate this) Accepted with
  | Some messages => (st, inl (ValidationFailed messages))
  | None => (with_courses (<[id := this]> (courses st)) st, inr this)
  end.

(** [courseSchema.methods.updateEnrollmentStats] of the course with
    [_id] [id]. *)
Definition updateEnrollmentStats (id : ObjectId) (st : Store)
    (this : courseSchema.t) : Store * (Exception + courseSchema.t) :=
  let results := aggregate_by_status (documents (enrollments st)) (AsObjectId id) in
  save id st (courseSchema.with_enrollmentStats (tally_stats results) this).
End Course.

(** ** models/Batch.js *)

Module Batch.
(** The validator of [currentStudents], [min: 0]. *)
Definition validate (this : batchSchema.t) : list string :=
  Validator.min "currentStudents" 0 (batchSchema.currentStudents this).

(** [this.save()] of a batch read from the store.  (Its hook only numbers
    a batch that has no [batchId].) *)
Definition save (id : ObjectId) (st : Store) (this : batchSchema.t)
    : Store * (Exception + batchSchema.t) :=
  match Validator.run (validate this) Accepted with
  | Some messages => (st, inl (ValidationFailed messages))
  | None => (with_batches (<[id := this]> (batches st)) st, inr this)
  end.



End Batch.

(** ** controllers/enrollmentController.js *)

(** [Enrollment.findOne({student, course, status: {$in: ['pending', 'active']}})] *)
Definition findOne_pending_or_active (st : Store) (student course : ObjectId)
    : option enrollmentSchema.t :=
  head (filter (λ e, enrollmentSchema.student e = student
                     ∧ enrollmentSchema.course e = course
                     ∧ (enrollmentSchema.status e = "pending"
                        ∨ enrollmentSchema.status e = "active"))
               (documents (enrollments st))).

(** [messages.join(', ')] *)
Definition join_messages (messages : list string) : string :=
  String.concat ", " messages.

Module enrollmentController.

(** [calculateAttendancePercentage]; the argument may be undefined. *)
Definition calculateAttendancePercentage
    (attendance : option (list AttendanceRecord.t)) : Number.t :=
  match attendance with
  | None => Number.of_Z 0
  | Some attendance =>
      if decide (length attendance = 0%nat) then Number.of_Z 0
      else
        let presentDays :=
          length (filter (λ session,
                            Enrollment.is_present_or_late
                              (AttendanceRecord.status session))
                         attendance) in
        round_ratio_times_100 presentDays (length attendance)
  end.

(** [updateCourseEnrollmentStats]: the aggregation matches [courseId] as
    it is given, [Course.findByIdAndUpdate] casts it. *)
Definition updateCourseEnrollmentStats (courseId : IdValue) (st : Store) : Store :=
  let stats := aggregate_by_status (documents (enrollments st)) courseId in
  let enrollmentStats := tally_stats stats in
  with_courses (alter (courseSchema.with_enrollmentStats enrollmentStats)
                      (cast_id courseId) (courses st)) st.

(** [$inc: {currentStudents: n}] on a batch. *)
Definition inc_currentStudents (n : Z) (b : batchSchema.t) : batchSchema.t :=
  batchSchema.with_currentStudents (batchSchema.currentStudents b + n)%Z b.

(** [$push: {enrollments: id}] on a student: the [ObjectId] is cast to an
    element of the array. *)
Definition push_enrollment (id : ObjectId) (s : studentSchema.t) : studentSchema.t :=
  studentSchema.with_enrollments
    (studentSchema.enrollments s ++ [StudentEnrollment.of_ObjectId id]) s.

(** [$pull: {enrollments: id}] on a student takes the elements equal to
    [id] off the array.  The elements are subdocuments and [id] is an
    [ObjectId]: none is equal to it, and the array stays as it is. *)
Definition pull_enrollment (id : ObjectId) (s : studentSchema.t) : studentSchema.t :=
  s.

(** [createEnrollment]; [enrollmentData] is the request body with the
    defaults of the schema filled in.  The identifiers of a body are
    strings. *)
Definition createEnrollment (verdict : StoreVerdict) (st : Store)
    (enrollmentData : enrollmentSchema.t) : Response * Store :=
  match findOne_pending_or_active st (enrollmentSchema.student enrollmentData)
                                  (enrollmentSchema.course enrollmentData) with
  | Some existingEnrollment =>
      (mkResponse 400
         "Student is already enrolled or has a pending enrollment for this course",
       st)
  | None =>
      let full :=
        match enrollmentSchema.batch enrollmentData with
        | Some batchId =>
            match batches st !! batchId with
            | Some batch =>
                (batchSchema.currentStudents batch
                 >=? batchSchema.maxStudents batch)%Z
            | None => false
            end
        | None => false
        end in
      if full then (mkResponse 400 "Selected batch is full", st)
      else
        match Enrollment.create verdict st enrollmentData with
        | (st1, inr (_id, enrollment)) =>
            let st2 :=
              with_students
                (alter (push_enrollment _id)
                       (enrollmentSchema.student enrollmentData) (students st1))
                st1 in
            let st3 :=
              match enrollmentSchema.batch enrollmentData with
              | Some batchId =>
                  with_batches (alter (inc_currentStudents 1) batchId (batches st2))
                               st2
              | None => st2
              end in
            let st4 :=
              updateCourseEnrollmentStats
                (AsString (enrollmentSchema.course enrollmentData)) st3 in
            (mkResponse 201 "Enrollment created successfully", st4)
        | (st1, inl (ValidationFailed messages)) =>
            (mkResponse 400 (join_messages messages), st1)
        | (st1, inl DuplicateKeyError) =>
            (mkResponse 400 "Enrollment ID already exists", st1)
        | (st1, inl _) => (mkResponse 500 "Server error", st1)
        end
  end.

(** [deleteEnrollment] *)
Definition deleteEnrollment (id : ObjectId) (st : Store) : Response * Store :=
  match enrollments st !! id with
  | None => (mkResponse 404 "Enrollment not found", st)
  | Some enrollment =>
      let st1 :=
        with_students
          (alter (pull_enrollment id) (enrollmentSchema.student enrollment)
                 (students st))
          st in
      let st2 :=
        match enrollmentSchema.batch enrollment with
        | Some batchId =>
            with_batches (alter (inc_currentStudents (-1)) batchId (batches st1)) st1
        | None => st1
        end in
      let st3 :=
        updateCourseEnrollmentStats
          (AsObjectId (enrollmentSchema.course enrollment)) st2 in
      (mkResponse 200 "Enrollment deleted successfully",
       with_enrollments (delete id (enrollments st3)) st3)
  end.

(** [updateProgress]; the data of the answer are the progress percentage
    and the number of completed modules. *)
Definition updateProgress (id : ObjectId) (moduleId : ObjectId) (score : option Z)
    (st : Store) : Response * option (Z * nat) * Store :=
  match enrollments st !! id with
  | None => (mkResponse 404 "Enrollment not found", None, st)
  | Some enrollment =>
      match Enrollment.completeModule id st enrollment moduleId score with
      | (st1, inr enrollment1) =>
          (mkResponse 200 "Progress updated successfully",
           Some (Progress.percentage (enrollmentSchema.progress enrollment1),
                 length (Progress.completedModules
                           (enrollmentSchema.progress enrollment1))),
           st1)
      | (st1, inl _) => (mkResponse 500 "Server error", None, st1)
      end
  end.

(** [markAttendance]; the data of the answer is the attendance percentage. *)
Definition markAttendance (id : ObjectId) (date : nat) (session : ObjectId)
    (status remarks : string) (st : Store) : Response * option Number.t * Store :=
  match enrollments st !! id with
  | None => (mkResponse 404 "Enrollment not found", None, st)
  | Some enrollment =>
      match Enrollment.markAttendance id st enrollment date session status
                                      remarks with
      | (st1, inr enrollment1) =>
          (mkResponse 200 "Attendance marked successfully",
           Some (calculateAttendancePercentage
                   (Some (enrollmentSchema.attendance enrollment1))),
           st1)
      | (st1, inl _) => (mkResponse 500 "Server error", None, st1)
      end
  end.
End enrollmentController.

Module EnrollmentUpdate.
(** The request body of an update: for each field of an enrollment, the
    value the body gives it, if the body has that key; a body that gives
    the fees or the progress gives them whole.  ([enrollmentId], [_id]
    and [meta] are the keys the controller skips.) *)
Record t := mk {
  student : option ObjectId;
  course : option ObjectId;
  batch : option (option ObjectId);
  status : option string;
  fees : option Fees.t;
  paymentPlan : option (list Installment.t);
  progress : option Progress.t;
  attendance : option (list AttendanceRecord.t) }.

Definition empty : t := mk None None None None None None None None.
End EnrollmentUpdate.

(** The [forEach] over the keys of the body: [enrollment[key] = req.body[key]]. *)
Definition assign_body (body : EnrollmentUpdate.t) (enrollment : enrollmentSchema.t)
    : enrollmentSchema.t :=
  enrollmentSchema.mk
    (enrollmentSchema.enrollmentId enrollment)
    (default (enrollmentSchema.student enrollment) (EnrollmentUpdate.student body))
    (default (enrollmentSchema.course enrollment) (EnrollmentUpdate.course body))
    (default (enrollmentSchema.batch enrollment) (EnrollmentUpdate.batch body))
    (default (enrollmentSchema.status enrollment) (EnrollmentUpdate.status body))
    (default (enrollmentSchema.fees enrollment) (EnrollmentUpdate.fees body))
    (default (enrollmentSchema.paymentPlan enrollment)
             (EnrollmentUpdate.paymentPlan body))
    (default (enrollmentSchema.progress enrollment) (EnrollmentUpdate.progress body))
    (default (enrollmentSchema.attendance enrollment)
             (EnrollmentUpdate.attendance body)).

(** [updateEnrollment].  The batch counters move only when the enrollment
    had a batch and has another one now; the course statistics are
    recomputed only when the body carries a (non-empty) status.  The
    course of the document in memory is an [ObjectId]. *)
Definition updateEnrollment (id : ObjectId) (body : EnrollmentUpdate.t) (st : Store)
    : Response * Store :=
  match enrollments st !! id with
  | None => (mkResponse 404 "Enrollment not found", st)
  | Some enrollment =>
      let oldBatch := enrollmentSchema.batch enrollment in
      match Enrollment.save id st (assign_body body enrollment) with
      | (st1, inl _) => (mkResponse 500 "Server error", st1)
      | (st1, inr enrollment1) =>
          let st2 :=
            match oldBatch, enrollmentSchema.batch enrollment1 with
            | Some old, Some new =>
                if decide (old = new) then st1
                else
                  let st' :=
                    with_batches
                      (alter (enrollmentController.inc_currentStudents (-1)) old
                             (batches st1)) st1 in
                  with_batches
                    (alter (enrollmentController.inc_currentStudents 1) new
                           (batches st')) st'
            | _, _ => st1
            end in
          let st3 :=
            match EnrollmentUpdate.status body with
            | Some status =>
                if decide (status = "") then st2
                else enrollmentController.updateCourseEnrollmentStats
                       (AsObjectId (enrollmentSchema.course enrollment1)) st2
            | None => st2
            end in
          (mkResponse 200 "Enrollment updated successfully", st3)
      end
  end.

(** ** controllers/leadController.js *)

Module leadController.
(** [convertToStudent].  The student data are built from the lead: they
    have no student number and no payment plan. *)
Definition convertToStudent (verdict : StoreVerdict) (id : ObjectId) (st : Store)
    : Response * Store :=
  match leads st !! id with
  | None => (mkResponse 404 "Lead not found", st)
  | Some lead =>
      if leadSchema.convertedToStudent lead
      then (mkResponse 400 "Lead already converted to student", st)
      else
        let studentData :=
          studentSchema.mk None (leadSchema.fullName lead)
            (leadSchema.phone lead) (leadSchema.email lead)
            "lead_conversion" (Some id) []
            (PaymentPlan.mk None None None []) in
        match Student.create verdict st studentData with
        | (st1, inr (_id, student)) =>
            let lead1 :=
              leadSchema.mk (leadSchema.leadId lead) (leadSchema.fullName lead)
                            (leadSchema.phone lead) (leadSchema.email lead)
                            "converted" true (Some _id) in
            match Lead.save id st1 lead1 with
            | (st2, inr _) =>
                (mkResponse 201 "Lead converted to student successfully", st2)
            | (st2, inl _) => (mkResponse 500 "Server error", st2)
            end
        | (st1, inl DuplicateKeyError) =>
            (mkResponse 400 "Student with this phone or email already exists", st1)
        | (st1, inl _) => (mkResponse 500 "Server error", st1)
        end
  end.

(** [deleteLead] *)
Definition deleteLead (id : ObjectId) (st : Store) : Response * Store :=
  match leads st !! id with
  | None => (mkResponse 404 "Lead not found", st)
  | Some lead =>
      if leadSchema.convertedToStudent lead
      then (mkResponse 400 "Cannot delete converted lead", st)
      else (mkResponse 200 "Lead deleted successfully",
            with_leads (delete id (leads st)) st)
  end.
End leadController.

(** ** controllers/paymentController.js *)

Module paymentController.
(** [createPayment]; [body] is the request body with the defaults of the
    schema filled in, [role] the role of the user, [period] the month of
    the clock. *)
Definition createPayment (verdict : StoreVerdict) (period : string) (role : string)
    (body : paymentSchema.t) (st : Store) : Response * Store :=
  let paymentData :=
    if decide (role = "admin" ∨ role = "employee")
    then paymentSchema.with_status "completed" body
    else body in
  match Payment.create verdict period st paymentData with
  | (st1, inr _) => (mkResponse 201 "Payment recorded successfully", st1)
  | (st1, inl (ValidationFailed messages)) =>
      (mkResponse 400 (join_messages messages), st1)
  | (st1, inl _) => (mkResponse 500 "Server error", st1)
  end.

(** [verifyPayment] *)
Definition verifyPayment (period : string) (id : ObjectId) (st : Store)
    : Response * Store :=
  match payments st !! id with
  | None => (mkResponse 404 "Payment not found", st)
  | Some payment =>
      if decide (paymentSchema.status payment = "completed")
      then (mkResponse 400 "Payment already verified", st)
      else
        match Payment.save period id st
                (paymentSchema.with_status "completed" payment) with
        | (st1, inr _) => (mkResponse 200 "Payment verified successfully", st1)
        | (st1, inl _) => (mkResponse 500 "Server error", st1)
        end
  end.

(** [refundPayment]; the refund details kept on the payment are not part
    of the payment record of the model. *)
Definition refundPayment (period : string) (id : ObjectId) (amount : Z) (st : Store)
    : Response * Store :=
  match payments st !! id with
  | None => (mkResponse 404 "Payment not found", st)
  | Some payment =>
      if decide (paymentSchema.status payment ≠ "completed")
      then (mkResponse 400 "Only completed payments can be refunded", st)
      else if (paymentSchema.amount payment <? amount)%Z
      then (mkResponse 400 "Refund amount cannot exceed payment amount", st)
      else
        match Payment.save period id st
                (paymentSchema.with_status "refunded" payment) with
        | (st1, inr _) => (mkResponse 200 "Payment refunded successfully", st1)
        | (st1, inl _) => (mkResponse 500 "Server error", st1)
        end
  end.

(** [deletePayment] *)
Definition deletePayment (id : ObjectId) (st : Store) : Response * Store :=
  match payments st !! id with
  | None => (mkResponse 404 "Payment not found", st)
  | Some payment =>
      if decide (paymentSchema.status payment = "completed")
      then (mkResponse 400 "Cannot delete completed payment. Use refund instead.", st)
      else (mkResponse 200 "Payment deleted successfully",
            with_payments (delete id (payments st)) st)
  end.
End paymentController.

(** ** controllers/studentController.js *)

Module studentController.

(** [enrollStudent]; [fees_total] is [fees.total] of the request body.
    The enrollment data are built by the controller: they have no
    enrollment number. *)
Definition enrollStudent (verdict : StoreVerdict) (id : ObjectId)
    (course : ObjectId) (batch : option ObjectId) (fees_total : Z) (st : Store)
    : Response * Store :=
  match Student.findById st id with
  | None => (mkResponse 404 "Student not found", st)
  | Some student =>
      match findOne_pending_or_active st id course with
      | Some existingEnrollment =>
          (mkResponse 400
             "Student is already enrolled or has a pending enrollment for this course",
           st)
      | None =>
          let enrollmentData :=
            enrollmentSchema.mk None id course batch "pending"
              (Fees.mk fees_total 0 fees_total) [] (Progress.mk 0 []) [] in
          match Enrollment.create verdict st enrollmentData with
          | (st1, inr (_id, enrollment)) =>
              let student1 := enrollmentController.push_enrollment _id student in
              match Student.save id st1 student1 with
              | (st2, inr student2) =>
                  let plan := studentSchema.paymentPlan student2 in
                  let newTotalFees :=
                    (or_zero (PaymentPlan.totalFees plan) + fees_total)%Z in
                  let newPendingAmount :=
                    (newTotalFees - or_zero (PaymentPlan.paidAmount plan))%Z in
                  let student3 :=
                    studentSchema.with_paymentPlan
                      (PaymentPlan.mk (Some newTotalFees)
                                      (Some (or_zero (PaymentPlan.paidAmount plan)))
                                      (Some newPendingAmount)
                                      (PaymentPlan.paymentSchedule plan))
                      student2 in
                  match Student.save id st2 student3 with
                  | (st3, inr _) =>
                      (mkResponse 201 "Student enrolled successfully", st3)
                  | (st3, inl _) => (mkResponse 500 "Server error", st3)
                  end
              | (st2, inl _) => (mkResponse 500 "Server error", st2)
              end
          | (st1, inl _) => (mkResponse 500 "Server error", st1)
          end
      end
  end.

(** [updatePayment]: the payment of the student payment endpoint.  The
    payment data are built by the controller: they have no payment
    number.  The data of the answer is the fee summary of the student in
    memory. *)
Definition updatePayment (verdict : StoreVerdict) (period : string) (id : ObjectId)
    (amount : Z) (paymentMode : option string) (installmentNumber : option nat)
    (st : Store) : Response * option FeeSummary.t * Store :=
  match Student.findById st id with
  | None => (mkResponse 404 "Student not found", None, st)
  | Some student =>
      match Student.updatePayment id st student amount installmentNumber with
      | (st1, inl _) => (mkResponse 500 "Server error", None, st1)
      | (st1, inr student1) =>
          let paymentData :=
            paymentSchema.mk None id None amount paymentMode "completed" None
                             None in
          match Payment.create verdict period st1 paymentData with
          | (st2, inr _) =>
              (mkResponse 200 "Payment recorded successfully",
               Some (Student.getFeeSummary student1), st2)
          | (st2, inl _) => (mkResponse 500 "Server error", None, st2)
          end
      end
  end.

(** [getFeeSummary] *)
Definition getFeeSummary (id : ObjectId) (st : Store)
    : Response * option FeeSummary.t :=
  match Student.findById st id with
  | None => (mkResponse 404 "Student not found", None)
  | Some student => (mkResponse 200 "", Some (Student.getFeeSummary student))
  end.
End studentController.

(** ** controllers/batchController.js *)

Module AttendanceInput.
(** An element of [req.body.attendance]. *)
Record t := mk { studentId : ObjectId; status : string; remarks : string }.
End AttendanceInput.

Module batchController.
(** [addStudentToBatch] *)
Definition addStudentToBatch (id : ObjectId) (studentId : ObjectId) (st : Store)
    : Response * Store :=
  match batches st !! id with
  | None => (mkResponse 404 "Batch not found", st)
  | Some batch =>
      match students st !! studentId with
      | None => (mkResponse 404 "Student not found", st)
      | Some student =>
          if (batchSchema.currentStudents batch >=? batchSchema.maxStudents batch)%Z
          then (mkResponse 400 "Batch is full", st)
          else
            match list_find (λ s, RosterEntry.student s = studentId)
                            (batchSchema.students batch) with
            | Some existingStudent =>
                (mkResponse 400 "Student already enrolled in this batch", st)
            | None =>
                let batch1 :=
                  batchSchema.with_students
                    (batchSchema.students batch
                     ++ [RosterEntry.mk studentId "active" None None])
                    batch in
                let batch2 :=
                  batchSchema.with_currentStudents
                    (batchSchema.currentStudents batch1 + 1)%Z batch1 in
                match Batch.save id st batch2 with
                | (st1, inr _) =>
                    (mkResponse 200 "Student added to batch successfully", st1)
                | (st1, inl _) => (mkResponse 500 "Server error", st1)
                end
            end
      end
  end.

(** [removeStudentFromBatch] *)
Definition removeStudentFromBatch (id : ObjectId) (studentId : ObjectId)
    (st : Store) : Response * Store :=
  match batches st !! id with
  | None => (mkResponse 404 "Batch not found", st)
  | Some batch =>
      match list_find (λ s, RosterEntry.student s = studentId) (batchSchema.students batch) with
      | None => (mkResponse 404 "Student not found in this batch", st)
      | Some (studentIndex, _) =>
          let batch1 :=
            batchSchema.with_students (delete studentIndex (batchSchema.students batch)) batch in
          let batch2 :=
            batchSchema.with_currentStudents
              (Math.max 0 (batchSchema.currentStudents batch1 - 1))%Z batch1 in
          match Batch.save id st batch2 with
          | (st1, inr _) =>
              (mkResponse 200 "Student removed from batch successfully", st1)
          | (st1, inl _) => (mkResponse 500 "Server error", st1)
          end
      end
  end.

(** A roster entry as it is read and as it is written: without
    [attendanceRecords], which is no path of the schema. *)
Definition stored_entry (s : RosterEntry.t) : RosterEntry.t :=
  RosterEntry.mk (RosterEntry.student s) (RosterEntry.status s)
                 (RosterEntry.attendancePercentage s) None.

(** The body of the [forEach] of [markAttendance]: the record is pushed
    on the [attendanceRecords] of the roster entry in memory and the
    percentage of the entry is computed from those records against the
    sessions with attendance taken.  Sessions are named by their index. *)
Definition mark_record (sessionIndex : nat) (batch : batchSchema.t)
    (record : AttendanceInput.t) : batchSchema.t :=
  match list_find (λ s, RosterEntry.student s = AttendanceInput.studentId record)
                  (batchSchema.students batch) with
  | Some (k, student) =>
      let attendanceRecords :=
        default [] (RosterEntry.attendanceRecords student)
        ++ [RosterRecord.mk sessionIndex (AttendanceInput.status record)
                            (AttendanceInput.remarks record)] in
      let totalSessions :=
        length (filter (λ s, SessionEntry.attendanceTaken s = true)
                       (batchSchema.sessions batch)) in
      let attendedSessions :=
        length (filter (λ r, Enrollment.is_present_or_late (RosterRecord.status r))
                       attendanceRecords) in
      let attendancePercentage :=
        if (0 <? totalSessions)%nat
        then round_ratio_times_100 attendedSessions totalSessions
        else Number.of_Z 0 in
      batchSchema.with_students
        (<[k := RosterEntry.mk (RosterEntry.student student)
                               (RosterEntry.status student)
                               (Some attendancePercentage)
                               (Some attendanceRecords)]> (batchSchema.students batch))
        batch
  | None => batch
  end.

(** [markAttendance] for the session at [sessionIndex], what [parseInt]
    read from the route ([None] when it is no number: the session is then
    undefined and setting its status throws). *)
Definition markAttendance (id : ObjectId) (sessionIndex : option Z)
    (attendance : list AttendanceInput.t) (st : Store) : Response * Store :=
  match batches st !! id with
  | None => (mkResponse 404 "Batch not found", st)
  | Some stored =>
      let batch :=
        batchSchema.with_students (stored_entry <$> batchSchema.students stored)
                                  stored in
      match sessionIndex with
      | None => (mkResponse 500 "Server error", st)
      | Some sessionIndex =>
          if ((sessionIndex <? 0)
              || (Z.of_nat (length (batchSchema.sessions batch)) <=? sessionIndex))%Z
          then (mkResponse 400 "Invalid session index", st)
          else
            let i := Z.to_nat sessionIndex in
            let batch1 :=
              batchSchema.with_sessions
                (alter (λ session,
                          SessionEntry.mk (SessionEntry.topic session) "completed"
                                          true)
                       i (batchSchema.sessions batch))
                batch in
            let batch2 := foldl (mark_record i) batch1 attendance in
            let batch3 :=
              batchSchema.with_students
                (stored_entry <$> batchSchema.students batch2) batch2 in
            match Batch.save id st batch3 with
            | (st1, inr _) =>
                (mkResponse 200 "Attendance marked successfully", st1)
            | (st1, inl _) => (mkResponse 500 "Server error", st1)
            end
      end
  end.
End batchController.

(** * The properties of the specification *)

(** ** Notions the properties are stated with *)

(** The HTTP statuses of the error classes of the specification. *)
Definition BadRequest : nat := 400.
Definition Conflict : nat := 409.

(** The fee invariant of an enrollment. *)
Definition fees_balanced (e : enrollmentSchema.t) : Prop :=
  Fees.pending (enrollmentSchema.fees e)
  = (Fees.total (enrollmentSchema.fees e) - Fees.paid (enrollmentSchema.fees e))%Z.




(** No stored payment has the payment number or the receipt number of
    [this]. *)
Definition payment_keys_free (st : Store) (this : paymentSchema.t) : Prop :=
  map_Forall (λ _ p, paymentSchema.paymentId p ≠ paymentSchema.paymentId this
                     ∧ paymentSchema.receiptNumber p
                       ≠ paymentSchema.receiptNumber this)
             (payments st).

(** No stored enrollment has the enrollment number of [this], or its
    student and course. *)
Definition enrollment_keys_free (st : Store) (this : enrollmentSchema.t) : Prop :=
  map_Forall (λ _ e, enrollmentSchema.enrollmentId e
                     ≠ enrollmentSchema.enrollmentId this
                     ∧ ¬ (enrollmentSchema.student e = enrollmentSchema.student this
                          ∧ enrollmentSchema.course e
                            = enrollmentSchema.course this))
             (enrollments st).

(** The paid and the pending amount of the ledger of a stored student. *)
Definition stored_paid (st : Store) (id : ObjectId) : option Z :=
  students st !! id ≫= λ s, PaymentPlan.paidAmount (studentSchema.paymentPlan s).
Definition stored_pending (st : Store) (id : ObjectId) : option Z :=
  students st !! id ≫= λ s, PaymentPlan.pendingAmount (studentSchema.paymentPlan s).

(** The roster entries that count as seats taken. *)
Definition active_roster_count (b : batchSchema.t) : Z :=
  Z.of_nat (length (filter (λ s, RosterEntry.status s = "active")
                           (batchSchema.students b))).

Definition seats_consistent (b : batchSchema.t) : Prop :=
  batchSchema.currentStudents b = active_roster_count b.

(** An enrollment of the pair (student, course) that blocks a new one. *)
Definition pending_or_active_for (student course : ObjectId)
    (e : enrollmentSchema.t) : Prop :=
  enrollmentSchema.student e = student ∧ enrollmentSchema.course e = course
  ∧ (enrollmentSchema.status e = "pending" ∨ enrollmentSchema.status e = "active").

(** The number of present or late records of an attendance list. *)
Definition present_or_late_count (attendance : list AttendanceRecord.t) : nat :=
  length (filter (λ session,
                    Enrollment.is_present_or_late (AttendanceRecord.status session))
                 attendance).

#[global] Instance spec_float_eq_dec : EqDecision spec_float.
Proof. solve_decision. Defined.

(** [Math.round((part / whole) * 100)] is the exact half-up percentage for
    every whole from 1 to [bound] and every part up to the whole. *)
Definition exact_up_to (bound : nat) : Prop :=
  Forall (λ whole,
            Forall (λ part, round_ratio_times_100 part whole
                            = Number.of_Z (round_half_up_percent part whole))
                   (seq 0 (S whole)))
         (seq 1 bound).

(** The sessions of a batch once the session at [i] is marked. *)
Definition sessions_marked (i : nat) (b : batchSchema.t) : list SessionEntry.t :=
  alter (λ session, SessionEntry.mk (SessionEntry.topic session) "completed" true)
        i (batchSchema.sessions b).

Definition sessions_taken (sessions : list SessionEntry.t) : nat :=
  length (filter (λ s, SessionEntry.attendanceTaken s = true) sessions).

(** The recount of the enrollments of a course by status. *)
Definition of_course (courseId : ObjectId) (docs : list enrollmentSchema.t)
    : list enrollmentSchema.t :=
  filter (λ e, enrollmentSchema.course e = courseId) docs.

Definition count_status (k : string) (docs : list enrollmentSchema.t) : nat :=
  length (filter (λ e, enrollmentSchema.status e = k) docs).

Definition recount (courseId : ObjectId) (docs : list enrollmentSchema.t)
    : EnrollmentStats.t :=
  EnrollmentStats.mk (length (of_course courseId docs))
                     (count_status "active" (of_course courseId docs))
                     (count_status "completed" (of_course courseId docs))
                     (count_status "dropped" (of_course courseId docs)).

(** The count and the total of a [$group] result. *)
Fixpoint group_count (k : string) (groups : list (string * nat)) : nat :=
  match groups with
  | [] => 0
  | (k', n) :: rest => if decide (k = k') then n else group_count k rest
  end.

Fixpoint group_total (groups : list (string * nat)) : nat :=
  match groups with
  | [] => 0
  | (_, n) :: rest => n + group_total rest
  end.

(** The upsert of [completeModule] on the list of completed modules. *)
Definition upsert_module (moduleId : ObjectId) (score : option Z)
    (completed : list ModuleCompletion.t) : list ModuleCompletion.t :=
  match list_find (λ m, ModuleCompletion.moduleId m = moduleId) completed with
  | Some (existingIndex, _) =>
      <[existingIndex := ModuleCompletion.mk moduleId score]> completed
  | None => completed ++ [ModuleCompletion.mk moduleId score]
  end.

(** The percentage the pre-save hook of an enrollment stores for
    [completed] modules of a curriculum of [total]. *)
Definition progress_percentage (completed total : nat) : Z :=
  if (0 <? total)%nat then Number.to_Z (round_ratio_times_100 completed total)
  else 0%Z.


(** The statuses the enrollment statistics count by name. *)
Definition counted_status (status : string) : Prop :=
  status = "active" ∨ status = "completed" ∨ status = "dropped".

(** The seat counter of a stored batch, 0 when there is none. *)
Definition seats_of (st : Store) (id : ObjectId) : Z :=
  default 0%Z (batchSchema.currentStudents <$> batches st !! id).

(** ** Scenarios *)

Module Scenario.
Definition no_progress : Progress.t := Progress.mk 0 [].

(** A: a student owing 10000 who has paid nothing. *)
Definition student_A : studentSchema.t :=
  studentSchema.mk (Some "STU000001") "Asha Rao" "9000000001" None "direct" None []
    (PaymentPlan.mk (Some 10000%Z) (Some 0%Z) (Some 10000%Z) []).
Definition store_A : Store := with_students {[ 1 := student_A ]} empty_store.

(** The body of a payment of 4000 for the student, with a payment
    number. *)
Definition payment_A : paymentSchema.t :=
  paymentSchema.mk (Some "PAY00000001") 1 None 4000 (Some "cash") "pending" None
                   None.

(** B: a batch of two seats, both taken. *)
Definition batch_B : batchSchema.t :=
  batchSchema.mk "WEB-B001" 1 2 2
    [RosterEntry.mk 1 "active" None None; RosterEntry.mk 2 "active" None None] [].
Definition store_B : Store :=
  with_batches {[ 5 := batch_B ]}
    (with_students {[ 1 := student_A; 2 := student_A; 3 := student_A ]} empty_store).

(** A course of four modules. *)
Definition course_E : courseSchema.t :=
  courseSchema.mk "WEB0001" ["HTML"; "CSS"; "JavaScript"; "React"]
                  (EnrollmentStats.mk 0 0 0 0) [].

(** An empty batch of two seats, and an enrollment request naming it. *)
Definition batch_empty : batchSchema.t := batchSchema.mk "WEB-B002" 1 2 0 [] [].
Definition store_seats : Store :=
  with_batches {[ 5 := batch_empty ]}
    (with_courses {[ 1 := course_E ]}
       (with_students {[ 1 := student_A ]} empty_store)).
Definition request_with_batch : enrollmentSchema.t :=
  enrollmentSchema.mk (Some "ENR00000001") 1 1 (Some 5) "pending" (Fees.mk 500 0 0)
                      [] no_progress [].

(** A store where student 1 has a pending enrollment in course 1. *)
Definition enrollment_pending : enrollmentSchema.t :=
  enrollmentSchema.mk (Some "ENR00000001") 1 1 None "pending" (Fees.mk 500 0 500) []
                      no_progress [].
Definition store_enrolled : Store :=
  with_enrollments {[ 0 := enrollment_pending ]}
    (with_students {[ 1 := student_A ]} empty_store).
Definition request_again : enrollmentSchema.t :=
  enrollmentSchema.mk (Some "ENR00000002") 1 1 None "pending" (Fees.mk 500 0 0) []
                      no_progress [].

(** A batch with two sessions, none held yet, and one student on the
    roster. *)
Definition batch_sessions : batchSchema.t :=
  batchSchema.mk "WEB-B003" 1 10 1
    [RosterEntry.mk 7 "active" None None]
    [SessionEntry.mk "Introduction" "scheduled" false;
     SessionEntry.mk "Forms" "scheduled" false].
Definition store_sessions : Store := with_batches {[ 5 := batch_sessions ]} empty_store.

(** C: present, present, absent, late. *)
Definition attendance_C : list AttendanceRecord.t :=
  [AttendanceRecord.mk 1 1 "present" ""; AttendanceRecord.mk 2 2 "present" "";
   AttendanceRecord.mk 3 3 "absent" ""; AttendanceRecord.mk 4 4 "late" ""].

(** D: a lead that has not been converted. *)
Definition lead_D : leadSchema.t :=
  leadSchema.mk (Some "LEAD000001") "Ravi Kumar" "9000000004" None "qualified"
                false None.
Definition store_D : Store := with_leads {[ 3 := lead_D ]} empty_store.

(** E: a course with three enrollments, two active and one completed
    (and one enrollment of another course). *)
Definition enrollment_E (student course : ObjectId) (status : string)
    : enrollmentSchema.t :=
  enrollmentSchema.mk (Some ("ENR" +:+ pad_start 8 student)) student course None
                      status (Fees.mk 500 0 500) [] no_progress [].
Definition store_E : Store :=
  with_courses {[ 1 := course_E ]}
    (with_enrollments
       {[ 0 := enrollment_E 1 1 "active"; 1 := enrollment_E 2 1 "completed";
          2 := enrollment_E 3 1 "active"; 3 := enrollment_E 4 2 "active" ]}
       (with_students {[ 5 := student_A ]} empty_store)).
Definition request_E : enrollmentSchema.t :=
  enrollmentSchema.mk (Some "ENR00000005") 5 1 None "active" (Fees.mk 500 0 0)
                      [] no_progress [].

(** An enrollment of course 1 with one module completed out of four. *)
Definition enrollment_progress : enrollmentSchema.t :=
  enrollmentSchema.mk (Some "ENR00000009") 1 1 None "active" (Fees.mk 500 100 400) []
    (Progress.mk 25 [ModuleCompletion.mk 11 (Some 60%Z)]) [].
Definition store_progress : Store :=
  with_courses {[ 1 := course_E ]}
    (with_enrollments {[ 4 := enrollment_progress ]} empty_store).

(** A course of one module, and an enrollment of it with that module
    completed. *)
Definition course_short : courseSchema.t :=
  courseSchema.mk "PYT0001" ["Python"] (EnrollmentStats.mk 0 0 0 0) [].
Definition enrollment_short : enrollmentSchema.t :=
  enrollmentSchema.mk (Some "ENR00000010") 1 2 None "active" (Fees.mk 500 0 500) []
    (Progress.mk 100 [ModuleCompletion.mk 21 None]) [].
Definition store_short : Store :=
  with_courses {[ 2 := course_short ]}
    (with_enrollments {[ 6 := enrollment_short ]} empty_store).

(** A batch with no seat taken and an enrollment that names it. *)
Definition enrollment_in_empty : enrollmentSchema.t :=
  enrollmentSchema.mk (Some "ENR00000011") 1 1 (Some 5) "active" (Fees.mk 500 0 500)
                      [] no_progress [].
Definition store_drift : Store :=
  with_enrollments {[ 0 := enrollment_in_empty ]} store_seats.
End Scenario.

Module More.
(** A pending and a completed payment of 300 recorded for the student of
    scenario A. *)
Definition payment_pending : paymentSchema.t :=
  paymentSchema.mk (Some "PAY00000001") 1 None 300 (Some "upi") "pending"
                   (Some "RCPT26110001") None.
Definition payment_completed : paymentSchema.t :=
  paymentSchema.mk (Some "PAY00000002") 1 None 300 (Some "upi") "completed"
                   (Some "RCPT26110002") None.
Definition store_payments : Store :=
  with_payments {[ 0 := payment_pending; 1 := payment_completed ]}
    Scenario.store_A.

(** Two batches of course 1, the second one full, and an enrollment of
    student 1 in the first. *)
Definition batch_one : batchSchema.t := batchSchema.mk "WEB-B001" 1 5 1 [] [].
Definition batch_two : batchSchema.t := batchSchema.mk "WEB-B002" 1 2 2 [] [].
Definition enrollment_in_one : enrollmentSchema.t :=
  enrollmentSchema.mk (Some "ENR00000001") 1 1 (Some 5) "active"
                      (Fees.mk 500 100 400) [] Scenario.no_progress [].
Definition store_batches : Store :=
  with_batches {[ 5 := batch_one; 6 := batch_two ]}
    (with_courses {[ 1 := Scenario.course_E ]}
       (with_enrollments {[ 0 := enrollment_in_one ]}
          (with_students {[ 1 := Scenario.student_A ]} empty_store))).

(** A converted lead. *)
Definition lead_converted : leadSchema.t :=
  leadSchema.mk (Some "LEAD000002") "Ravi Kumar" "9000000004" None "converted" true
                (Some 1).
Definition store_converted : Store := with_leads {[ 3 := lead_converted ]} empty_store.

(** An enrollment with two installments. *)
Definition enrollment_installments : enrollmentSchema.t :=
  enrollmentSchema.mk (Some "ENR00000002") 1 1 None "active" (Fees.mk 900 0 900)
    [Installment.mk "pending" None; Installment.mk "pending" None]
    Scenario.no_progress [].
End More.

(** ** What validation, the hooks and the saves do *)

Section Saves.
Implicit Types (st : Store) (id : ObjectId) (verdict : StoreVerdict).

Lemma run_accepted failed :
  Validator.run failed Accepted = if decide (failed = []) then None else Some failed.
Proof. reflexivity. Qed.

Lemma run_rejects failed verdict :
  failed ≠ [] → ∃ messages, Validator.run failed verdict = Some messages.
Proof.
  intros Hne. unfold Validator.run. destruct verdict; try (by eexists).
  all: rewrite decide_False by done; by eexists.
Qed.

Lemma run_passes verdict :
  (∀ messages, verdict ≠ ValidationError messages) → Validator.run [] verdict = None.
Proof. intros H. destruct verdict; try done. by destruct (H messages). Qed.

Lemma required_string_nil path value :
  Validator.required_string path value = [] ↔ ¬ falsy value.
Proof. unfold Validator.required_string. case_decide; split; (done || tauto). Qed.

Lemma min_nil path bound value :
  Validator.min path bound value = [] ↔ (bound ≤ value)%Z.
Proof.
  unfold Validator.min. destruct (Z.ltb_spec value bound); split; (done || lia).
Qed.

Lemma max_nil path bound value :
  Validator.max path bound value = [] ↔ (value ≤ bound)%Z.
Proof.
  unfold Validator.max. destruct (Z.ltb_spec bound value); split; (done || lia).
Qed.

Lemma range_nil path low high value :
  Validator.range path low high value = [] ↔ (low ≤ value ≤ high)%Z.
Proof.
  unfold Validator.range. destruct (Z.ltb_spec value low).
  - split; [done|lia].
  - rewrite max_nil. lia.
Qed.

Lemma enum_nil path values value :
  Validator.enum path values value = [] ↔ value ∈ values.
Proof. unfold Validator.enum. case_decide; split; (done || tauto). Qed.

Lemma bind_nil {A B} (f : A → list B) (l : list A) :
  l ≫= f = [] ↔ Forall (λ x, f x = []) l.
Proof.
  induction l as [|x l IH]; [by split|].
  rewrite bind_cons, Forall_cons. split.
  - intros [? ?]%app_eq_nil. split; [done|]. by apply IH.
  - intros [Hx Hl]. rewrite Hx. by apply IH.
Qed.

(** A unique index does not refuse a write that keeps the key of the
    document, nor one whose key no document has. *)
Lemma index_kept {D K} `{EqDecision K} (key : D → K) id (m : gmap ObjectId D)
    this old :
  m !! id = Some old → key old = key this → ¬ index_violated key id m this.
Proof. intros Hold Hkey [Hne _]. apply Hne. by rewrite Hold; cbn; rewrite Hkey. Qed.

Lemma index_free {D K} `{EqDecision K} (key : D → K) id (m : gmap ObjectId D) this :
  map_Forall (λ _ other, key other ≠ key this) m → ¬ index_violated key id m this.
Proof.
  intros Hfree [_ (id' & other & Hother & _ & Hkey)]. by apply (Hfree id' other).
Qed.

Lemma new_id_fresh {D} (m : gmap ObjectId D) : m !! new_id m = None.
Proof. apply not_elem_of_dom. unfold new_id. apply is_fresh. Qed.

Lemma documents_elem {D} (m : gmap ObjectId D) id d :
  m !! id = Some d → d ∈ documents m.
Proof.
  intros H. unfold documents. apply list_elem_of_fmap. exists (id, d).
  split; [done|]. by apply elem_of_map_to_list.
Qed.

(** *** Enrollments *)

(** The validation of an enrollment, spelled out. *)
Lemma Enrollment_validate_nil e :
  Enrollment.validate e = []
  ↔ ¬ falsy (enrollmentSchema.enrollmentId e)
    ∧ enrollmentSchema.status e ∈ Enrollment.statuses
    ∧ (0 ≤ Fees.total (enrollmentSchema.fees e))%Z
    ∧ (0 ≤ Fees.paid (enrollmentSchema.fees e))%Z
    ∧ (0 ≤ Fees.pending (enrollmentSchema.fees e))%Z
    ∧ Forall (λ i, Installment.status i ∈ Enrollment.installment_statuses)
             (enrollmentSchema.paymentPlan e)
    ∧ (0 ≤ Progress.percentage (enrollmentSchema.progress e) ≤ 100)%Z
    ∧ Forall (λ a, AttendanceRecord.status a ∈ Enrollment.attendance_statuses)
             (enrollmentSchema.attendance e).
Proof.
  unfold Enrollment.validate.
  rewrite !app_nil, required_string_nil, enum_nil, !min_nil, range_nil, !bind_nil.
  repeat apply and_iff_compat_l.
  split; intros [H1 [H2 H3]]; (split; [|split]); try done.
  - eapply Forall_impl; [exact H1|]. intros i. apply enum_nil.
  - eapply Forall_impl; [exact H3|]. intros a. apply enum_nil.
  - eapply Forall_impl; [exact H1|]. intros i. apply enum_nil.
  - eapply Forall_impl; [exact H3|]. intros a. apply enum_nil.
Qed.

Lemma Enrollment_save_with_spec verdict id st e :
  Enrollment.save_with verdict id st e
  = match Validator.run (Enrollment.validate e) verdict with
    | Some messages => (st, inl (ValidationFailed messages))
    | None =>
        match write_error verdict
                (bool_decide (Enrollment.duplicate_key id (Enrollment.pre_save st e).1
                                                       (Enrollment.pre_save st e).2)) with
        | Some error => ((Enrollment.pre_save st e).1, inl error)
        | None =>
            (with_enrollments
               (<[id := (Enrollment.pre_save st e).2]>
                  (enrollments (Enrollment.pre_save st e).1))
               (Enrollment.pre_save st e).1,
             inr (Enrollment.pre_save st e).2)
        end
    end.
Proof.
  unfold Enrollment.save_with. destruct (Validator.run _ _); [done|].
  by destruct (Enrollment.pre_save st e).
Qed.

(** What the pre-save hook of an enrollment with a number leaves. *)
Lemma Enrollment_pre_save_numbered st e :
  ¬ falsy (enrollmentSchema.enrollmentId e) →
  (Enrollment.pre_save st e).1 = st
  ∧ enrollmentSchema.enrollmentId (Enrollment.pre_save st e).2
    = enrollmentSchema.enrollmentId e.
Proof.
  intros Hid. unfold Enrollment.pre_save. rewrite decide_False by done.
  cbn. destruct (courses st !! enrollmentSchema.course e); done.
Qed.

Lemma Enrollment_pre_save_keeps st e :
  let e' := (Enrollment.pre_save st e).2 in
  enrollmentSchema.student e' = enrollmentSchema.student e
  ∧ enrollmentSchema.course e' = enrollmentSchema.course e
  ∧ enrollmentSchema.batch e' = enrollmentSchema.batch e
  ∧ enrollmentSchema.status e' = enrollmentSchema.status e
  ∧ enrollmentSchema.paymentPlan e' = enrollmentSchema.paymentPlan e
  ∧ enrollmentSchema.attendance e' = enrollmentSchema.attendance e
  ∧ Progress.completedModules (enrollmentSchema.progress e')
    = Progress.completedModules (enrollmentSchema.progress e)
  ∧ enrollmentSchema.fees e'
    = Fees.mk (Fees.total (enrollmentSchema.fees e))
              (Fees.paid (enrollmentSchema.fees e))
              (Fees.total (enrollmentSchema.fees e)
               - Fees.paid (enrollmentSchema.fees e))%Z.
Proof.
  cbv zeta. unfold Enrollment.pre_save.
  destruct (decide (falsy (enrollmentSchema.enrollmentId e))); cbn;
    match goal with |- context [courses ?s !! ?c] => destruct (courses s !! c) end;
    done.
Qed.

Lemma Enrollment_pre_save_frame st e :
  let st' := (Enrollment.pre_save st e).1 in
  students st' = students st ∧ courses st' = courses st
  ∧ batches st' = batches st ∧ enrollments st' = enrollments st
  ∧ leads st' = leads st ∧ payments st' = payments st.
Proof.
  cbv zeta. unfold Enrollment.pre_save.
  destruct (decide (falsy (enrollmentSchema.enrollmentId e))); done.
Qed.

Lemma Enrollment_pre_save_percentage st e :
  Progress.percentage (enrollmentSchema.progress (Enrollment.pre_save st e).2)
  = match courses st !! enrollmentSchema.course e with
    | Some c =>
        progress_percentage
          (length (Progress.completedModules (enrollmentSchema.progress e)))
          (length (courseSchema.curriculum c))
    | None => Progress.percentage (enrollmentSchema.progress e)
    end.
Proof.
  unfold Enrollment.pre_save.
  destruct (decide (falsy (enrollmentSchema.enrollmentId e))); cbn;
    destruct (courses st !! enrollmentSchema.course e); done.
Qed.

Lemma Enrollment_pre_save_balanced st e : fees_balanced (Enrollment.pre_save st e).2.
Proof.
  unfold fees_balanced.
  by rewrite (proj2 (proj2 (proj2 (proj2 (proj2 (proj2 (proj2
       (Enrollment_pre_save_keeps st e)))))))).
Qed.

(** A save of a document that does not pass the validation writes
    nothing. *)
Lemma Enrollment_save_rejected id st e :
  Enrollment.validate e ≠ [] →
  Enrollment.save id st e = (st, inl (ValidationFailed (Enrollment.validate e))).
Proof.
  intros Hne. unfold Enrollment.save. rewrite Enrollment_save_with_spec, run_accepted.
  by rewrite decide_False.
Qed.

(** A save of a document that passes it and keeps the keys of the
    stored document writes what the hook leaves. *)
Lemma Enrollment_save_stored id st e old :
  Enrollment.validate e = [] →
  enrollments st !! id = Some old →
  enrollmentSchema.enrollmentId old = enrollmentSchema.enrollmentId e →
  enrollmentSchema.student old = enrollmentSchema.student e →
  enrollmentSchema.course old = enrollmentSchema.course e →
  Enrollment.save id st e
  = (with_enrollments (<[id := (Enrollment.pre_save st e).2]> (enrollments st)) st,
     inr (Enrollment.pre_save st e).2).
Proof.
  intros Hvalid Hold Hid Hstudent Hcourse.
  pose proof (proj1 (proj1 (Enrollment_validate_nil e) Hvalid)) as Hnumbered.
  destruct (Enrollment_pre_save_numbered st e Hnumbered) as [Hst Hid'].
  destruct (Enrollment_pre_save_keeps st e) as (Hs & Hc & _).
  unfold Enrollment.save.
  rewrite Enrollment_save_with_spec, run_accepted, decide_True by done.
  rewrite Hst, bool_decide_eq_false_2; [done|].
  intros [Hdup|Hdup]; revert Hdup.
  - apply (index_kept _ _ _ _ old); [done|]. by rewrite Hid'.
  - apply (index_kept _ _ _ _ old); [done|]. cbn. by rewrite Hs, Hc, Hstudent, Hcourse.
Qed.

(** What any save of an enrollment does to the store: the enrollments
    are as they were, or hold one more balanced document. *)
Lemma Enrollment_save_with_frame verdict id st e :
  let result := Enrollment.save_with verdict id st e in
  students result.1 = students st ∧ courses result.1 = courses st
  ∧ batches result.1 = batches st ∧ leads result.1 = leads st
  ∧ payments result.1 = payments st
  ∧ match result.2 with
    | inl _ => enrollments result.1 = enrollments st
    | inr e' => enrollments result.1 = <[id := e']> (enrollments st)
                ∧ e' = (Enrollment.pre_save st e).2
    end.
Proof.
  cbv zeta. rewrite Enrollment_save_with_spec.
  destruct (Enrollment_pre_save_frame st e) as (H1 & H2 & H3 & H4 & H5 & H6).
  destruct (Validator.run _ _); [done|].
  destruct (write_error _ _); cbn; rewrite ?H1, ?H2, ?H3, ?H4, ?H5, ?H6; done.
Qed.

(** *** Students *)

Lemma Student_save_with_spec verdict id st s :
  Student.save_with verdict id st s
  = match Validator.run (Student.validate s) verdict with
    | Some messages => (st, inl (ValidationFailed messages))
    | None =>
        match write_error verdict
                (bool_decide (Student.duplicate_key id (Student.pre_save st s).1
                                                    (Student.pre_save st s).2)) with
        | Some error => ((Student.pre_save st s).1, inl error)
        | None =>
            (with_students
               (<[id := (Student.pre_save st s).2]>
                  (students (Student.pre_save st s).1))
               (Student.pre_save st s).1,
             inr (Student.pre_save st s).2)
        end
    end.
Proof.
  unfold Student.save_with. destruct (Validator.run _ _); [done|].
  by destruct (Student.pre_save st s).
Qed.

Lemma Student_pre_save_numbered st s :
  ¬ falsy (studentSchema.studentId s) →
  Student.pre_save st s
  = (st,
     studentSchema.with_paymentPlan
       (PaymentPlan.mk
          (PaymentPlan.totalFees (studentSchema.paymentPlan s))
          (PaymentPlan.paidAmount (studentSchema.paymentPlan s))
          (js_sub (PaymentPlan.totalFees (studentSchema.paymentPlan s))
                  (PaymentPlan.paidAmount (studentSchema.paymentPlan s)))
          (PaymentPlan.paymentSchedule (studentSchema.paymentPlan s)))
       s).
Proof. intros Hid. unfold Student.pre_save. by rewrite decide_False. Qed.


Lemma Student_validate_studentId s :
  Student.validate s = [] → ¬ falsy (studentSchema.studentId s).
Proof.
  unfold Student.validate. intros [H _]%app_eq_nil. by apply required_string_nil in H.
Qed.

Lemma Student_save_rejected id st s :
  Student.validate s ≠ [] →
  Student.save id st s = (st, inl (ValidationFailed (Student.validate s))).
Proof.
  intros Hne. unfold Student.save. rewrite Student_save_with_spec, run_accepted.
  by rewrite decide_False.
Qed.

Lemma Student_save_stored id st s old :
  Student.validate s = [] →
  students st !! id = Some old →
  studentSchema.studentId old = studentSchema.studentId s →
  Student.save id st s
  = (with_students (<[id := (Student.pre_save st s).2]> (students st)) st,
     inr (Student.pre_save st s).2).
Proof.
  intros Hvalid Hold Hid.
  pose proof (Student_validate_studentId s Hvalid) as Hnumbered.
  unfold Student.save.
  rewrite Student_save_with_spec, run_accepted, decide_True by done.
  rewrite (Student_pre_save_numbered st s Hnumbered). cbn [fst snd].
  rewrite bool_decide_eq_false_2; [done|].
  apply (index_kept _ _ _ _ old); [done|]. by rewrite Hid.
Qed.


(** *** Payments *)

(** The hook after the save of a payment writes nothing: its first
    update sets a Number path to an object, the cast rejects it, and the
    second update is not reached. *)
Lemma Payment_post_save_writes_nothing st p : Payment.post_save st p = st.
Proof. reflexivity. Qed.

Lemma Payment_save_with_spec verdict period id st p :
  Payment.save_with verdict period id st p
  = match Validator.run (Payment.validate p) verdict with
    | Some messages => (st, inl (ValidationFailed messages))
    | None =>
        match write_error verdict
                (bool_decide (Payment.duplicate_key id (Payment.pre_save period st p).1
                                                    (Payment.pre_save period st p).2)) with
        | Some error => ((Payment.pre_save period st p).1, inl error)
        | None =>
            (with_payments
               (<[id := (Payment.pre_save period st p).2]>
                  (payments (Payment.pre_save period st p).1))
               (Payment.pre_save period st p).1,
             inr (Payment.pre_save period st p).2)
        end
    end.
Proof.
  unfold Payment.save_with. destruct (Validator.run _ _); [done|].
  by destruct (Payment.pre_save period st p).
Qed.

Lemma Payment_pre_save_frame period st p :
  let st' := (Payment.pre_save period st p).1 in
  students st' = students st ∧ courses st' = courses st
  ∧ batches st' = batches st ∧ enrollments st' = enrollments st
  ∧ leads st' = leads st ∧ payments st' = payments st.
Proof.
  cbv zeta. unfold Payment.pre_save.
  destruct (decide (falsy (paymentSchema.paymentId p))); cbn;
    match goal with |- context [decide (falsy ?r)] => destruct (decide (falsy r)) end;
    done.
Qed.

Lemma Payment_pre_save_keeps period st p :
  let p' := (Payment.pre_save period st p).2 in
  paymentSchema.student p' = paymentSchema.student p
  ∧ paymentSchema.enrollment p' = paymentSchema.enrollment p
  ∧ paymentSchema.amount p' = paymentSchema.amount p
  ∧ paymentSchema.status p' = paymentSchema.status p
  ∧ (¬ falsy (paymentSchema.paymentId p) →
     paymentSchema.paymentId p' = paymentSchema.paymentId p)
  ∧ (¬ falsy (paymentSchema.receiptNumber p) →
     paymentSchema.receiptNumber p' = paymentSchema.receiptNumber p).
Proof.
  cbv zeta. unfold Payment.pre_save.
  destruct (decide (falsy (paymentSchema.paymentId p))); cbn;
    match goal with |- context [decide (falsy ?r)] => destruct (decide (falsy r)) end;
    cbn; tauto.
Qed.



(** *** Batches *)

Lemma Batch_save_spec id st b :
  Batch.save id st b
  = if (batchSchema.currentStudents b <? 0)%Z
    then (st, inl (ValidationFailed (Batch.validate b)))
    else (with_batches (<[id := b]> (batches st)) st, inr b).
Proof.
  unfold Batch.save, Batch.validate, Validator.min. rewrite run_accepted.
  by destruct (_ <? _)%Z.
Qed.
(** *** Documents built without their number *)

(** A payment without a payment number is refused by the validation,
    whatever the store would answer, and nothing is written. *)
Lemma Payment_create_unnumbered verdict period st data :
  paymentSchema.paymentId data = None →
  ∃ messages, Payment.create verdict period st data
              = (st, inl (ValidationFailed messages)).
Proof.
  intros Hid. unfold Payment.create. rewrite Payment_save_with_spec.
  destruct (run_rejects (Payment.validate data) verdict) as [messages ->].
  - unfold Payment.validate, Validator.required_string.
    rewrite decide_True by (left; exact Hid). discriminate.
  - by exists messages.
Qed.

Lemma Enrollment_create_unnumbered verdict st data :
  enrollmentSchema.enrollmentId data = None →
  ∃ messages, Enrollment.create verdict st data
              = (st, inl (ValidationFailed messages)).
Proof.
  intros Hid. unfold Enrollment.create. rewrite Enrollment_save_with_spec.
  destruct (run_rejects (Enrollment.validate data) verdict) as [messages ->].
  - unfold Enrollment.validate, Validator.required_string.
    rewrite decide_True by (left; exact Hid). discriminate.
  - by exists messages.
Qed.

Lemma Student_create_unnumbered verdict st data :
  studentSchema.studentId data = None →
  ∃ messages, Student.create verdict st data
              = (st, inl (ValidationFailed messages)).
Proof.
  intros Hid. unfold Student.create. rewrite Student_save_with_spec.
  destruct (run_rejects (Student.validate (Student.defaults data)) verdict)
    as [messages ->].
  - unfold Student.validate, Validator.required_string. cbn.
    rewrite decide_True by (left; exact Hid). discriminate.
  - by exists messages.
Qed.

Lemma Enrollment_create_frame verdict st data :
  let result := Enrollment.create verdict st data in
  students result.1 = students st ∧ courses result.1 = courses st
  ∧ batches result.1 = batches st ∧ leads result.1 = leads st
  ∧ payments result.1 = payments st
  ∧ match result.2 with
    | inl _ => enrollments result.1 = enrollments st
    | inr (id, e') => id = new_id (enrollments st)
                      ∧ enrollments result.1 = <[id := e']> (enrollments st)
                      ∧ e' = (Enrollment.pre_save st data).2
    end.
Proof.
  cbv zeta. unfold Enrollment.create.
  pose proof (Enrollment_save_with_frame verdict (new_id (enrollments st)) st data) as H.
  cbv zeta in H.
  destruct (Enrollment.save_with _ _ _ _) as [st1 [error|e']]; cbn in *; tauto.
Qed.

(** A valid enrollment whose keys no stored enrollment has is created as
    the hook leaves it. *)
Lemma Enrollment_create_stored st data :
  Enrollment.validate data = [] → enrollment_keys_free st data →
  Enrollment.create Accepted st data
  = (with_enrollments
       (<[new_id (enrollments st) := (Enrollment.pre_save st data).2]> (enrollments st))
       st,
     inr (new_id (enrollments st), (Enrollment.pre_save st data).2)).
Proof.
  intros Hvalid Hfree.
  pose proof (proj1 (proj1 (Enrollment_validate_nil data) Hvalid)) as Hnumbered.
  destruct (Enrollment_pre_save_numbered st data Hnumbered) as [Hst Hid].
  destruct (Enrollment_pre_save_keeps st data) as (Hs & Hc & _).
  unfold Enrollment.create.
  rewrite Enrollment_save_with_spec, run_accepted, decide_True by done.
  rewrite Hst, bool_decide_eq_false_2; [done|].
  intros [Hdup|Hdup]; revert Hdup; apply index_free.
  - intros i other Hi. rewrite Hid. by apply (Hfree i other Hi).
  - intros i other Hi [= H1 H2]. apply (proj2 (Hfree i other Hi)).
    by rewrite H1, H2, Hs, Hc.
Qed.

End Saves.

(** *** The aggregation by status *)

Section Grouping.
Implicit Types (k : string) (groups : list (string * nat)).

Lemma bump_keys k groups : k ∈ groups.*1 → (bump k groups).*1 = groups.*1.
Proof.
  induction groups as [|[k' n] rest IH]; intros H.
  - by apply elem_of_nil in H.
  - rewrite fmap_cons in H. cbn [bump].
    destruct (decide (k = k')) as [->|Hne]; [done|].
    rewrite !fmap_cons. f_equal. apply IH.
    apply elem_of_cons in H as [?|?]; done.
Qed.

Lemma bump_keys_fresh k groups :
  k ∉ groups.*1 → (bump k groups).*1 = groups.*1 ++ [k].
Proof.
  induction groups as [|[k' n] rest IH]; intros H; [done|].
  rewrite fmap_cons in H. apply not_elem_of_cons in H as [Hne H].
  cbn [bump]. destruct (decide (k = k')); [done|].
  rewrite !fmap_cons. cbn [app]. f_equal. by apply IH.
Qed.

Lemma bump_NoDup k groups : NoDup groups.*1 → NoDup (bump k groups).*1.
Proof.
  intros Hnd. destruct (decide (k ∈ groups.*1)) as [Hin|Hout].
  - by rewrite bump_keys.
  - rewrite bump_keys_fresh by done.
    apply NoDup_app. split; [done|]. split; [|apply NoDup_singleton].
    intros x Hx Hx'. apply list_elem_of_singleton in Hx'. by subst.
Qed.

Lemma bump_group_count k k' groups :
  group_count k' (bump k groups)
  = if decide (k' = k) then S (group_count k' groups) else group_count k' groups.
Proof.
  induction groups as [|[k0 n] rest IH]; simpl.
  - destruct (decide (k' = k)); done.
  - destruct (decide (k = k0)) as [->|Hne]; simpl.
    + destruct (decide (k' = k0)); done.
    + destruct (decide (k' = k0)) as [->|Hne'].
      * destruct (decide (k0 = k)); [congruence|done].
      * apply IH.
Qed.

Lemma bump_total k groups : group_total (bump k groups) = S (group_total groups).
Proof.
  induction groups as [|[k0 n] rest IH]; simpl; [done|].
  destruct (decide (k = k0)); simpl; [done|]. rewrite IH. lia.
Qed.

Lemma group_count_absent k groups : k ∉ groups.*1 → group_count k groups = 0.
Proof.
  induction groups as [|[k0 n] rest IH]; intros H; [done|].
  rewrite fmap_cons in H. apply not_elem_of_cons in H as [Hne H].
  simpl. destruct (decide (k = k0)); [done|]. by apply IH.
Qed.

(** What the [forEach] leaves in the field that follows the group [k],
    after a group [k0] that occurs nowhere else. *)
Lemma follow_group k n k0 groups (d : nat) :
  k0 ∉ groups.*1 →
  (if decide (k ∈ groups.*1) then group_count k groups
   else if decide (k0 = k) then n else d)
  = if decide (k ∈ ((k0, n) :: groups).*1)
    then group_count k ((k0, n) :: groups) else d.
Proof.
  intros Hk0. rewrite fmap_cons. cbn [group_count fst].
  destruct (decide (k0 = k)) as [->|Hne].
  - rewrite (decide_False (P := k ∈ groups.*1)) by done.
    rewrite decide_True by apply list_elem_of_here. by rewrite decide_True.
  - destruct (decide (k ∈ groups.*1)) as [Hin|Hout].
    + rewrite decide_True by (by apply list_elem_of_further).
      by rewrite decide_False by congruence.
    + rewrite decide_False; [done|]. intros [?|?]%elem_of_cons; congruence.
Qed.

Lemma tally_stats_from acc groups :
  NoDup groups.*1 →
  foldl (λ enrollmentStats stat,
           let '(_id, count) := stat in
           EnrollmentStats.mk
             (EnrollmentStats.totalEnrolled enrollmentStats + count)
             (if decide (_id = "active") then count
              else EnrollmentStats.active enrollmentStats)
             (if decide (_id = "completed") then count
              else EnrollmentStats.completed enrollmentStats)
             (if decide (_id = "dropped") then count
              else EnrollmentStats.dropout enrollmentStats))
        acc groups
  = EnrollmentStats.mk
      (EnrollmentStats.totalEnrolled acc + group_total groups)
      (if decide ("active" ∈ groups.*1) then group_count "active" groups
       else EnrollmentStats.active acc)
      (if decide ("completed" ∈ groups.*1) then group_count "completed" groups
       else EnrollmentStats.completed acc)
      (if decide ("dropped" ∈ groups.*1) then group_count "dropped" groups
       else EnrollmentStats.dropout acc).
Proof.
  revert acc. induction groups as [|[k n] rest IH]; intros acc Hnd.
  - destruct acc. simpl. f_equal. lia.
  - rewrite fmap_cons in Hnd. apply NoDup_cons in Hnd as [Hk Hnd].
    cbn [foldl]. rewrite IH by done.
    cbn [EnrollmentStats.totalEnrolled EnrollmentStats.active
         EnrollmentStats.completed EnrollmentStats.dropout].
    rewrite !follow_group by done. f_equal. simpl. lia.
Qed.

Lemma tally_stats_group_count groups :
  NoDup groups.*1 →
  tally_stats groups
  = EnrollmentStats.mk (group_total groups) (group_count "active" groups)
                       (group_count "completed" groups)
                       (group_count "dropped" groups).
Proof.
  intros Hnd. unfold tally_stats. rewrite tally_stats_from by done. simpl.
  f_equal; case_decide; try done; symmetry; by apply group_count_absent.
Qed.

(** The groups of the aggregation: one per status, holding the number of
    documents of that status. *)
Lemma aggregate_groups (docs : list enrollmentSchema.t) :
  let groups := foldl (λ groups e, bump (enrollmentSchema.status e) groups) [] docs in
  NoDup groups.*1 ∧ group_total groups = length docs
  ∧ ∀ k, group_count k groups = count_status k docs.
Proof.
  induction docs as [|e docs IH] using rev_ind.
  - split; [apply NoDup_nil_2|]. split; [done|]. intros k. reflexivity.
  - rewrite foldl_app. cbn [foldl]. cbv zeta in IH.
    destruct IH as (Hnd & Hsum & Hcount).
    split; [by apply bump_NoDup|]. split.
    + rewrite bump_total, Hsum, length_app. simpl. lia.
    + intros k. rewrite bump_group_count, Hcount. unfold count_status.
      rewrite filter_app, length_app. rewrite filter_cons, filter_nil.
      destruct (decide (k = enrollmentSchema.status e)) as [->|Hne].
      * rewrite decide_True by done. simpl. lia.
      * rewrite decide_False by congruence. simpl. lia.
Qed.

(** Matched against the [ObjectId] of the course, the aggregation and the
    tally give the recount. *)
Lemma tally_aggregate docs courseId :
  tally_stats (aggregate_by_status docs (AsObjectId courseId)) = recount courseId docs.
Proof.
  unfold aggregate_by_status, recount.
  rewrite (list_filter_iff _ (λ e, enrollmentSchema.course e = courseId))
    by (intros e; split; [by intros [= ->]|by intros ->]).
  destruct (aggregate_groups (filter (λ e, enrollmentSchema.course e = courseId) docs))
    as (Hnd & Hsum & Hcount).
  rewrite tally_stats_group_count by done.
  unfold of_course. rewrite Hsum, !Hcount. reflexivity.
Qed.

(** Matched against a string, the aggregation selects no document. *)
Lemma aggregate_string docs courseId :
  aggregate_by_status docs (AsString courseId) = [].
Proof.
  unfold aggregate_by_status.
  rewrite (list_filter_iff _ (λ _, False)) by (intros e; split; [discriminate|done]).
  by induction docs as [|e docs IH]; [|rewrite filter_cons, decide_False by tauto].
Qed.
End Grouping.

(** ** C1: the fee invariant of an enrollment *)

Section FeeInvariant.
Implicit Types (st : Store) (e : enrollmentSchema.t).



(** The enrollment [updatePayment] hands to [save]. *)
Lemma updatePayment_document id st e amount installmentNumber :
  ∃ this, Enrollment.updatePayment id st e amount installmentNumber
          = Enrollment.save id st this
    ∧ enrollmentSchema.enrollmentId this = enrollmentSchema.enrollmentId e
    ∧ enrollmentSchema.student this = enrollmentSchema.student e
    ∧ enrollmentSchema.course this = enrollmentSchema.course e
    ∧ enrollmentSchema.status this = enrollmentSchema.status e
    ∧ enrollmentSchema.progress this = enrollmentSchema.progress e
    ∧ enrollmentSchema.attendance this = enrollmentSchema.attendance e
    ∧ enrollmentSchema.fees this
      = Fees.mk (Fees.total (enrollmentSchema.fees e))
                (Fees.paid (enrollmentSchema.fees e) + amount)%Z
                (Fees.total (enrollmentSchema.fees e)
                 - (Fees.paid (enrollmentSchema.fees e) + amount))%Z
    ∧ enrollmentSchema.paymentPlan this
      = match installmentNumber with
        | Some n =>
            match enrollmentSchema.paymentPlan e !! n with
            | Some _ => <[n := Installment.mk "paid" (Some amount)]>
                          (enrollmentSchema.paymentPlan e)
            | None => enrollmentSchema.paymentPlan e
            end
        | None => enrollmentSchema.paymentPlan e
        end.
Proof.
  unfold Enrollment.updatePayment. eexists. split; [reflexivity|].
  destruct installmentNumber as [n|]; cbn; [|done].
  destruct (enrollmentSchema.paymentPlan e !! n); done.
Qed.

Lemma updatePayment_stored id st e amount installmentNumber :
  enrollments st !! id = Some e → Enrollment.validate e = [] →
  (0 ≤ Fees.paid (enrollmentSchema.fees e) + amount
     ≤ Fees.total (enrollmentSchema.fees e))%Z →
  ∃ e', Enrollment.updatePayment id st e amount installmentNumber
        = (with_enrollments (<[id := e']> (enrollments st)) st, inr e')
    ∧ Fees.total (enrollmentSchema.fees e') = Fees.total (enrollmentSchema.fees e)
    ∧ Fees.paid (enrollmentSchema.fees e')
      = (Fees.paid (enrollmentSchema.fees e) + amount)%Z
    ∧ fees_balanced e'
    ∧ enrollmentSchema.paymentPlan e'
      = match installmentNumber with
        | Some n =>
            match enrollmentSchema.paymentPlan e !! n with
            | Some _ => <[n := Installment.mk "paid" (Some amount)]>
                          (enrollmentSchema.paymentPlan e)
            | None => enrollmentSchema.paymentPlan e
            end
        | None => enrollmentSchema.paymentPlan e
        end.
Proof.
  intros He Hvalid Hpaid.
  destruct (updatePayment_document id st e amount installmentNumber)
    as (this & -> & Hid & Hs & Hc & Hstatus & Hprogress & Hattendance & Hfees & Hplan).
  apply Enrollment_validate_nil in Hvalid
    as (V1 & V2 & V3 & V4 & V5 & V6 & V7 & V8).
  assert (Hthis : Enrollment.validate this = []).
  { apply Enrollment_validate_nil.
    rewrite Hid, Hstatus, Hprogress, Hattendance, Hfees, Hplan. cbn.
    split_and!; auto; try lia.
    destruct installmentNumber as [n|]; [|done].
    destruct (enrollmentSchema.paymentPlan e !! n) eqn:Hn; [|done].
    apply Forall_insert; [done|]. cbn. unfold Enrollment.installment_statuses.
    repeat constructor. }
  exists (Enrollment.pre_save st this).2.
  destruct (Enrollment_pre_save_keeps st this)
    as (_ & _ & _ & _ & Hplan' & _ & _ & Hfees').
  split; [by apply (Enrollment_save_stored id st this e)|].
  rewrite Hfees', Hfees, Hplan', Hplan. cbn.
  split; [done|]. split; [done|]. split; [|done].
  apply Enrollment_pre_save_balanced.
Qed.

Lemma updatePayment_rejected id st e amount installmentNumber :
  (Fees.paid (enrollmentSchema.fees e) + amount < 0
   ∨ Fees.total (enrollmentSchema.fees e)
     < Fees.paid (enrollmentSchema.fees e) + amount)%Z →
  ∃ messages, Enrollment.updatePayment id st e amount installmentNumber
              = (st, inl (ValidationFailed messages)).
Proof.
  intros Hpaid.
  destruct (updatePayment_document id st e amount installmentNumber)
    as (this & -> & _ & _ & _ & _ & _ & _ & Hfees & _).
  eexists. apply Enrollment_save_rejected. intros Hvalid.
  apply Enrollment_validate_nil in Hvalid as (_ & _ & _ & V4 & V5 & _).
  rewrite Hfees in V4, V5. cbn in V4, V5. lia.
Qed.

End FeeInvariant.



(** ** C2: what recording a payment does to the ledger *)

Section Ledger.
Implicit Types (st : Store) (s : studentSchema.t).

(** The validation of a student reads the payment plan in its last five
    validators only. *)
Lemma Student_validate_plan s plan :
  Student.validate s = [] →
  is_Some (PaymentPlan.totalFees plan) →
  (∀ v, PaymentPlan.totalFees plan = Some v → 0 ≤ v)%Z →
  (∀ v, PaymentPlan.paidAmount plan = Some v → 0 ≤ v)%Z →
  (∀ v, PaymentPlan.pendingAmount plan = Some v → 0 ≤ v)%Z →
  Forall (λ i, Installment.status i ∈ Student.schedule_statuses)
         (PaymentPlan.paymentSchedule plan) →
  Student.validate (studentSchema.with_paymentPlan plan s) = [].
Proof.
  unfold Student.validate. rewrite !app_nil.
  intros (H1 & H2 & H3 & H4 & H5 & _) [total Htotal] Vtotal Vpaid Vpending Vschedule.
  cbn. split_and!; auto.
  - by rewrite Htotal.
  - rewrite Htotal. cbn. apply min_nil. by apply Vtotal.
  - destruct (PaymentPlan.paidAmount plan) as [v|]; [|done]. cbn. apply min_nil. auto.
  - destruct (PaymentPlan.pendingAmount plan) as [v|]; [|done]. cbn. apply min_nil. auto.
  - apply bind_nil. eapply Forall_impl; [exact Vschedule|]. intros i. apply enum_nil.
Qed.

Lemma Student_validate_plan_inv s :
  Student.validate s = [] →
  let plan := studentSchema.paymentPlan s in
  is_Some (PaymentPlan.totalFees plan)
  ∧ (∀ v, PaymentPlan.totalFees plan = Some v → 0 ≤ v)%Z
  ∧ (∀ v, PaymentPlan.paidAmount plan = Some v → 0 ≤ v)%Z
  ∧ (∀ v, PaymentPlan.pendingAmount plan = Some v → 0 ≤ v)%Z
  ∧ Forall (λ i, Installment.status i ∈ Student.schedule_statuses)
           (PaymentPlan.paymentSchedule plan)
  ∧ Forall (λ e, is_Some (StudentEnrollment.course e))
           (studentSchema.enrollments s).
Proof.
  unfold Student.validate. rewrite !app_nil.
  intros (_ & _ & _ & _ & H5 & H6 & H7 & H8 & H9 & H10). cbv zeta.
  destruct (studentSchema.paymentPlan s) as [total paid pending schedule]. cbn in *.
  split_and!.
  - destruct total; [by eexists|done].
  - intros v ->. by apply min_nil in H7.
  - intros v ->. by apply min_nil in H8.
  - intros v ->. by apply min_nil in H9.
  - apply bind_nil in H10. eapply Forall_impl; [exact H10|]. intros i. apply enum_nil.
  - apply bind_nil in H5. eapply Forall_impl; [exact H5|]. intros e He.
    apply app_eq_nil in He as [He _]. by destruct (StudentEnrollment.course e).
Qed.

Lemma Student_validate_defaults s :
  Student.validate s = [] → Student.validate (Student.defaults s) = [].
Proof.
  intros Hvalid.
  destruct (Student_validate_plan_inv s Hvalid) as (V1 & V2 & V3 & V4 & V5 & _).
  unfold Student.defaults. apply Student_validate_plan; cbn; try done.
  - intros v [= <-]. destruct (PaymentPlan.paidAmount _) as [w|]; cbn; [auto|done].
  - intros v [= <-]. destruct (PaymentPlan.pendingAmount _) as [w|]; cbn; [auto|done].
Qed.

(** The payment method of the student model, on a student read from the
    store who passes the validation, for an amount that keeps the paid
    amount between 0 and the total: the student is stored with the paid
    amount raised by the amount and the pending amount recomputed. *)
Lemma Student_updatePayment_stored id st s total amount installmentNumber :
  students st !! id = Some s → Student.validate s = [] →
  PaymentPlan.totalFees (studentSchema.paymentPlan s) = Some total →
  (0 ≤ or_zero (PaymentPlan.paidAmount (studentSchema.paymentPlan s)) + amount
     ≤ total)%Z →
  ∃ s', Student.updatePayment id st (Student.defaults s) amount installmentNumber
        = (with_students (<[id := s']> (students st)) st, inr s')
    ∧ PaymentPlan.totalFees (studentSchema.paymentPlan s') = Some total
    ∧ PaymentPlan.paidAmount (studentSchema.paymentPlan s')
      = Some (or_zero (PaymentPlan.paidAmount (studentSchema.paymentPlan s))
              + amount)%Z
    ∧ PaymentPlan.pendingAmount (studentSchema.paymentPlan s')
      = Some (total
              - (or_zero (PaymentPlan.paidAmount (studentSchema.paymentPlan s))
                 + amount))%Z.
Proof.
  intros Hs Hvalid Htotal Hamount.
  destruct (Student_validate_plan_inv s Hvalid) as (_ & _ & _ & _ & Vschedule & _).
  unfold Student.updatePayment.
  match goal with |- context [Student.save id st ?d] => set (this := d) end.
  assert (Hthis : Student.validate this = []).
  { subst this. apply Student_validate_plan.
    - by apply Student_validate_defaults.
    - cbn. rewrite Htotal. by eexists.
    - cbn. rewrite Htotal. intros v [= <-]. lia.
    - cbn. intros v [= <-]. lia.
    - cbn. rewrite Htotal. cbn. intros v [= <-]. lia.
    - cbn. destruct installmentNumber as [n|]; [|done].
      destruct (PaymentPlan.paymentSchedule (studentSchema.paymentPlan s) !! n);
        [|done].
      apply Forall_insert; [done|]. cbn. repeat constructor. }
  eexists. split.
  - apply (Student_save_stored id st this s Hthis Hs). reflexivity.
  - rewrite (Student_pre_save_numbered st this (Student_validate_studentId _ Hthis)).
    subst this. cbn. rewrite Htotal. by cbn.
Qed.

(** A valid payment whose keys no stored payment has is created as the
    hook before the save leaves it; the hook after the save writes
    nothing. *)
Lemma Payment_create_stored period st data :
  Payment.validate data = [] →
  payment_keys_free st (Payment.pre_save period st data).2 →
  Payment.create Accepted period st data
  = (with_payments
       (<[new_id (payments st) := (Payment.pre_save period st data).2]>
          (payments (Payment.pre_save period st data).1))
       (Payment.pre_save period st data).1,
     inr (new_id (payments st), (Payment.pre_save period st data).2)).
Proof.
  intros Hvalid Hfree.
  destruct (Payment_pre_save_frame period st data) as (_ & _ & _ & _ & _ & Hp).
  unfold Payment.create.
  rewrite Payment_save_with_spec, run_accepted, decide_True by done.
  rewrite bool_decide_eq_false_2; [done|].
  intros [Hdup|Hdup]; revert Hdup; apply index_free; rewrite Hp;
    intros i other Hi; by destruct (Hfree i other Hi).
Qed.
End Ledger.

(** C2.  For a student of the store who passes the validation, with a
    total of fees, and an amount that keeps the paid amount between 0 and
    that total, the two ways of recording a completed payment come apart.
    Recorded through the payment endpoint by an administrator or an
    employee, with a valid body for the student, the payment is stored as
    completed and the answer is 201, but no student and no enrollment is
    written: the paid amount is not raised.  Recorded through the payment
    endpoint of the student, the student is stored with the paid amount
    raised by the amount once and the pending amount recomputed, but no
    payment is stored and the answer is 500. *)
Theorem C2_recording_a_payment (period : string) (st : Store) (id : ObjectId)
    (s : studentSchema.t) (total amount : Z)
    (Hs : students st !! id = Some s)
    (Hvalid : Student.validate s = [])
    (Htotal : PaymentPlan.totalFees (studentSchema.paymentPlan s) = Some total)
    (Hamount :
       (0 ≤ or_zero (PaymentPlan.paidAmount (studentSchema.paymentPlan s)) + amount
          ≤ total)%Z) :
  (∀ role body,
     role = "admin" ∨ role = "employee" →
     paymentSchema.student body = id → paymentSchema.amount body = amount →
     Payment.validate (paymentSchema.with_status "completed" body) = [] →
     payment_keys_free st
       (Payment.pre_save period st (paymentSchema.with_status "completed" body)).2 →
     let result := paymentController.createPayment Accepted period role body st in
     result.1 = mkResponse 201 "Payment recorded successfully"
     ∧ (∃ payment, payments result.2 !! new_id (payments st) = Some payment
          ∧ paymentSchema.status payment = "completed"
          ∧ paymentSchema.student payment = id
          ∧ paymentSchema.amount payment = amount
          ∧ paymentSchema.enrollment payment = paymentSchema.enrollment body)
     ∧ students result.2 = students st
     ∧ enrollments result.2 = enrollments st
     ∧ stored_paid result.2 id = PaymentPlan.paidAmount (studentSchema.paymentPlan s))
  ∧ ∀ verdict paymentMode installmentNumber,
      let result := studentController.updatePayment verdict period id amount
                      paymentMode installmentNumber st in
      result.1 = (mkResponse 500 "Server error", None)
      ∧ payments result.2 = payments st
      ∧ stored_paid result.2 id
        = Some (or_zero (PaymentPlan.paidAmount (studentSchema.paymentPlan s))
                + amount)%Z
      ∧ stored_pending result.2 id
        = Some (total
                - (or_zero (PaymentPlan.paidAmount (studentSchema.paymentPlan s))
                   + amount))%Z.
Proof.
  split.
  - intros role body Hrole Hstudent Hbody Hpayment Hfree result.
    destruct (Payment_pre_save_frame period st
                (paymentSchema.with_status "completed" body))
      as (Hst & _ & _ & He & _ & Hp).
    destruct (Payment_pre_save_keeps period st
                (paymentSchema.with_status "completed" body))
      as (Ks & Ke & Ka & Kstatus & _).
    subst result. unfold paymentController.createPayment.
    rewrite decide_True by done.
    rewrite (Payment_create_stored period st _ Hpayment Hfree). cbn [fst snd].
    split; [done|]. split; [|split; [|split]].
    + eexists. split; [cbn; apply lookup_insert_eq|].
      rewrite Kstatus, Ks, Ka, Ke. by cbn.
    + cbn. exact Hst.
    + cbn. exact He.
    + unfold stored_paid. cbn. by rewrite Hst, Hs.
  - intros verdict paymentMode installmentNumber result. subst result.
    unfold studentController.updatePayment, Student.findById. rewrite Hs. cbn [fmap option_fmap option_map].
    destruct (Student_updatePayment_stored id st s total amount installmentNumber
                Hs Hvalid Htotal Hamount) as (s' & -> & _ & Hpaid & Hpending).
    match goal with |- context [Payment.create ?v ?p ?s0 ?d] =>
      destruct (Payment_create_unnumbered v p s0 d eq_refl) as [messages ->] end.
    cbn [fst snd]. split; [done|]. split; [done|].
    unfold stored_paid, stored_pending. cbn. rewrite lookup_insert_eq. cbn.
    by rewrite Hpaid, Hpending.
Qed.

(** Scenario A: the student owes 10000 and has paid nothing; a payment of
    4000 in cash is recorded.  Through the payment endpoint the answer is
    201 and the ledger stays at 0 paid and 10000 pending; through the
    payment endpoint of the student the ledger is 4000 paid and 6000
    pending, no payment is stored and the answer is 500. *)
Lemma C2_witness :
  students Scenario.store_A !! 1 = Some Scenario.student_A
  ∧ (let result := paymentController.createPayment Accepted "2611" "admin"
                     Scenario.payment_A Scenario.store_A in
     statusCode result.1 = 201
     ∧ stored_paid result.2 1 = Some 0%Z
     ∧ stored_pending result.2 1 = Some 10000%Z)
  ∧ (let result := studentController.updatePayment Accepted "2611" 1 4000
                     (Some "cash") None Scenario.store_A in
     statusCode result.1.1 = 500
     ∧ payments result.2 = ∅
     ∧ stored_paid result.2 1 = Some 4000%Z
     ∧ stored_pending result.2 1 = Some 6000%Z).
Proof.
  assert (Hs : students Scenario.store_A !! 1 = Some Scenario.student_A)
    by (vm_compute; reflexivity).
  assert (Hvalid : Student.validate Scenario.student_A = [])
    by (vm_compute; reflexivity).
  assert (Hamount : (0 ≤ or_zero (PaymentPlan.paidAmount
                                    (studentSchema.paymentPlan Scenario.student_A))
                         + 4000 ≤ 10000)%Z) by (cbn; lia).
  destruct (C2_recording_a_payment "2611" Scenario.store_A 1 Scenario.student_A
              10000 4000 Hs Hvalid eq_refl Hamount) as [Hcreate Hendpoint].
  split; [exact Hs|]. split.
  - destruct (Hcreate "admin" Scenario.payment_A) as (Hres & _ & _ & _ & Hpaid).
    + by left.
    + reflexivity.
    + reflexivity.
    + vm_compute. reflexivity.
    + apply (bool_decide_unpack _). vm_compute. reflexivity.
    + cbv zeta. rewrite Hres, Hpaid. split; [done|]. split; [done|].
      vm_compute. reflexivity.
  - destruct (Hendpoint Accepted (Some "cash") None) as (Hres & Hp & Hpaid & Hpending).
    cbv zeta. rewrite Hres, Hp, Hpaid, Hpending. done.
Defined.

(** ** C3: the seat counter and the roster of a batch *)

Section Seats.
Implicit Types (b batch : batchSchema.t).

Lemma active_roster_count_nonneg b : (0 ≤ active_roster_count b)%Z.
Proof. unfold active_roster_count. lia. Qed.

Lemma active_roster_count_push b entry :
  active_roster_count
    (batchSchema.with_students (batchSchema.students b ++ [entry]) b)
  = (active_roster_count b
     + if decide (RosterEntry.status entry = "active") then 1 else 0)%Z.
Proof.
  unfold active_roster_count. simpl. rewrite filter_app, length_app.
  rewrite filter_cons, filter_nil. case_decide; simpl; lia.
Qed.

Lemma filter_delete_length {A} (P : A → Prop) `{∀ x, Decision (P x)}
    (l : list A) i x :
  l !! i = Some x →
  length (filter P l)
  = (if decide (P x) then 1 else 0) + length (filter P (delete i l)).
Proof.
  revert i. induction l as [|y l IH]; intros i Hi; [done|].
  destruct i as [|i]; simpl in *.
  - simplify_eq. rewrite filter_cons. by case_decide.
  - pose proof (IH i Hi) as IHi. rewrite !filter_cons.
    destruct (decide (P y)); cbn [length]; lia.
Qed.

(** A successful add went through the capacity check and appended one
    active roster entry. *)
Lemma addStudentToBatch_success id studentId st batch res st' :
  batches st !! id = Some batch →
  batchController.addStudentToBatch id studentId st = (res, st') →
  statusCode res = 200 →
  (batchSchema.currentStudents batch < batchSchema.maxStudents batch)%Z
  ∧ st' = with_batches
            (<[id := batchSchema.with_currentStudents
                       (batchSchema.currentStudents batch + 1)%Z
                       (batchSchema.with_students
                          (batchSchema.students batch
                           ++ [RosterEntry.mk studentId "active" None None])
                          batch)]>
               (batches st)) st.
Proof.
  intros Hb. unfold batchController.addStudentToBatch. rewrite Hb.
  destruct (students st !! studentId); [|intros [= <- <-]; done].
  destruct (batchSchema.currentStudents batch >=? batchSchema.maxStudents batch)%Z
    eqn:Hge; [intros [= <- <-]; done|].
  destruct (list_find _ _); [intros [= <- <-]; done|].
  rewrite Batch_save_spec. destruct (_ <? 0)%Z; [intros [= <- <-]; done|].
  intros [= <- <-] _. split; [|done].
  destruct (Z.geb_spec (batchSchema.currentStudents batch)
                       (batchSchema.maxStudents batch)); [done|lia].
Qed.

(** The batches after [createEnrollment] answered 201 for a body that
    names a batch. *)
Lemma createEnrollment_batches verdict st data id :
  enrollmentSchema.batch data = Some id →
  statusCode (enrollmentController.createEnrollment verdict st data).1 = 201 →
  batches (enrollmentController.createEnrollment verdict st data).2
  = alter (enrollmentController.inc_currentStudents 1) id (batches st)
  ∧ ∀ batch, batches st !! id = Some batch →
      (batchSchema.currentStudents batch < batchSchema.maxStudents batch)%Z.
Proof.
  intros Hbatch. unfold enrollmentController.createEnrollment.
  destruct (findOne_pending_or_active _ _ _); [discriminate|].
  rewrite Hbatch.
  match goal with |- context [if ?c then _ else _] => destruct c eqn:Hfull end;
    [discriminate|].
  pose proof (Enrollment_create_frame verdict st data) as Hframe. cbv zeta in Hframe.
  destruct (Enrollment.create verdict st data) as [st1 [error|[_id e]]];
    cbn [fst snd] in *.
  - destruct error; discriminate.
  - destruct Hframe as (_ & _ & Hb & _). intros _. cbn. rewrite Hb. split; [done|].
    intros batch Hlook. rewrite Hlook in Hfull.
    destruct (Z.geb_spec (batchSchema.currentStudents batch)
                         (batchSchema.maxStudents batch)); [done|lia].
Qed.

(** The batches after [deleteEnrollment] of an enrollment with a batch. *)
Lemma deleteEnrollment_batches id st e batchId :
  enrollments st !! id = Some e → enrollmentSchema.batch e = Some batchId →
  batches (enrollmentController.deleteEnrollment id st).2
  = alter (enrollmentController.inc_currentStudents (-1)) batchId (batches st)
  ∧ (enrollmentController.deleteEnrollment id st).1
    = mkResponse 200 "Enrollment deleted successfully".
Proof.
  intros He Hbatch. unfold enrollmentController.deleteEnrollment.
  rewrite He, Hbatch. done.
Qed.
End Seats.

(** C3.  Take a batch whose [currentStudents] is the number of its active
    roster entries.  The two operations of the batch controller keep the
    roster and the counter together: a successful add appends one active
    entry and adds one, staying within [maxStudents]; a removal takes the
    entry off and one off the counter, not below 0, which keeps the
    equality when the entry was active (and loses it when the entry was
    not and the counter was positive).  The two operations of the
    enrollment controller move the counter alone: after an enrollment
    with the batch is created the counter is one more and the roster is
    as it was, and after such an enrollment is deleted the counter is one
    less, with no floor, and the roster is as it was; in both cases the
    counter is no longer the number of active roster entries, and after
    the deletion on a counter of 0 it is negative. *)
Theorem C3_seat_counter_and_roster (st : Store) (id : ObjectId)
    (batch : batchSchema.t)
    (Hb : batches st !! id = Some batch) (Hc : seats_consistent batch) :
  (∀ studentId res st',
     batchController.addStudentToBatch id studentId st = (res, st') →
     statusCode res = 200 →
     ∃ batch', batches st' !! id = Some batch'
       ∧ seats_consistent batch'
       ∧ batchSchema.students batch'
         = batchSchema.students batch ++ [RosterEntry.mk studentId "active" None None]
       ∧ batchSchema.currentStudents batch' = (batchSchema.currentStudents batch + 1)%Z
       ∧ (0 ≤ batchSchema.currentStudents batch' ≤ batchSchema.maxStudents batch')%Z)
  ∧ (∀ studentId k entry,
       list_find (λ s, RosterEntry.student s = studentId) (batchSchema.students batch)
       = Some (k, entry) →
       ∃ batch', batchController.removeStudentFromBatch id studentId st
                 = (mkResponse 200 "Student removed from batch successfully",
                    with_batches (<[id := batch']> (batches st)) st)
         ∧ batchSchema.students batch' = delete k (batchSchema.students batch)
         ∧ batchSchema.currentStudents batch'
           = Z.max 0 (batchSchema.currentStudents batch - 1)
         ∧ (RosterEntry.status entry = "active" → seats_consistent batch')
         ∧ (RosterEntry.status entry ≠ "active" →
            (0 < batchSchema.currentStudents batch)%Z → ¬ seats_consistent batch'))
  ∧ (∀ verdict enrollmentData,
       enrollmentSchema.batch enrollmentData = Some id →
       statusCode (enrollmentController.createEnrollment verdict st enrollmentData).1
       = 201 →
       ∃ batch',
         batches (enrollmentController.createEnrollment verdict st enrollmentData).2
           !! id = Some batch'
         ∧ batchSchema.currentStudents batch' = (batchSchema.currentStudents batch + 1)%Z
         ∧ batchSchema.students batch' = batchSchema.students batch
         ∧ (batchSchema.currentStudents batch' ≤ batchSchema.maxStudents batch')%Z
         ∧ ¬ seats_consistent batch')
  ∧ (∀ enrollmentId enrollment,
       enrollments st !! enrollmentId = Some enrollment →
       enrollmentSchema.batch enrollment = Some id →
       ∃ batch', batches (enrollmentController.deleteEnrollment enrollmentId st).2 !! id
                 = Some batch'
         ∧ batchSchema.currentStudents batch' = (batchSchema.currentStudents batch - 1)%Z
         ∧ batchSchema.students batch' = batchSchema.students batch
         ∧ ¬ seats_consistent batch'
         ∧ (batchSchema.currentStudents batch = 0%Z →
            (batchSchema.currentStudents batch' < 0)%Z)).
Proof.
  split; [|split; [|split]].
  - intros studentId res st' Hadd Hok.
    destruct (addStudentToBatch_success _ _ _ _ _ _ Hb Hadd Hok) as [Hlt ->].
    eexists. split; [apply lookup_insert_eq|].
    split; [|split; [done|split; [done|]]].
    + unfold seats_consistent. simpl.
      change (active_roster_count _) with
        (active_roster_count
           (batchSchema.with_students
              (batchSchema.students batch
               ++ [RosterEntry.mk studentId "active" None None]) batch)).
      rewrite active_roster_count_push. simpl.
      unfold seats_consistent in Hc. lia.
    + simpl. pose proof (active_roster_count_nonneg batch).
      unfold seats_consistent in Hc. lia.
  - intros studentId k entry Hfind.
    unfold batchController.removeStudentFromBatch. rewrite Hb, Hfind.
    rewrite Batch_save_spec. cbn [batchSchema.currentStudents
      batchSchema.with_currentStudents batchSchema.with_students].
    unfold Math.max.
    destruct (Z.ltb_spec (Z.max 0 (batchSchema.currentStudents batch - 1)) 0);
      [lia|].
    eexists. split; [reflexivity|].
    apply list_find_Some in Hfind as (Hk & _ & _).
    pose proof (filter_delete_length (λ s, RosterEntry.status s = "active")
                  (batchSchema.students batch) k entry Hk) as Hlen.
    unfold seats_consistent, active_roster_count in *. simpl.
    split; [done|]. split; [done|]. split.
    + intros Hactive. rewrite decide_True in Hlen by done. lia.
    + intros Hother Hpos. rewrite decide_False in Hlen by done. lia.
  - intros verdict data Hbatch Hcreated.
    destruct (createEnrollment_batches verdict st data id Hbatch Hcreated)
      as [-> Hroom].
    specialize (Hroom batch Hb).
    rewrite lookup_alter_eq, Hb. eexists. split; [reflexivity|].
    unfold seats_consistent, active_roster_count in *. simpl. split_and!; try done; lia.
  - intros eid e He Hbatch.
    destruct (deleteEnrollment_batches eid st e id He Hbatch) as [-> _].
    rewrite lookup_alter_eq, Hb. eexists. split; [reflexivity|].
    unfold seats_consistent, active_roster_count in *. simpl. split_and!; try done; lia.
Qed.

(** An enrollment is created with the empty batch of two seats: the
    answer is 201 and the batch has one seat taken and nobody on its
    roster.  In a store where the enrollment names the batch whose
    counter is 0, its deletion leaves a counter of -1. *)
Lemma C3_witness :
  batches Scenario.store_seats !! 5 = Some Scenario.batch_empty
  ∧ seats_consistent Scenario.batch_empty
  ∧ (let result := enrollmentController.createEnrollment Accepted Scenario.store_seats
                     Scenario.request_with_batch in
     statusCode result.1 = 201
     ∧ ∃ batch', batches result.2 !! 5 = Some batch'
         ∧ batchSchema.currentStudents batch' = 1%Z
         ∧ batchSchema.students batch' = []
         ∧ ¬ seats_consistent batch')
  ∧ ∃ batch',
      batches (enrollmentController.deleteEnrollment 0 Scenario.store_drift).2 !! 5
      = Some batch'
      ∧ batchSchema.currentStudents batch' = (-1)%Z.
Proof.
  assert (Hb : batches Scenario.store_seats !! 5 = Some Scenario.batch_empty)
    by (vm_compute; reflexivity).
  assert (Hb' : batches Scenario.store_drift !! 5 = Some Scenario.batch_empty)
    by (vm_compute; reflexivity).
  assert (Hc : seats_consistent Scenario.batch_empty) by reflexivity.
  assert (Hcreated : statusCode (enrollmentController.createEnrollment Accepted
                                   Scenario.store_seats
                                   Scenario.request_with_batch).1 = 201)
    by (vm_compute; reflexivity).
  split; [exact Hb|]. split; [exact Hc|]. split.
  - split; [exact Hcreated|].
    destruct (proj1 (proj2 (proj2 (C3_seat_counter_and_roster _ _ _ Hb Hc)))
                Accepted Scenario.request_with_batch eq_refl Hcreated)
      as (batch' & Hlook & Hcount & Hroster & _ & Hdrift).
    exists batch'. split; [exact Hlook|]. split; [exact Hcount|].
    split; [exact Hroster|exact Hdrift].
  - destruct (proj2 (proj2 (proj2 (C3_seat_counter_and_roster _ _ _ Hb' Hc)))
                0 Scenario.enrollment_in_empty)
      as (batch' & Hlook & Hcount & _).
    + vm_compute. reflexivity.
    + reflexivity.
    + exists batch'. split; [exact Hlook|exact Hcount].
Defined.

(** ** C4: a second enrollment of the same student in the same course *)

Lemma findOne_pending_or_active_finds st student course id e :
  enrollments st !! id = Some e → pending_or_active_for student course e →
  is_Some (findOne_pending_or_active st student course).
Proof.
  intros He Hp. unfold findOne_pending_or_active.
  assert (Hin : e ∈ filter (λ e, enrollmentSchema.student e = student
                                 ∧ enrollmentSchema.course e = course
                                 ∧ (enrollmentSchema.status e = "pending"
                                    ∨ enrollmentSchema.status e = "active"))
                           (documents (enrollments st))).
  { apply list_elem_of_filter. split; [exact Hp|]. by eapply documents_elem. }
  destruct (filter _ _) as [|x l]; [by apply elem_of_nil in Hin|]. by eexists.
Qed.

Lemma C4_counterexample :
  enrollments Scenario.store_enrolled !! 0 = Some Scenario.enrollment_pending
  ∧ pending_or_active_for (enrollmentSchema.student Scenario.request_again)
                          (enrollmentSchema.course Scenario.request_again)
                          Scenario.enrollment_pending
  ∧ statusCode (enrollmentController.createEnrollment Accepted Scenario.store_enrolled
                  Scenario.request_again).1 ≠ Conflict
  ∧ statusCode (studentController.enrollStudent Accepted 1 1 None 500
                  Scenario.store_enrolled).1 ≠ Conflict.
Proof.
  split; [vm_compute; reflexivity|]. split.
  - unfold pending_or_active_for. cbn. auto.
  - split; vm_compute; discriminate.
Qed.

(** C4, amended.  When the store holds an enrollment of the same student
    in the same course whose status is pending or active, creating an
    enrollment is rejected with status 400 (BadRequest) and the message
    that the student is already enrolled, whatever the store would have
    answered, and the store is left as it was: no enrollment is created.
    The enrollment endpoint of a student answers the same way. *)
Theorem C4_duplicate_enrollment_rejected (verdict : StoreVerdict) (st : Store)
    (id : ObjectId) (existing enrollmentData : enrollmentSchema.t)
    (Hex : enrollments st !! id = Some existing)
    (Hpair : pending_or_active_for (enrollmentSchema.student enrollmentData)
                                   (enrollmentSchema.course enrollmentData) existing) :
  enrollmentController.createEnrollment verdict st enrollmentData
  = (mkResponse BadRequest
       "Student is already enrolled or has a pending enrollment for this course", st)
  ∧ ∀ student batch fees_total,
      students st !! enrollmentSchema.student enrollmentData = Some student →
      studentController.enrollStudent verdict (enrollmentSchema.student enrollmentData)
        (enrollmentSchema.course enrollmentData) batch fees_total st
      = (mkResponse BadRequest
           "Student is already enrolled or has a pending enrollment for this course",
         st).
Proof.
  destruct (findOne_pending_or_active_finds _ _ _ _ _ Hex Hpair) as [found Hfound].
  split.
  - unfold enrollmentController.createEnrollment. by rewrite Hfound.
  - intros student batch fees_total Hs.
    unfold studentController.enrollStudent, Student.findById.
    by rewrite Hs, Hfound.
Qed.

Lemma C4_witness :
  enrollments Scenario.store_enrolled !! 0 = Some Scenario.enrollment_pending
  ∧ pending_or_active_for (enrollmentSchema.student Scenario.request_again)
                          (enrollmentSchema.course Scenario.request_again)
                          Scenario.enrollment_pending
  ∧ enrollmentController.createEnrollment Accepted Scenario.store_enrolled
      Scenario.request_again
    = (mkResponse 400
         "Student is already enrolled or has a pending enrollment for this course",
       Scenario.store_enrolled).
Proof.
  assert (Hex : enrollments Scenario.store_enrolled !! 0
                = Some Scenario.enrollment_pending) by (vm_compute; reflexivity).
  assert (Hpair : pending_or_active_for
                    (enrollmentSchema.student Scenario.request_again)
                    (enrollmentSchema.course Scenario.request_again)
                    Scenario.enrollment_pending)
    by (unfold pending_or_active_for; cbn; auto).
  split; [exact Hex|]. split; [exact Hpair|].
  exact (proj1 (C4_duplicate_enrollment_rejected Accepted _ _ _ _ Hex Hpair)).
Defined.

(** ** C5: a full batch *)

(** C5.  Adding a student to a batch whose [currentStudents] has reached
    [maxStudents] is rejected with status 400 and the message "Batch is
    full", and the store (so the counter and the roster of the batch) is
    left as it was.  Creating an enrollment with such a batch is rejected
    with status 400 as well, the store unchanged. *)
Theorem C5_full_batch_rejected (st : Store) (id studentId : ObjectId)
    (batch : batchSchema.t) (student : studentSchema.t)
    (Hb : batches st !! id = Some batch)
    (Hs : students st !! studentId = Some student)
    (Hfull : (batchSchema.maxStudents batch ≤ batchSchema.currentStudents batch)%Z) :
  batchController.addStudentToBatch id studentId st
  = (mkResponse BadRequest "Batch is full", st)
  ∧ ∀ verdict enrollmentData,
      enrollmentSchema.batch enrollmentData = Some id →
      findOne_pending_or_active st (enrollmentSchema.student enrollmentData)
                                (enrollmentSchema.course enrollmentData) = None →
      enrollmentController.createEnrollment verdict st enrollmentData
      = (mkResponse BadRequest "Selected batch is full", st).
Proof.
  assert (Hgeb : (batchSchema.currentStudents batch >=? batchSchema.maxStudents batch)%Z
                 = true) by (apply Z.geb_le; lia).
  split.
  - unfold batchController.addStudentToBatch. by rewrite Hb, Hs, Hgeb.
  - intros verdict data Hbatch Hnone. unfold enrollmentController.createEnrollment.
    by rewrite Hnone, Hbatch, Hb, Hgeb.
Qed.

(** Scenario B: two seats, both taken, and a third student. *)
Lemma C5_witness :
  batches Scenario.store_B !! 5 = Some Scenario.batch_B
  ∧ students Scenario.store_B !! 3 = Some Scenario.student_A
  ∧ (batchSchema.maxStudents Scenario.batch_B
     ≤ batchSchema.currentStudents Scenario.batch_B)%Z
  ∧ batchController.addStudentToBatch 5 3 Scenario.store_B
    = (mkResponse 400 "Batch is full", Scenario.store_B)
  ∧ batchSchema.currentStudents
      <$> batches (batchController.addStudentToBatch 5 3 Scenario.store_B).2 !! 5
    = Some 2%Z.
Proof.
  assert (Hb : batches Scenario.store_B !! 5 = Some Scenario.batch_B)
    by (vm_compute; reflexivity).
  assert (Hs : students Scenario.store_B !! 3 = Some Scenario.student_A)
    by (vm_compute; reflexivity).
  assert (Hfull : (batchSchema.maxStudents Scenario.batch_B
                   ≤ batchSchema.currentStudents Scenario.batch_B)%Z)
    by (cbn; lia).
  pose proof (proj1 (C5_full_batch_rejected _ _ _ _ _ Hb Hs Hfull)) as H.
  split; [exact Hb|]. split; [exact Hs|]. split; [exact Hfull|].
  split; [exact H|]. rewrite H. cbn [snd]. rewrite Hb. reflexivity.
Defined.

(** ** C6: the attendance percentage *)

Lemma exact_up_to_39 : exact_up_to 39.
Proof. unfold exact_up_to. apply (bool_decide_unpack _). vm_compute. exact I. Qed.

Lemma round_ratio_exact_below_40 part whole :
  0 < whole < 40 → part ≤ whole →
  round_ratio_times_100 part whole = Number.of_Z (round_half_up_percent part whole).
Proof.
  intros Hw Hp. pose proof exact_up_to_39 as H. unfold exact_up_to in H.
  rewrite Forall_forall in H.
  assert (Hin : whole ∈ seq 1 39) by (apply elem_of_seq; lia).
  specialize (H whole Hin). rewrite Forall_forall in H.
  apply H. apply elem_of_seq. lia.
Qed.

Lemma present_or_late_count_le attendance :
  present_or_late_count attendance ≤ length attendance.
Proof. apply length_filter. Qed.

(** In double arithmetic 23 / 40 * 100 is 57.49999999999999, so 23 present
    records out of 40 are reported as 57, where 100 * 23 / 40 = 57.5
    rounds to 58. *)
Example attendance_23_of_40 :
  round_ratio_times_100 23 40 = Number.of_Z 57
  ∧ round_half_up_percent 23 40 = 58%Z.
Proof. split; vm_compute; reflexivity. Qed.

(** Scenario C: present, present, absent, late gives 75 at the virtual. *)
Example attendance_scenario_C (e : enrollmentSchema.t) :
  Enrollment.attendancePercentage
    (enrollmentSchema.with_attendance Scenario.attendance_C e)
  = Number.of_Z 75.
Proof. vm_compute. reflexivity. Qed.

(** Marking the session at [i] leaves at least one session with
    attendance taken. *)
Lemma sessions_taken_marked i b :
  i < length (batchSchema.sessions b) → 0 < sessions_taken (sessions_marked i b).
Proof.
  intros Hi. unfold sessions_taken, sessions_marked.
  destruct (lookup_lt_is_Some_2 _ _ Hi) as [session Hsession].
  assert (Hin : SessionEntry.mk (SessionEntry.topic session) "completed" true
                ∈ filter (λ s, SessionEntry.attendanceTaken s = true)
                         (alter (λ session,
                                   SessionEntry.mk (SessionEntry.topic session)
                                                   "completed" true)
                                i (batchSchema.sessions b))).
  { apply list_elem_of_filter. split; [done|].
    eapply list_elem_of_lookup_2. by rewrite list_lookup_alter_eq, Hsession. }
  destruct (filter _ _); [by apply elem_of_nil in Hin|cbn; lia].
Qed.

(** One record of a request for a student of the roster, on the batch as
    it is loaded: the roster entry has no records, so the percentage is
    that of the one record against the sessions with attendance taken. *)
Lemma mark_record_loaded i (b : batchSchema.t) record k entry :
  list_find (λ s, RosterEntry.student s = AttendanceInput.studentId record)
            (batchSchema.students b) = Some (k, entry) →
  0 < sessions_taken (batchSchema.sessions b) →
  batchController.mark_record i
    (batchSchema.with_students (batchController.stored_entry <$> batchSchema.students b)
                               b)
    record
  = batchSchema.with_students
      (<[k := RosterEntry.mk
                (RosterEntry.student entry) (RosterEntry.status entry)
                (Some (round_ratio_times_100
                         (if decide (Enrollment.is_present_or_late
                                       (AttendanceInput.status record))
                          then 1 else 0)
                         (sessions_taken (batchSchema.sessions b))))
                (Some [RosterRecord.mk i (AttendanceInput.status record)
                                       (AttendanceInput.remarks record)])]>
         (batchController.stored_entry <$> batchSchema.students b))
      b.
Proof.
  intros Hfind Htaken. unfold batchController.mark_record.
  cbn [batchSchema.students batchSchema.with_students batchSchema.sessions].
  rewrite list_find_fmap.
  rewrite (list_find_ext _ (λ s, RosterEntry.student s
                                 = AttendanceInput.studentId record))
    by (intros s; reflexivity).
  rewrite Hfind. cbn [fmap option_fmap option_map prod_map fst snd id].
  cbn [batchController.stored_entry RosterEntry.attendanceRecords
       RosterEntry.student RosterEntry.status default app].
  fold (sessions_taken (batchSchema.sessions b)).
  rewrite filter_cons, filter_nil. cbn [RosterRecord.status].
  destruct (Nat.ltb_spec 0 (sessions_taken (batchSchema.sessions b))); [|lia].
  destruct b. cbn.
  by destruct (decide (Enrollment.is_present_or_late (AttendanceInput.status record))).
Qed.

(** C6.  The virtual of the enrollment model and the helper of the
    enrollment controller agree on every attendance list: 0 for an empty
    (or missing) list, and otherwise [Math.round((present or late /
    total) * 100)] in double arithmetic, which is the half-up rounding of
    100 * present or late / total for every list of fewer than 40
    records.  The roster cache of the batch controller is another
    quantity.  A request that marks one student of the roster at a
    session is answered 200 (the seat counter of the batch not being
    negative) and stores for the student the percentage of that one
    record against the sessions with attendance taken so far: 100 or 0
    divided by their number.  The records of a student are kept with the
    roster entry in memory only, so the records of earlier sessions have
    no part in it. *)
Theorem C6_attendance_percentage_sites (attendance : list AttendanceRecord.t)
    (e : enrollmentSchema.t) :
  let part := present_or_late_count attendance in
  let whole := length attendance in
  let virtual := Enrollment.attendancePercentage
                   (enrollmentSchema.with_attendance attendance e) in
  virtual = enrollmentController.calculateAttendancePercentage (Some attendance)
  ∧ enrollmentController.calculateAttendancePercentage None = Number.of_Z 0
  ∧ (whole = 0 → virtual = Number.of_Z 0)
  ∧ (whole ≠ 0 → virtual = round_ratio_times_100 part whole)
  ∧ (0 < whole < 40 → virtual = Number.of_Z (round_half_up_percent part whole))
  ∧ ∀ id st stored i record k entry,
      batches st !! id = Some stored →
      (0 ≤ batchSchema.currentStudents stored)%Z →
      i < length (batchSchema.sessions stored) →
      list_find (λ s, RosterEntry.student s = AttendanceInput.studentId record)
                (batchSchema.students stored) = Some (k, entry) →
      let taken := sessions_taken (sessions_marked i stored) in
      let attended :=
        if decide (Enrollment.is_present_or_late (AttendanceInput.status record))
        then 1 else 0 in
      ∃ batch',
        batchController.markAttendance id (Some (Z.of_nat i)) [record] st
        = (mkResponse 200 "Attendance marked successfully",
           with_batches (<[id := batch']> (batches st)) st)
        ∧ batchSchema.sessions batch' = sessions_marked i stored
        ∧ batchSchema.students batch'
          = <[k := RosterEntry.mk (RosterEntry.student entry)
                                  (RosterEntry.status entry)
                                  (Some (round_ratio_times_100 attended taken)) None]>
              (batchController.stored_entry <$> batchSchema.students stored)
        ∧ 0 < taken.
Proof.
  intros part whole virtual.
  assert (Hv : virtual = if decide (whole = 0) then Number.of_Z 0
                         else round_ratio_times_100 part whole) by reflexivity.
  split; [reflexivity|]. split; [reflexivity|].
  split; [intros H; by rewrite Hv, decide_True|].
  split; [intros H; by rewrite Hv, decide_False|].
  split.
  - intros H. rewrite Hv, decide_False by lia.
    apply round_ratio_exact_below_40; [done|apply present_or_late_count_le].
  - intros id st stored i record k entry Hb Hcount Hi Hfind taken attended.
    pose proof (sessions_taken_marked i stored Hi) as Htaken.
    unfold batchController.markAttendance. rewrite Hb.
    cbn [batchSchema.sessions batchSchema.with_students].
    replace ((Z.of_nat i <? 0)%Z
             || (Z.of_nat (length (batchSchema.sessions stored)) <=? Z.of_nat i)%Z)
      with false
      by (symmetry; apply orb_false_intro; [apply Z.ltb_ge|apply Z.leb_gt]; lia).
    rewrite Nat2Z.id. cbn [foldl].
    change (batchSchema.with_sessions ?s (batchSchema.with_students ?r stored))
      with (batchSchema.with_students
              (batchController.stored_entry
                 <$> batchSchema.students (batchSchema.with_sessions s stored))
              (batchSchema.with_sessions s stored)).
    rewrite (mark_record_loaded i _ record k entry) by done.
    rewrite Batch_save_spec.
    cbn [batchSchema.currentStudents batchSchema.with_students
         batchSchema.with_sessions batchSchema.students batchSchema.sessions].
    destruct (Z.ltb_spec (batchSchema.currentStudents stored) 0); [lia|].
    eexists. split; [reflexivity|].
    cbn [batchSchema.sessions batchSchema.students batchSchema.with_students
         batchSchema.with_sessions].
    split; [done|]. split; [|done].
    rewrite list_fmap_insert. cbn [batchController.stored_entry
      RosterEntry.student RosterEntry.status RosterEntry.attendancePercentage].
    f_equal. rewrite <- list_fmap_compose.
    apply list_fmap_ext. intros j s _. by destruct s.
Qed.

(** A student is present at the two sessions of a batch, marked by two
    requests: after the second the stored percentage is 50, where both
    records are present ones.  Scenario C at the virtual is 75. *)
Lemma C6_witness :
  0 < length Scenario.attendance_C < 40
  ∧ Enrollment.attendancePercentage
      (enrollmentSchema.with_attendance Scenario.attendance_C
                                        Scenario.enrollment_pending)
    = Number.of_Z (round_half_up_percent 3 4)
  ∧ round_half_up_percent 3 4 = 75%Z
  ∧ (let present := [AttendanceInput.mk 7 "present" ""] in
     let first := batchController.markAttendance 5 (Some 0%Z) present
                    Scenario.store_sessions in
     let second := batchController.markAttendance 5 (Some 1%Z) present first.2 in
     statusCode first.1 = 200 ∧ statusCode second.1 = 200
     ∧ (batchSchema.students <$> batches first.2 !! 5)
       = Some [RosterEntry.mk 7 "active" (Some (Number.of_Z 100)) None]
     ∧ (batchSchema.students <$> batches second.2 !! 5)
       = Some [RosterEntry.mk 7 "active" (Some (Number.of_Z 50)) None]).
Proof.
  assert (H : 0 < length Scenario.attendance_C < 40) by (cbn; lia).
  pose proof (C6_attendance_percentage_sites Scenario.attendance_C
                Scenario.enrollment_pending) as Hsites. cbv zeta in Hsites.
  destruct Hsites as (_ & _ & _ & _ & Hexact & Hbatch).
  split; [exact H|]. split; [exact (Hexact H)|]. split; [reflexivity|].
  intros present first second.
  split; [vm_compute; reflexivity|].
  destruct (Hbatch 5 first.2
              (batchSchema.mk "WEB-B003" 1 10 1
                 [RosterEntry.mk 7 "active" (Some (Number.of_Z 100)) None]
                 [SessionEntry.mk "Introduction" "completed" true;
                  SessionEntry.mk "Forms" "scheduled" false])
              1 (AttendanceInput.mk 7 "present" "") 0
              (RosterEntry.mk 7 "active" (Some (Number.of_Z 100)) None))
    as (batch' & Hres & _ & Hroster & _).
  - vm_compute. reflexivity.
  - cbn. lia.
  - cbn. lia.
  - vm_compute. reflexivity.
  - change (batchController.markAttendance 5 (Some (Z.of_nat 1))
              [AttendanceInput.mk 7 "present" ""] first.2) with second in Hres.
    rewrite Hres. cbn [fst snd statusCode]. split; [done|].
    split; [vm_compute; reflexivity|].
    cbn [batches with_batches]. rewrite lookup_insert_eq. cbn [fmap option_fmap option_map].
    rewrite Hroster. vm_compute. reflexivity.
Defined.

(** ** C7: the enrollment statistics of a course *)

Section Statistics.
Implicit Types (st : Store) (courseId : ObjectId).

(** The helper of the controller writes the statistics of the course and
    nothing else. *)
Lemma updateCourseEnrollmentStats_spec value st :
  let result := enrollmentController.updateCourseEnrollmentStats value st in
  students result = students st ∧ batches result = batches st
  ∧ enrollments result = enrollments st ∧ leads result = leads st
  ∧ payments result = payments st
  ∧ courses result
    = alter (courseSchema.with_enrollmentStats
               (match value with
                | AsObjectId courseId =>
                    recount courseId (documents (enrollments st))
                | AsString _ => EnrollmentStats.mk 0 0 0 0
                end))
            (cast_id value) (courses st).
Proof.
  cbv zeta. unfold enrollmentController.updateCourseEnrollmentStats.
  destruct value as [courseId|courseId].
  - by rewrite aggregate_string.
  - by rewrite tally_aggregate.
Qed.

(** What [createEnrollment] has written when it answers 201. *)
Lemma createEnrollment_created verdict st data :
  let result := enrollmentController.createEnrollment verdict st data in
  let _id := new_id (enrollments st) in
  statusCode result.1 = 201 →
  result.1 = mkResponse 201 "Enrollment created successfully"
  ∧ enrollments result.2 = <[_id := (Enrollment.pre_save st data).2]> (enrollments st)
  ∧ students result.2
    = alter (enrollmentController.push_enrollment _id)
            (enrollmentSchema.student data) (students st)
  ∧ batches result.2
    = match enrollmentSchema.batch data with
      | Some batchId =>
          alter (enrollmentController.inc_currentStudents 1) batchId (batches st)
      | None => batches st
      end
  ∧ courses result.2
    = alter (courseSchema.with_enrollmentStats (EnrollmentStats.mk 0 0 0 0))
            (enrollmentSchema.course data) (courses st)
  ∧ leads result.2 = leads st ∧ payments result.2 = payments st
  ∧ findOne_pending_or_active st (enrollmentSchema.student data)
                              (enrollmentSchema.course data) = None.
Proof.
  cbv zeta. unfold enrollmentController.createEnrollment.
  destruct (findOne_pending_or_active _ _ _); [discriminate|].
  match goal with |- context [if ?c then _ else _] => destruct c end;
    [discriminate|].
  pose proof (Enrollment_create_frame verdict st data) as Hframe. cbv zeta in Hframe.
  destruct (Enrollment.create verdict st data) as [st1 [error|[_id e]]];
    cbn [fst snd] in *.
  - destruct error; discriminate.
  - destruct Hframe as (Hs & Hc & Hb & Hl & Hp & -> & He & ->). intros _.
    split; [done|].
    match goal with |- context [enrollmentController.updateCourseEnrollmentStats ?v ?s] =>
      pose proof (updateCourseEnrollmentStats_spec v s) as Hstats;
      cbv zeta in Hstats;
      destruct Hstats as (Ks & Kb & Ke & Kl & Kp & Kc) end.
    rewrite Ks, Kb, Ke, Kl, Kp, Kc. cbn [cast_id].
    destruct (enrollmentSchema.batch data); cbn; rewrite ?Hs, ?Hc, ?Hb, ?Hl, ?Hp, ?He;
      done.
Qed.

(** The documents of a collection after one is taken out. *)
Lemma documents_delete {D} (m : gmap ObjectId D) id d :
  m !! id = Some d → documents m ≡ₚ d :: documents (delete id m).
Proof.
  intros Hd. unfold documents. rewrite <- (map_to_list_delete m id d Hd). done.
Qed.

Lemma documents_insert {D} (m : gmap ObjectId D) id d :
  m !! id = None → documents (<[id := d]> m) ≡ₚ d :: documents m.
Proof.
  intros Hd. unfold documents. rewrite (map_to_list_insert m id d Hd). done.
Qed.

Lemma recount_total_cons courseId e docs docs' :
  docs ≡ₚ e :: docs' →
  EnrollmentStats.totalEnrolled (recount courseId docs)
  = (if decide (enrollmentSchema.course e = courseId) then 1 else 0)
    + EnrollmentStats.totalEnrolled (recount courseId docs').
Proof.
  intros Hperm. unfold recount, of_course. cbn. rewrite Hperm, filter_cons.
  by case_decide.
Qed.
End Statistics.

(** C7.  For a course of the store.  Given the [ObjectId] of the course,
    as the update and the deletion of an enrollment give it, the helper
    of the enrollment controller writes the recount over the enrollments
    of the store that reference the course ([totalEnrolled] their number,
    [active] and [completed] the numbers of those statuses, [dropout] the
    number of status dropped), and so does the method of the course model
    on a course that passes the validation.  Given the string of a
    request body, as the creation of an enrollment gives it, the helper
    matches no enrollment and writes 0 everywhere: after an enrollment of
    the course is created, the statistics of the course are all 0 while
    the course has at least that enrollment.  The deletion recomputes
    before it deletes: the statistics it leaves are the recount that
    still has the deleted enrollment, one more than the enrollments the
    course has. *)
Theorem C7_enrollment_stats_and_the_recount (courseId : ObjectId) (st : Store)
    (c : courseSchema.t) (Hc : courses st !! courseId = Some c) :
  let docs := documents (enrollments st) in
  let stats_of st' := courseSchema.enrollmentStats <$> courses st' !! courseId in
  stats_of (enrollmentController.updateCourseEnrollmentStats (AsObjectId courseId) st)
  = Some (recount courseId docs)
  ∧ (Course.validate c = [] →
     Course.updateEnrollmentStats courseId st c
     = (with_courses
          (<[courseId := courseSchema.with_enrollmentStats (recount courseId docs) c]>
             (courses st)) st,
        inr (courseSchema.with_enrollmentStats (recount courseId docs) c)))
  ∧ stats_of (enrollmentController.updateCourseEnrollmentStats (AsString courseId) st)
    = Some (EnrollmentStats.mk 0 0 0 0)
  ∧ (∀ verdict enrollmentData,
       enrollmentSchema.course enrollmentData = courseId →
       let result := enrollmentController.createEnrollment verdict st enrollmentData in
       statusCode result.1 = 201 →
       stats_of result.2 = Some (EnrollmentStats.mk 0 0 0 0)
       ∧ EnrollmentStats.totalEnrolled
           (recount courseId (documents (enrollments result.2)))
         = S (EnrollmentStats.totalEnrolled (recount courseId docs)))
  ∧ ∀ id enrollment,
      enrollments st !! id = Some enrollment →
      enrollmentSchema.course enrollment = courseId →
      let result := enrollmentController.deleteEnrollment id st in
      result.1 = mkResponse 200 "Enrollment deleted successfully"
      ∧ stats_of result.2 = Some (recount courseId docs)
      ∧ EnrollmentStats.totalEnrolled (recount courseId docs)
        = S (EnrollmentStats.totalEnrolled
               (recount courseId (documents (enrollments result.2)))).
Proof.
  intros docs stats_of. subst stats_of. cbv beta.
  split; [|split; [|split; [|split]]].
  - destruct (updateCourseEnrollmentStats_spec (AsObjectId courseId) st)
      as (_ & _ & _ & _ & _ & ->).
    cbn [cast_id]. by rewrite lookup_alter_eq, Hc.
  - intros Hvalid. unfold Course.updateEnrollmentStats, Course.save.
    rewrite tally_aggregate.
    assert (Hsame : Course.validate
                      (courseSchema.with_enrollmentStats (recount courseId docs) c)
                    = Course.validate c) by reflexivity.
    fold docs. by rewrite Hsame, Hvalid.
  - destruct (updateCourseEnrollmentStats_spec (AsString courseId) st)
      as (_ & _ & _ & _ & _ & ->).
    cbn [cast_id]. by rewrite lookup_alter_eq, Hc.
  - intros verdict data Hcourse result Hcreated. subst result.
    destruct (createEnrollment_created verdict st data Hcreated)
      as (_ & -> & _ & _ & -> & _).
    rewrite Hcourse, lookup_alter_eq, Hc. split; [done|].
    rewrite (recount_total_cons courseId (Enrollment.pre_save st data).2 _ docs).
    + destruct (Enrollment_pre_save_keeps st data) as (_ & -> & _).
      by rewrite decide_True.
    + apply documents_insert, new_id_fresh.
  - intros id e He Hcourse result. subst result.
    unfold enrollmentController.deleteEnrollment. rewrite He. cbn [fst snd].
    split; [done|].
    match goal with |- context [enrollmentController.updateCourseEnrollmentStats ?v ?s] =>
      pose proof (updateCourseEnrollmentStats_spec v s) as Hstats;
      cbv zeta in Hstats;
      destruct Hstats as (_ & _ & Ke & _ & _ & Kc) end.
    cbn [courses enrollments with_enrollments]. rewrite Kc, Ke. cbn [cast_id].
    assert (Hsame : ∀ st', enrollments st' = enrollments st → courses st' = courses st →
              (courseSchema.enrollmentStats
                 <$> alter (courseSchema.with_enrollmentStats
                              (recount (enrollmentSchema.course e)
                                       (documents (enrollments st'))))
                           (enrollmentSchema.course e) (courses st')
                     !! courseId) = Some (recount courseId docs)
              ∧ EnrollmentStats.totalEnrolled (recount courseId docs)
                = S (EnrollmentStats.totalEnrolled
                       (recount courseId (documents (delete id (enrollments st')))))).
    { intros st' -> ->. rewrite Hcourse, lookup_alter_eq, Hc. split; [done|].
      rewrite (recount_total_cons courseId e docs
                 (documents (delete id (enrollments st))))
        by (by apply documents_delete).
      by rewrite decide_True. }
    destruct (enrollmentSchema.batch e); by apply Hsame.
Qed.

(** Scenario E: the course has two active enrollments and a completed
    one, and the helper given the [ObjectId] writes 3, 2, 1, 0.  A fourth
    enrollment is then created by request: the answer is 201 and the
    statistics of the course are all 0. *)
Lemma C7_witness :
  courses Scenario.store_E !! 1 = Some Scenario.course_E
  ∧ courseSchema.enrollmentStats
      <$> courses (enrollmentController.updateCourseEnrollmentStats (AsObjectId 1)
                     Scenario.store_E) !! 1
    = Some (EnrollmentStats.mk 3 2 1 0)
  ∧ (let result := enrollmentController.createEnrollment Accepted Scenario.store_E
                     Scenario.request_E in
     statusCode result.1 = 201
     ∧ courseSchema.enrollmentStats <$> courses result.2 !! 1
       = Some (EnrollmentStats.mk 0 0 0 0)
     ∧ EnrollmentStats.totalEnrolled
         (recount 1 (documents (enrollments result.2))) = 4).
Proof.
  assert (Hc : courses Scenario.store_E !! 1 = Some Scenario.course_E)
    by (vm_compute; reflexivity).
  pose proof (C7_enrollment_stats_and_the_recount 1 Scenario.store_E _ Hc) as H.
  cbv zeta in H. destruct H as (Hobject & _ & _ & Hcreate & _).
  split; [exact Hc|]. split.
  - refine (eq_trans Hobject _). vm_compute. reflexivity.
  - assert (Hcreated : statusCode (enrollmentController.createEnrollment Accepted
                                     Scenario.store_E Scenario.request_E).1 = 201)
      by (vm_compute; reflexivity).
    destruct (Hcreate Accepted Scenario.request_E eq_refl Hcreated) as [Hzero Htotal].
    cbv zeta. split; [exact Hcreated|]. split; [exact Hzero|].
    refine (eq_trans Htotal _). vm_compute. reflexivity.
Defined.

(** ** C8: marking a module complete *)

Section ProgressRecords.
Implicit Types (st : Store) (e : enrollmentSchema.t).

Lemma upsert_module_present moduleId score completed k m :
  list_find (λ m, ModuleCompletion.moduleId m = moduleId) completed = Some (k, m) →
  upsert_module moduleId score completed
  = <[k := ModuleCompletion.mk moduleId score]> completed
  ∧ length (upsert_module moduleId score completed) = length completed
  ∧ ModuleCompletion.moduleId <$> upsert_module moduleId score completed
    = ModuleCompletion.moduleId <$> completed.
Proof.
  intros Hfind. unfold upsert_module. rewrite Hfind.
  split; [done|]. split; [by rewrite length_insert|].
  apply list_find_Some in Hfind as (Hk & Hm & _).
  rewrite list_fmap_insert. cbn. apply list_insert_id.
  by rewrite list_lookup_fmap, Hk; cbn; rewrite Hm.
Qed.

Lemma upsert_module_absent moduleId score completed :
  list_find (λ m, ModuleCompletion.moduleId m = moduleId) completed = None →
  upsert_module moduleId score completed
  = completed ++ [ModuleCompletion.mk moduleId score]
  ∧ length (upsert_module moduleId score completed) = S (length completed).
Proof.
  intros Hfind. unfold upsert_module. rewrite Hfind. split; [done|].
  rewrite length_app. cbn. lia.
Qed.

(** The enrollment [completeModule] hands to [save]: the list of
    completed modules after the upsert, everything else as it was. *)
Lemma completeModule_document id st e moduleId score :
  Enrollment.completeModule id st e moduleId score
  = Enrollment.save id st
      (enrollmentSchema.with_progress
         (Progress.mk (Progress.percentage (enrollmentSchema.progress e))
                      (upsert_module moduleId score
                         (Progress.completedModules (enrollmentSchema.progress e))))
         e).
Proof. reflexivity. Qed.

(** The validation does not read the list of completed modules. *)
Lemma validate_completedModules e completed :
  Enrollment.validate
    (enrollmentSchema.with_progress
       (Progress.mk (Progress.percentage (enrollmentSchema.progress e)) completed) e)
  = Enrollment.validate e.
Proof. reflexivity. Qed.

Lemma percentage_above_100_invalid e :
  (100 < Progress.percentage (enrollmentSchema.progress e))%Z →
  Enrollment.validate e ≠ [].
Proof.
  intros Habove Hvalid.
  apply Enrollment_validate_nil in Hvalid as (_ & _ & _ & _ & _ & _ & V7 & _). lia.
Qed.
End ProgressRecords.

(** C8.  For an enrollment of the store, marking a module complete works
    on the list of completed modules by an upsert keyed by the module:
    the first record of the module is replaced in place, all the other
    records and the length of the list staying as they are, and when
    there is none the record is appended and the list is one longer.
    When the enrollment passes the validation, it is stored with that
    list and with the percentage
    [Math.round((completed / curriculum length) * 100)] against the
    curriculum of its course (0 for an empty curriculum, the percentage
    as it was when the course is not found), and the controller answers
    200 with the percentage and the number of completed modules.  The
    percentage is written after the validation and is stored whatever it
    is.  When the enrollment does not pass the validation, as with a
    stored percentage above 100, nothing is stored: the method is
    refused, the record is neither replaced nor appended, and the
    controller answers 500. *)
Theorem C8_complete_module_is_an_upsert (id : ObjectId) (st : Store)
    (e : enrollmentSchema.t) (moduleId : ObjectId) (score : option Z)
    (He : enrollments st !! id = Some e) :
  let completed := Progress.completedModules (enrollmentSchema.progress e) in
  let completed' := upsert_module moduleId score completed in
  let find := list_find (λ m, ModuleCompletion.moduleId m = moduleId) completed in
  (∀ k m, find = Some (k, m) →
     completed' = <[k := ModuleCompletion.mk moduleId score]> completed
     ∧ length completed' = length completed)
  ∧ (find = None →
     completed' = completed ++ [ModuleCompletion.mk moduleId score]
     ∧ length completed' = S (length completed))
  ∧ (Enrollment.validate e = [] →
     ∃ e',
       Enrollment.completeModule id st e moduleId score
       = (with_enrollments (<[id := e']> (enrollments st)) st, inr e')
       ∧ Progress.completedModules (enrollmentSchema.progress e') = completed'
       ∧ Progress.percentage (enrollmentSchema.progress e')
         = match courses st !! enrollmentSchema.course e with
           | Some c => progress_percentage (length completed')
                                           (length (courseSchema.curriculum c))
           | None => Progress.percentage (enrollmentSchema.progress e)
           end
       ∧ enrollmentController.updateProgress id moduleId score st
         = (mkResponse 200 "Progress updated successfully",
            Some (Progress.percentage (enrollmentSchema.progress e'),
                  length completed'),
            with_enrollments (<[id := e']> (enrollments st)) st))
  ∧ (Enrollment.validate e ≠ [] →
     Enrollment.completeModule id st e moduleId score
     = (st, inl (ValidationFailed (Enrollment.validate e)))
     ∧ enrollmentController.updateProgress id moduleId score st
       = (mkResponse 500 "Server error", None, st))
  ∧ ((100 < Progress.percentage (enrollmentSchema.progress e))%Z →
     Enrollment.validate e ≠ []).
Proof.
  intros completed completed' find.
  split; [|split; [|split; [|split]]].
  - intros k m Hfind.
    destruct (upsert_module_present moduleId score completed k m Hfind)
      as (H1 & H2 & _). done.
  - intros Hfind. by apply upsert_module_absent.
  - intros Hvalid.
    set (this := enrollmentSchema.with_progress
                   (Progress.mk (Progress.percentage (enrollmentSchema.progress e))
                                completed') e).
    assert (Hsaved : Enrollment.completeModule id st e moduleId score
                     = (with_enrollments
                          (<[id := (Enrollment.pre_save st this).2]> (enrollments st))
                          st,
                        inr (Enrollment.pre_save st this).2)).
    { rewrite completeModule_document.
      by apply (Enrollment_save_stored id st this e). }
    destruct (Enrollment_pre_save_keeps st this) as (_ & _ & _ & _ & _ & _ & Hc & _).
    exists (Enrollment.pre_save st this).2.
    split; [exact Hsaved|]. split; [exact Hc|]. split.
    + rewrite Enrollment_pre_save_percentage. done.
    + unfold enrollmentController.updateProgress. rewrite He, Hsaved. by rewrite Hc.
  - intros Hinvalid.
    assert (Hrejected : Enrollment.completeModule id st e moduleId score
                        = (st, inl (ValidationFailed (Enrollment.validate e)))).
    { rewrite completeModule_document.
      rewrite Enrollment_save_rejected by (by rewrite validate_completedModules).
      by rewrite validate_completedModules. }
    split; [exact Hrejected|].
    unfold enrollmentController.updateProgress. by rewrite He, Hrejected.
  - apply percentage_above_100_invalid.
Qed.

(** A course of one module, which the enrollment has completed.  A second
    module is marked: the answer is 200, and the stored percentage is
    200.  The same module is marked again with a score: the stored
    enrollment does not pass the validation, the answer is 500, and the
    record is not replaced. *)
Lemma C8_witness :
  enrollments Scenario.store_short !! 6 = Some Scenario.enrollment_short
  ∧ Enrollment.validate Scenario.enrollment_short = []
  ∧ (let first := enrollmentController.updateProgress 6 22 None Scenario.store_short in
     let second := enrollmentController.updateProgress 6 22 (Some 90%Z) first.2 in
     first.1 = (mkResponse 200 "Progress updated successfully", Some (200%Z, 2))
     ∧ second = (mkResponse 500 "Server error", None, first.2)
     ∧ (Progress.completedModules
          <$> (enrollmentSchema.progress <$> enrollments second.2 !! 6))
       = Some [ModuleCompletion.mk 21 None; ModuleCompletion.mk 22 None]).
Proof.
  assert (He : enrollments Scenario.store_short !! 6 = Some Scenario.enrollment_short)
    by (vm_compute; reflexivity).
  assert (Hvalid : Enrollment.validate Scenario.enrollment_short = [])
    by (vm_compute; reflexivity).
  split; [exact He|]. split; [exact Hvalid|].
  intros first second.
  pose proof (C8_complete_module_is_an_upsert 6 Scenario.store_short _ 22 None He)
    as Hfirst. cbv zeta in Hfirst.
  destruct Hfirst as (_ & _ & Hstored & _).
  destruct (Hstored Hvalid) as (e' & _ & Hcompleted & Hpercentage & Hanswer).
  assert (Hfirst2 : first.2
                    = with_enrollments (<[6 := e']> (enrollments Scenario.store_short))
                                       Scenario.store_short)
    by (subst first; by rewrite Hanswer).
  assert (H200 : Progress.percentage (enrollmentSchema.progress e') = 200%Z)
    by (refine (eq_trans Hpercentage _); vm_compute; reflexivity).
  assert (He' : enrollments first.2 !! 6 = Some e')
    by (rewrite Hfirst2; cbn; apply lookup_insert_eq).
  pose proof (C8_complete_module_is_an_upsert 6 first.2 e' 22 (Some 90%Z) He')
    as Hsecond. cbv zeta in Hsecond.
  destruct Hsecond as (_ & _ & _ & Hrejected & Habove).
  destruct (Hrejected (Habove ltac:(rewrite H200; lia))) as [_ Hanswer'].
  split; [subst first; rewrite Hanswer; cbn [fst]; rewrite H200; reflexivity|].
  split; [exact Hanswer'|].
  subst second. rewrite Hanswer'. cbn [snd]. rewrite He'. cbn.
  rewrite Hcompleted. vm_compute. reflexivity.
Defined.

(** ** C9: the conversion of a lead *)

(** C9.  For a lead of the store.  A lead that has been converted is not
    converted again: the answer is 400 (BadRequest) and the store is left
    as it was.  A lead that has not been converted is not converted
    either: the student data the controller builds from the lead have no
    student number and no total of fees, the creation of the student is
    refused by the validation whatever the store would answer, and the
    answer is 500, with no student created and the lead left as it was,
    its [convertedToStudent] still false. *)
Theorem C9_lead_conversion (verdict : StoreVerdict) (id : ObjectId) (st : Store)
    (lead : leadSchema.t) (Hlead : leads st !! id = Some lead) :
  (leadSchema.convertedToStudent lead = true →
   leadController.convertToStudent verdict id st
   = (mkResponse BadRequest "Lead already converted to student", st))
  ∧ (leadSchema.convertedToStudent lead = false →
     leadController.convertToStudent verdict id st
     = (mkResponse 500 "Server error", st)
     ∧ students (leadController.convertToStudent verdict id st).2 = students st
     ∧ leadSchema.convertedToStudent
         <$> leads (leadController.convertToStudent verdict id st).2 !! id
       = Some false).
Proof.
  split.
  - intros Hconverted. unfold leadController.convertToStudent.
    by rewrite Hlead, Hconverted.
  - intros Hnot.
    assert (Hanswer : leadController.convertToStudent verdict id st
                      = (mkResponse 500 "Server error", st)).
    { unfold leadController.convertToStudent. rewrite Hlead, Hnot.
      match goal with |- context [Student.create ?v ?s ?d] =>
        destruct (Student_create_unnumbered v s d eq_refl) as [messages ->] end.
      reflexivity. }
    rewrite Hanswer. split; [done|]. split; [done|].
    cbn [snd]. by rewrite Hlead; cbn; rewrite Hnot.
Qed.

(** Scenario D: the conversion of the lead is answered 500 and creates
    no student. *)
Lemma C9_witness :
  leads Scenario.store_D !! 3 = Some Scenario.lead_D
  ∧ leadSchema.convertedToStudent Scenario.lead_D = false
  ∧ leadController.convertToStudent Accepted 3 Scenario.store_D
    = (mkResponse 500 "Server error", Scenario.store_D)
  ∧ students (leadController.convertToStudent Accepted 3 Scenario.store_D).2 = ∅.
Proof.
  assert (Hlead : leads Scenario.store_D !! 3 = Some Scenario.lead_D)
    by (vm_compute; reflexivity).
  destruct (proj2 (C9_lead_conversion Accepted 3 Scenario.store_D _ Hlead) eq_refl)
    as (Hanswer & Hstudents & _).
  split; [exact Hlead|]. split; [reflexivity|]. split; [exact Hanswer|].
  rewrite Hstudents. reflexivity.
Defined.

(** ** C10: the fee summary *)

(** C10.  The fee summary of a student reports the stored total and paid
    amounts, a missing one as 0, and a pending amount that is their
    difference computed at read time: the stored pending amount has no
    part in it, so the summary is the same whatever is stored there. *)
Theorem C10_fee_summary_recomputes_pending (id : ObjectId) (st : Store)
    (s : studentSchema.t) (Hs : students st !! id = Some s) :
  let plan := studentSchema.paymentPlan s in
  ∃ summary,
    studentController.getFeeSummary id st = (mkResponse 200 "", Some summary)
    ∧ summary = Student.getFeeSummary s
    ∧ FeeSummary.totalFees summary = or_zero (PaymentPlan.totalFees plan)
    ∧ FeeSummary.paidAmount summary = or_zero (PaymentPlan.paidAmount plan)
    ∧ FeeSummary.pendingAmount summary
      = (FeeSummary.totalFees summary - FeeSummary.paidAmount summary)%Z
    ∧ ∀ stored,
        Student.getFeeSummary
          (studentSchema.with_paymentPlan
             (PaymentPlan.mk (PaymentPlan.totalFees plan)
                             (PaymentPlan.paidAmount plan) stored
                             (PaymentPlan.paymentSchedule plan)) s)
        = summary.
Proof.
  intros plan. exists (Student.getFeeSummary s).
  unfold studentController.getFeeSummary, Student.findById. rewrite Hs.
  repeat split; reflexivity.
Qed.

(** A student whose stored pending amount has drifted to 1, and whose
    paid amount is missing. *)
Lemma C10_witness :
  let drifted :=
    studentSchema.with_paymentPlan
      (PaymentPlan.mk (Some 10000%Z) None (Some 1%Z) []) Scenario.student_A in
  let st := with_students {[ 1 := drifted ]} empty_store in
  students st !! 1 = Some drifted
  ∧ ∃ summary,
      (studentController.getFeeSummary 1 st).2 = Some summary
      ∧ FeeSummary.totalFees summary = 10000%Z
      ∧ FeeSummary.paidAmount summary = 0%Z
      ∧ FeeSummary.pendingAmount summary = 10000%Z.
Proof.
  intros drifted st.
  assert (Hs : students st !! 1 = Some drifted) by (vm_compute; reflexivity).
  split; [exact Hs|].
  destruct (C10_fee_summary_recomputes_pending 1 st drifted Hs)
    as (summary & Hres & Hsum & Htotal & Hpaid & Hpending & _).
  exists summary. split; [by rewrite Hres|].
  rewrite Hpending, Htotal, Hpaid. repeat split.
Defined.

(** * Further properties *)

(** ** The roster of a batch *)

Lemma list_find_app_fresh {A} (P : A → Prop) `{∀ x, Decision (P x)} (l : list A) x :
  list_find P l = None → P x → list_find P (l ++ [x]) = Some (length l, x).
Proof.
  intros Hnone Hx. apply list_find_Some. split; [|split; [done|]].
  - rewrite lookup_app_r by done. by rewrite Nat.sub_diag.
  - intros j y Hj Hlt. rewrite lookup_app_l in Hj by done.
    apply list_find_None in Hnone. rewrite Forall_forall in Hnone.
    apply Hnone. by eapply list_elem_of_lookup_2.
Qed.

Lemma delete_last {A} (l : list A) x : delete (length l) (l ++ [x]) = l.
Proof. induction l as [|y l IH]; [done|]. simpl. by f_equal. Qed.

(** X12.  A student who is on the roster of a batch is not added again:
    the add is rejected with status 400 and the store is unchanged.  In
    particular, after a successful add, the same add is rejected. *)
Theorem X12_student_is_added_once (id studentId : ObjectId) (st : Store)
    (batch : batchSchema.t) (student : studentSchema.t)
    (Hb : batches st !! id = Some batch)
    (Hs : students st !! studentId = Some student) :
  (is_Some (list_find (λ s, RosterEntry.student s = studentId)
                      (batchSchema.students batch)) →
   (batchController.addStudentToBatch id studentId st).2 = st
   ∧ statusCode (batchController.addStudentToBatch id studentId st).1 = 400)
  ∧ ∀ res st',
      batchController.addStudentToBatch id studentId st = (res, st') →
      statusCode res = 200 →
      (batchController.addStudentToBatch id studentId st').2 = st'
      ∧ statusCode (batchController.addStudentToBatch id studentId st').1 = 400.
Proof.
  assert (Hdup : ∀ st0 b,
            batches st0 !! id = Some b → students st0 !! studentId = Some student →
            is_Some (list_find (λ s, RosterEntry.student s = studentId)
                               (batchSchema.students b)) →
            (batchController.addStudentToBatch id studentId st0).2 = st0
            ∧ statusCode (batchController.addStudentToBatch id studentId st0).1 = 400).
  { intros st0 b Hb0 Hs0 [found Hfound].
    unfold batchController.addStudentToBatch. rewrite Hb0, Hs0.
    destruct (_ >=? _)%Z; [done|]. by rewrite Hfound. }
  split; [by apply Hdup|].
  intros res st' Hadd Hok.
  destruct (addStudentToBatch_success _ _ _ _ _ _ Hb Hadd Hok) as [_ ->].
  eapply Hdup.
  - cbn. apply lookup_insert_eq.
  - exact Hs.
  - cbn. eapply list_find_elem_of.
    + apply elem_of_app. right. apply list_elem_of_here.
    + reflexivity.
Qed.

Lemma X12_witness :
  batches Scenario.store_seats !! 5 = Some Scenario.batch_empty
  ∧ students Scenario.store_seats !! 1 = Some Scenario.student_A
  ∧ statusCode (batchController.addStudentToBatch 5 1 Scenario.store_seats).1 = 200
  ∧ (batchController.addStudentToBatch 5 1
       (batchController.addStudentToBatch 5 1 Scenario.store_seats).2).1
    = mkResponse 400 "Student already enrolled in this batch"
  ∧ (batchController.addStudentToBatch 5 1
       (batchController.addStudentToBatch 5 1 Scenario.store_seats).2).2
    = (batchController.addStudentToBatch 5 1 Scenario.store_seats).2.
Proof.
  assert (Hb : batches Scenario.store_seats !! 5 = Some Scenario.batch_empty)
    by (vm_compute; reflexivity).
  assert (Hs : students Scenario.store_seats !! 1 = Some Scenario.student_A)
    by (vm_compute; reflexivity).
  assert (Hok : statusCode (batchController.addStudentToBatch 5 1
                              Scenario.store_seats).1 = 200)
    by (vm_compute; reflexivity).
  split; [exact Hb|]. split; [exact Hs|]. split; [exact Hok|].
  split; [vm_compute; reflexivity|].
  refine (proj1 (proj2 (X12_student_is_added_once 5 1 Scenario.store_seats _ _ Hb Hs)
                   _ _ _ Hok)).
  by destruct (batchController.addStudentToBatch 5 1 Scenario.store_seats).
Defined.

(** X13.  Adding a student to a batch and then removing the student gives
    back the store as it was, provided the seat counter was not
    negative. *)
Theorem X13_add_then_remove (id studentId : ObjectId) (st : Store)
    (batch : batchSchema.t) (res : Response) (st' : Store)
    (Hb : batches st !! id = Some batch)
    (Hnonneg : (0 ≤ batchSchema.currentStudents batch)%Z)
    (Hadd : batchController.addStudentToBatch id studentId st = (res, st'))
    (Hok : statusCode res = 200) :
  batchController.removeStudentFromBatch id studentId st'
  = (mkResponse 200 "Student removed from batch successfully", st).
Proof.
  assert (Hnone : list_find (λ s, RosterEntry.student s = studentId)
                            (batchSchema.students batch) = None).
  { revert Hadd. unfold batchController.addStudentToBatch. rewrite Hb.
    destruct (students st !! studentId); [|intros [= <- <-]; done].
    destruct (_ >=? _)%Z; [intros [= <- <-]; done|].
    destruct (list_find _ _); [intros [= <- <-]; done|done]. }
  destruct (addStudentToBatch_success _ _ _ _ _ _ Hb Hadd Hok) as [_ ->].
  unfold batchController.removeStudentFromBatch. cbn.
  rewrite lookup_insert_eq. cbn.
  rewrite (list_find_app_fresh _ _ (RosterEntry.mk studentId "active" None None) Hnone)
    by reflexivity.
  rewrite Batch_save_spec. cbn. rewrite delete_last. unfold Math.max.
  replace (Z.max 0 (batchSchema.currentStudents batch + 1 - 1))
    with (batchSchema.currentStudents batch) by lia.
  destruct (Z.ltb_spec (batchSchema.currentStudents batch) 0); [lia|].
  f_equal. rewrite insert_insert_eq.
  destruct st as [stu cou bat enr lea pay cnt], batch as [bid c m cur ros ses].
  cbn in *. unfold with_batches. cbn. f_equal. by apply insert_id.
Qed.

Lemma X13_witness :
  batches Scenario.store_seats !! 5 = Some Scenario.batch_empty
  ∧ (0 ≤ batchSchema.currentStudents Scenario.batch_empty)%Z
  ∧ statusCode (batchController.addStudentToBatch 5 1 Scenario.store_seats).1 = 200
  ∧ batchController.removeStudentFromBatch 5 1
      (batchController.addStudentToBatch 5 1 Scenario.store_seats).2
    = (mkResponse 200 "Student removed from batch successfully", Scenario.store_seats).
Proof.
  assert (Hb : batches Scenario.store_seats !! 5 = Some Scenario.batch_empty)
    by (vm_compute; reflexivity).
  assert (Hnonneg : (0 ≤ batchSchema.currentStudents Scenario.batch_empty)%Z)
    by (cbn; lia).
  assert (Hok : statusCode (batchController.addStudentToBatch 5 1
                              Scenario.store_seats).1 = 200)
    by (vm_compute; reflexivity).
  split; [exact Hb|]. split; [exact Hnonneg|]. split; [exact Hok|].
  refine (X13_add_then_remove 5 1 Scenario.store_seats _ _ _ Hb Hnonneg _ Hok).
  by destruct (batchController.addStudentToBatch 5 1 Scenario.store_seats).
Defined.



(** ** The batch model and the batch controller *)





(** ** Attendance of a session of a batch *)





(** ** The attendance and the payments of an enrollment *)



(** X2.  On an enrollment of the store that passes the validation, the
    payment method of the enrollment model adds the amount once to the
    paid fees, keeps the total and stores the enrollment with [pending =
    total - paid], provided the paid fees stay between 0 and the total.
    An installment number inside the payment plan marks that installment
    paid with the amount and leaves the others; no number, or one beyond
    the plan, leaves the plan as it is.  An amount that takes the paid
    fees below 0 or above the total is refused and nothing is stored. *)
Theorem X2_enrollment_updatePayment (id : ObjectId) (st : Store)
    (e : enrollmentSchema.t) (amount : Z) (installmentNumber : option nat)
    (He : enrollments st !! id = Some e) (Hvalid : Enrollment.validate e = []) :
  let total := Fees.total (enrollmentSchema.fees e) in
  let paid := (Fees.paid (enrollmentSchema.fees e) + amount)%Z in
  let plan := enrollmentSchema.paymentPlan e in
  ((0 ≤ paid ≤ total)%Z →
   ∃ e',
     Enrollment.updatePayment id st e amount installmentNumber
     = (with_enrollments (<[id := e']> (enrollments st)) st, inr e')
     ∧ enrollmentSchema.fees e' = Fees.mk total paid (total - paid)%Z
     ∧ length (enrollmentSchema.paymentPlan e') = length plan
     ∧ (∀ n, installmentNumber = Some n → n < length plan →
          enrollmentSchema.paymentPlan e' !! n
          = Some (Installment.mk "paid" (Some amount))
          ∧ ∀ j, j ≠ n → enrollmentSchema.paymentPlan e' !! j = plan !! j)
     ∧ ((installmentNumber = None
         ∨ ∃ n, installmentNumber = Some n ∧ length plan ≤ n) →
        enrollmentSchema.paymentPlan e' = plan))
  ∧ ((paid < 0 ∨ total < paid)%Z →
     ∃ messages, Enrollment.updatePayment id st e amount installmentNumber
                 = (st, inl (ValidationFailed messages))).
Proof.
  intros total paid plan. split.
  - intros Hpaid.
    destruct (updatePayment_stored id st e amount installmentNumber He Hvalid Hpaid)
      as (e' & Hsaved & Htotal & Hpaid' & Hbalanced & Hplan).
    exists e'. split; [exact Hsaved|]. split.
    { unfold fees_balanced in Hbalanced.
      destruct (enrollmentSchema.fees e') as [t p q]. cbn in *. by subst. }
    rewrite Hplan. fold plan. split; [|split].
    + destruct installmentNumber as [n|]; [|done].
      destruct (plan !! n); [by rewrite length_insert|done].
    + intros n -> Hn.
      destruct (lookup_lt_is_Some_2 _ _ Hn) as [i ->].
      split; [by apply list_lookup_insert_eq|].
      intros j Hj. by apply list_lookup_insert_ne.
    + intros [->|(n & -> & Hn)]; [done|].
      by rewrite (lookup_ge_None_2 _ _ Hn).
  - apply updatePayment_rejected.
Qed.

(** The enrollment with 100 of 500 paid takes 150; 450 more are refused. *)
Lemma X2_witness :
  enrollments Scenario.store_progress !! 4 = Some Scenario.enrollment_progress
  ∧ Enrollment.validate Scenario.enrollment_progress = []
  ∧ (enrollmentSchema.fees
       <$> enrollments (Enrollment.updatePayment 4 Scenario.store_progress
                          Scenario.enrollment_progress 150 None).1 !! 4)
    = Some (Fees.mk 500 250 250)
  ∧ (Enrollment.updatePayment 4 Scenario.store_progress Scenario.enrollment_progress
       450 None).1 = Scenario.store_progress.
Proof.
  assert (He : enrollments Scenario.store_progress !! 4
               = Some Scenario.enrollment_progress) by (vm_compute; reflexivity).
  assert (Hvalid : Enrollment.validate Scenario.enrollment_progress = [])
    by (vm_compute; reflexivity).
  split; [exact He|]. split; [exact Hvalid|]. split.
  - destruct (proj1 (X2_enrollment_updatePayment 4 Scenario.store_progress _ 150 None
                       He Hvalid)) as (e' & -> & Hfees & _).
    + cbn. lia.
    + cbn. rewrite lookup_insert_eq. cbn. by rewrite Hfees.
  - destruct (proj2 (X2_enrollment_updatePayment 4 Scenario.store_progress _ 450 None
                       He Hvalid)) as [messages ->]; [cbn; lia|done].
Defined.

(** ** Numbers, and documents built without one *)



(** X9.  The enrollment endpoint of a student never enrolls: the
    enrollment data the controller builds have no enrollment number, so
    their creation is refused by the validation whatever the store would
    answer.  The store is left as it was in every case, and for a student
    of the store without a pending or active enrollment in the course the
    answer is 500. *)
Theorem X9_enrollStudent_never_enrolls (verdict : StoreVerdict) (id course : ObjectId)
    (batch : option ObjectId) (fees_total : Z) (st : Store) :
  let result := studentController.enrollStudent verdict id course batch fees_total st in
  result.2 = st
  ∧ statusCode result.1 ≠ 201
  ∧ (is_Some (students st !! id) →
     findOne_pending_or_active st id course = None →
     result.1 = mkResponse 500 "Server error").
Proof.
  cbv zeta. unfold studentController.enrollStudent, Student.findById.
  destruct (students st !! id) as [s|]; cbn [fmap option_fmap option_map];
    [|split; [done|]; split; [done|]; by intros [? [=]]].
  destruct (findOne_pending_or_active st id course);
    [split; [done|]; split; [done|]; by intros _ [=]|].
  match goal with |- context [Enrollment.create ?v ?s0 ?d] =>
    destruct (Enrollment_create_unnumbered v s0 d eq_refl) as [messages ->] end.
  done.
Qed.

(** The student of scenario A asks for course 1: the answer is 500 and
    nothing is stored. *)
Lemma X9_witness :
  studentController.enrollStudent Accepted 1 1 None 500 Scenario.store_A
  = (mkResponse 500 "Server error", Scenario.store_A).
Proof.
  pose proof (X9_enrollStudent_never_enrolls Accepted 1 1 None 500 Scenario.store_A)
    as H. cbv zeta in H. destruct H as (Hstore & _ & Hanswer).
  destruct (studentController.enrollStudent Accepted 1 1 None 500 Scenario.store_A)
    as [response st'] eqn:Hresult.
  cbn [fst snd] in *. subst st'. f_equal. apply Hanswer.
  - by eexists.
  - vm_compute. reflexivity.
Defined.

(** ** What the creation of an enrollment leaves *)

Lemma documents_elem_inv {D} (m : gmap ObjectId D) d :
  d ∈ documents m → ∃ id, m !! id = Some d.
Proof.
  unfold documents. intros ([id d'] & -> & Hin)%list_elem_of_fmap.
  exists id. by apply elem_of_map_to_list.
Qed.

Lemma enrollment_keys_free_findOne st data :
  enrollment_keys_free st data →
  findOne_pending_or_active st (enrollmentSchema.student data)
                            (enrollmentSchema.course data) = None.
Proof.
  intros Hfree. unfold findOne_pending_or_active.
  destruct (filter _ _) as [|x l] eqn:Hfilter; [done|].
  assert (Hin : x ∈ x :: l) by apply list_elem_of_here.
  rewrite <- Hfilter in Hin. apply list_elem_of_filter in Hin as [(Hs & Hc & _) Hin].
  apply documents_elem_inv in Hin as [id Hid].
  by destruct (proj2 (Hfree id x Hid)).
Qed.

(** A student with an enrollment entry that has no course does not pass
    the validation. *)
Lemma Student_validate_course_required s entry :
  entry ∈ studentSchema.enrollments s → StudentEnrollment.course entry = None →
  Student.validate s ≠ [].
Proof.
  intros Hin Hcourse Hvalid.
  destruct (Student_validate_plan_inv s Hvalid) as (_ & _ & _ & _ & _ & Hentries).
  rewrite Forall_forall in Hentries. destruct (Hentries entry Hin) as [c Hc].
  congruence.
Qed.

(** X4.  A valid enrollment request for a student of the store, with keys
    no stored enrollment has and a batch, if any, that is not full, is
    answered 201.  One enrollment is stored under a fresh [_id], with the
    number, student, course, status, total and paid fees of the request
    and [pending = total - paid].  The student is not given the [_id]:
    the array of the student receives an entry of its own, with the
    default status and no course.  With that entry the student no longer
    passes the validation, so the payment endpoint of the student then
    answers 500 for this student and stores nothing. *)
Theorem X4_createEnrollment_created (st : Store) (data : enrollmentSchema.t)
    (s : studentSchema.t)
    (Hs : students st !! enrollmentSchema.student data = Some s)
    (Hvalid : Enrollment.validate data = [])
    (Hfree : enrollment_keys_free st data)
    (Hroom : ∀ batchId batch,
       enrollmentSchema.batch data = Some batchId →
       batches st !! batchId = Some batch →
       (batchSchema.currentStudents batch < batchSchema.maxStudents batch)%Z) :
  let result := enrollmentController.createEnrollment Accepted st data in
  let _id := new_id (enrollments st) in
  result.1 = mkResponse 201 "Enrollment created successfully"
  ∧ enrollments st !! _id = None
  ∧ (∃ e', enrollments result.2 = <[_id := e']> (enrollments st)
       ∧ fees_balanced e'
       ∧ enrollmentSchema.enrollmentId e' = enrollmentSchema.enrollmentId data
       ∧ enrollmentSchema.student e' = enrollmentSchema.student data
       ∧ enrollmentSchema.course e' = enrollmentSchema.course data
       ∧ enrollmentSchema.status e' = enrollmentSchema.status data
       ∧ Fees.total (enrollmentSchema.fees e') = Fees.total (enrollmentSchema.fees data)
       ∧ Fees.paid (enrollmentSchema.fees e') = Fees.paid (enrollmentSchema.fees data))
  ∧ (∃ s', students result.2 !! enrollmentSchema.student data = Some s'
       ∧ studentSchema.enrollments s'
         = studentSchema.enrollments s ++ [StudentEnrollment.mk None None "active"]
       ∧ studentSchema.paymentPlan s' = studentSchema.paymentPlan s
       ∧ Student.validate s' ≠ [])
  ∧ ∀ verdict period amount paymentMode installmentNumber,
      studentController.updatePayment verdict period (enrollmentSchema.student data)
        amount paymentMode installmentNumber result.2
      = (mkResponse 500 "Server error", None, result.2).
Proof.
  intros result _id.
  assert (Hcreated : statusCode result.1 = 201).
  { subst result. unfold enrollmentController.createEnrollment.
    rewrite (enrollment_keys_free_findOne st data Hfree).
    assert (Hfull : match enrollmentSchema.batch data with
                    | Some batchId =>
                        match batches st !! batchId with
                        | Some batch =>
                            (batchSchema.currentStudents batch
                             >=? batchSchema.maxStudents batch)%Z
                        | None => false
                        end
                    | None => false
                    end = false).
    { destruct (enrollmentSchema.batch data) as [batchId|] eqn:Hbatch; [|done].
      destruct (batches st !! batchId) as [batch|] eqn:Hb; [|done].
      specialize (Hroom batchId batch eq_refl Hb).
      destruct (Z.geb_spec (batchSchema.currentStudents batch)
                           (batchSchema.maxStudents batch)); [lia|done]. }
    rewrite Hfull, (Enrollment_create_stored st data Hvalid Hfree). done. }
  destruct (createEnrollment_created Accepted st data Hcreated)
    as (Hanswer & He & Hstudents & _ & _ & _ & _ & _).
  fold result in Hanswer, He, Hstudents. fold _id in He, Hstudents.
  pose proof (proj1 (proj1 (Enrollment_validate_nil data) Hvalid)) as Hnumbered.
  destruct (Enrollment_pre_save_numbered st data Hnumbered) as [_ Hid].
  destruct (Enrollment_pre_save_keeps st data)
    as (Ks & Kc & _ & Kstatus & _ & _ & _ & Kfees).
  set (s' := enrollmentController.push_enrollment _id s).
  assert (Hs' : students result.2 !! enrollmentSchema.student data = Some s')
    by (by rewrite Hstudents, lookup_alter_eq, Hs).
  assert (Hinvalid : ∀ plan, Student.validate (studentSchema.with_paymentPlan plan s')
                             ≠ []).
  { intros plan.
    apply (Student_validate_course_required _ (StudentEnrollment.mk None None "active"));
      [|done].
    cbn. apply elem_of_app. right. apply list_elem_of_here. }
  split; [exact Hanswer|]. split; [apply new_id_fresh|]. split; [|split].
  - exists (Enrollment.pre_save st data).2. split; [exact He|].
    split; [apply Enrollment_pre_save_balanced|].
    rewrite Hid, Ks, Kc, Kstatus, Kfees. done.
  - exists s'. split; [exact Hs'|]. split; [done|]. split; [done|].
    apply (Student_validate_course_required _ (StudentEnrollment.mk None None "active"));
      [|done].
    cbn. apply elem_of_app. right. apply list_elem_of_here.
  - intros verdict period amount paymentMode installmentNumber.
    unfold studentController.updatePayment, Student.findById. rewrite Hs'.
    cbn [fmap option_fmap option_map].
    unfold Student.updatePayment.
    match goal with |- context [Student.save ?i ?s0 ?d] =>
      rewrite (Student_save_rejected i s0 d) end; [done|].
    apply (Student_validate_course_required _ (StudentEnrollment.mk None None "active"));
      [|done].
    cbn. apply elem_of_app. right. apply list_elem_of_here.
Qed.

(** The request of scenario E for student 5: after the 201 the student
    has one entry without a course, and a payment of the student is
    answered 500. *)
Lemma X4_witness :
  students Scenario.store_E !! 5 = Some Scenario.student_A
  ∧ Enrollment.validate Scenario.request_E = []
  ∧ enrollment_keys_free Scenario.store_E Scenario.request_E
  ∧ (let result := enrollmentController.createEnrollment Accepted Scenario.store_E
                     Scenario.request_E in
     statusCode result.1 = 201
     ∧ (studentSchema.enrollments <$> students result.2 !! 5)
       = Some [StudentEnrollment.mk None None "active"]
     ∧ statusCode (studentController.updatePayment Accepted "2611" 5 4000
                     (Some "cash") None result.2).1.1 = 500).
Proof.
  assert (Hs : students Scenario.store_E
                 !! enrollmentSchema.student Scenario.request_E
               = Some Scenario.student_A) by (vm_compute; reflexivity).
  assert (Hvalid : Enrollment.validate Scenario.request_E = [])
    by (vm_compute; reflexivity).
  assert (Hfree : enrollment_keys_free Scenario.store_E Scenario.request_E).
  { unfold enrollment_keys_free. apply (bool_decide_unpack _). vm_compute. reflexivity. }
  assert (Hroom : ∀ batchId batch,
            enrollmentSchema.batch Scenario.request_E = Some batchId →
            batches Scenario.store_E !! batchId = Some batch →
            (batchSchema.currentStudents batch < batchSchema.maxStudents batch)%Z)
    by (intros batchId batch [=]).
  pose proof (X4_createEnrollment_created Scenario.store_E Scenario.request_E _
                Hs Hvalid Hfree Hroom) as H. cbv zeta in H.
  destruct H as (Hanswer & _ & _ & (s' & Hs' & Hentries & _) & Hpayment).
  split; [exact Hs|]. split; [exact Hvalid|]. split; [exact Hfree|].
  cbv zeta. split; [by rewrite Hanswer|]. split.
  - refine (eq_trans (f_equal (fmap studentSchema.enrollments) Hs') _).
    cbn. by rewrite Hentries.
  - refine (eq_trans (f_equal (λ r, statusCode r.1.1)
                        (Hpayment Accepted "2611" 4000%Z (Some "cash") None)) _).
    reflexivity.
Defined.

(** ** Deleting and updating an enrollment *)

(** X7.  Deleting an enrollment that is not in the store answers 404 and
    changes nothing.  Deleting a stored one answers 200 and takes it out
    of the enrollments, leaving the other enrollments.  No student is
    written: the [$pull] of the [_id] finds nothing to take off the
    entries of the student.  The batch of the enrollment, if it has one,
    loses one seat.  The statistics of the course are recomputed before
    the enrollment is taken out, so they are the recount that still has
    it. *)
Theorem X7_deleteEnrollment (id : ObjectId) (st : Store) :
  let result := enrollmentController.deleteEnrollment id st in
  (enrollments st !! id = None →
     result = (mkResponse 404 "Enrollment not found", st))
  ∧ ∀ e, enrollments st !! id = Some e →
      result.1 = mkResponse 200 "Enrollment deleted successfully"
      ∧ enrollments result.2 = delete id (enrollments st)
      ∧ students result.2 = students st
      ∧ leads result.2 = leads st ∧ payments result.2 = payments st
      ∧ batches result.2
        = match enrollmentSchema.batch e with
          | Some batchId =>
              alter (enrollmentController.inc_currentStudents (-1)) batchId
                    (batches st)
          | None => batches st
          end
      ∧ courses result.2
        = alter (courseSchema.with_enrollmentStats
                   (recount (enrollmentSchema.course e)
                            (documents (enrollments st))))
                (enrollmentSchema.course e) (courses st).
Proof.
  intros result. subst result. unfold enrollmentController.deleteEnrollment. split.
  - by intros ->.
  - intros e ->. cbn [fst snd]. split; [done|].
    match goal with |- context [enrollmentController.updateCourseEnrollmentStats ?v ?s] =>
      pose proof (updateCourseEnrollmentStats_spec v s) as Hstats;
      cbv zeta in Hstats;
      destruct Hstats as (Ks & Kb & Ke & Kl & Kp & Kc) end.
    cbn [enrollments students leads payments batches courses with_enrollments].
    rewrite Ks, Kb, Ke, Kl, Kp, Kc. cbn [cast_id].
    assert (Hpull : alter (enrollmentController.pull_enrollment id)
                          (enrollmentSchema.student e) (students st) = students st)
      by (by apply alter_id).
    destruct (enrollmentSchema.batch e); cbn; rewrite Hpull; done.
Qed.

(** The enrollment that names the empty batch is deleted: the student is
    as before and the enrollments are empty. *)
Lemma X7_witness :
  enrollments Scenario.store_drift !! 0 = Some Scenario.enrollment_in_empty
  ∧ (let result := enrollmentController.deleteEnrollment 0 Scenario.store_drift in
     statusCode result.1 = 200
     ∧ enrollments result.2 = ∅
     ∧ students result.2 = students Scenario.store_drift
     ∧ courseSchema.enrollmentStats <$> courses result.2 !! 1
       = Some (EnrollmentStats.mk 1 1 0 0)).
Proof.
  assert (He : enrollments Scenario.store_drift !! 0
               = Some Scenario.enrollment_in_empty) by (vm_compute; reflexivity).
  split; [exact He|].
  destruct (proj2 (X7_deleteEnrollment 0 Scenario.store_drift) _ He)
    as (Hanswer & Henrollments & Hstudents & _ & _ & _ & Hcourses).
  cbv zeta. split; [by rewrite Hanswer|]. split; [|split; [exact Hstudents|]].
  - rewrite Henrollments. vm_compute. reflexivity.
  - rewrite Hcourses. vm_compute. reflexivity.
Defined.

(** ** The statistics of a course *)

(** X8.  Matched against the [ObjectId] of the course, the aggregation
    and its tally give the recount, and in it [active], [completed] and
    [dropout] never add up to more than [totalEnrolled]; they add up to
    it exactly when every enrollment of the course has status active,
    completed or dropped: a pending, suspended or transferred enrollment
    is counted in the total only. *)
Theorem X8_total_covers_named_statuses (courseId : ObjectId)
    (docs : list enrollmentSchema.t) :
  let stats := tally_stats (aggregate_by_status docs (AsObjectId courseId)) in
  stats = recount courseId docs
  ∧ EnrollmentStats.active stats + EnrollmentStats.completed stats
    + EnrollmentStats.dropout stats ≤ EnrollmentStats.totalEnrolled stats
  ∧ (EnrollmentStats.active stats + EnrollmentStats.completed stats
     + EnrollmentStats.dropout stats = EnrollmentStats.totalEnrolled stats
     ↔ Forall (λ e, counted_status (enrollmentSchema.status e))
              (of_course courseId docs)).
Proof.
  intros stats. unfold stats. rewrite tally_aggregate. split; [done|].
  unfold recount. cbn.
  generalize (of_course courseId docs). intros l. unfold count_status.
  induction l as [|e l [IHle IHeq]]; [split; [done|split; [constructor|done]]|].
  rewrite !filter_cons.
  destruct (decide (enrollmentSchema.status e = "active")) as [Ha|Ha];
    destruct (decide (enrollmentSchema.status e = "completed")) as [Hc|Hc];
    destruct (decide (enrollmentSchema.status e = "dropped")) as [Hd|Hd];
    try congruence; cbn [length].
  all: split; [lia|].
  all: rewrite Forall_cons; split.
  all: try (intros H; split;
            [first [unfold counted_status; tauto | exfalso; lia]
            |apply IHeq; lia]).
  all: intros [Hs H]; apply IHeq in H;
    first [lia | exfalso; unfold counted_status in Hs; tauto].
Qed.

(** ** Updating an enrollment *)

Section Update.
Implicit Types (st : Store) (e this : enrollmentSchema.t).

(** A unique index reads the key of the document only. *)
Lemma index_violated_key {D K} `{EqDecision K} (key : D → K) (id : ObjectId)
    (m : gmap ObjectId D) (d d' : D) :
  key d = key d' → index_violated key id m d ↔ index_violated key id m d'.
Proof. intros Hkey. unfold index_violated. by rewrite Hkey. Qed.

Lemma duplicate_key_pre_save id st this :
  ¬ falsy (enrollmentSchema.enrollmentId this) →
  Enrollment.duplicate_key id st (Enrollment.pre_save st this).2
  ↔ Enrollment.duplicate_key id st this.
Proof.
  intros Hnumbered.
  destruct (Enrollment_pre_save_numbered st this Hnumbered) as [_ Hid].
  destruct (Enrollment_pre_save_keeps st this) as (Hs & Hc & _).
  unfold Enrollment.duplicate_key.
  rewrite (index_violated_key enrollmentSchema.enrollmentId id _ _ this Hid).
  rewrite (index_violated_key (λ e, (enrollmentSchema.student e,
                                     enrollmentSchema.course e)) id _ _ this);
    [done|]. cbn. by rewrite Hs, Hc.
Qed.

(** The save of an enrollment that passes the validation. *)
Lemma Enrollment_save_valid id st this :
  Enrollment.validate this = [] →
  Enrollment.save id st this
  = if bool_decide (Enrollment.duplicate_key id st this)
    then (st, inl DuplicateKeyError)
    else (with_enrollments (<[id := (Enrollment.pre_save st this).2]> (enrollments st))
                           st,
          inr (Enrollment.pre_save st this).2).
Proof.
  intros Hvalid.
  pose proof (proj1 (proj1 (Enrollment_validate_nil this) Hvalid)) as Hnumbered.
  destruct (Enrollment_pre_save_numbered st this Hnumbered) as [Hst _].
  unfold Enrollment.save.
  rewrite Enrollment_save_with_spec, run_accepted, decide_True by done.
  rewrite Hst.
  rewrite (bool_decide_ext _ _ (duplicate_key_pre_save id st this Hnumbered)).
  by destruct (bool_decide _).
Qed.

(** What [updateEnrollment] writes when the save goes through. *)
Lemma updateEnrollment_store id body st e :
  enrollments st !! id = Some e →
  Enrollment.validate (assign_body body e) = [] →
  ¬ Enrollment.duplicate_key id st (assign_body body e) →
  let result := updateEnrollment id body st in
  let e' := (Enrollment.pre_save st (assign_body body e)).2 in
  result.1 = mkResponse 200 "Enrollment updated successfully"
  ∧ enrollments result.2 = <[id := e']> (enrollments st)
  ∧ students result.2 = students st
  ∧ batches result.2
    = match enrollmentSchema.batch e, enrollmentSchema.batch e' with
      | Some old, Some new =>
          if decide (old = new) then batches st
          else alter (enrollmentController.inc_currentStudents 1) new
                 (alter (enrollmentController.inc_currentStudents (-1)) old
                        (batches st))
      | _, _ => batches st
      end.
Proof.
  intros He Hvalid Hdup result e'. unfold result, updateEnrollment. rewrite He.
  rewrite (Enrollment_save_valid id st _ Hvalid), bool_decide_eq_false_2 by done.
  fold e'. cbn [fst snd]. split; [done|].
  assert (Hkeep : ∀ st2 : Store,
            let st3 :=
              match EnrollmentUpdate.status body with
              | Some status =>
                  if decide (status = "") then st2
                  else enrollmentController.updateCourseEnrollmentStats
                         (AsObjectId (enrollmentSchema.course e')) st2
              | None => st2
              end in
            enrollments st3 = enrollments st2 ∧ batches st3 = batches st2
            ∧ students st3 = students st2).
  { intros st2. destruct (EnrollmentUpdate.status body) as [s|]; [|done].
    destruct (decide (s = "")); done. }
  match goal with |- context [match EnrollmentUpdate.status body with _ => _ end] =>
    match goal with |- enrollments ?s3 = _ ∧ _ =>
      match s3 with
      | match _ with Some _ => _ | None => ?s2 end =>
          destruct (Hkeep s2) as (K1 & K2 & K3)
      end
    end
  end.
  cbv zeta in K1, K2, K3. rewrite K1, K2, K3.
  destruct (enrollmentSchema.batch e) as [old|]; [|done].
  destruct (enrollmentSchema.batch e') as [new|]; [|done].
  by destruct (decide (old = new)).
Qed.
End Update.



(** X11.  When an update that goes through moves an enrollment from one
    batch to another, the old batch loses one seat and the new one gains
    one, so that the two counters keep their sum; the capacity of the new
    batch is not looked at, so a full batch goes over its [maxStudents].
    When the enrollment had no batch, giving it one moves no counter, and
    so does taking its batch away. *)
Theorem X11_updateEnrollment_moves_a_seat (id : ObjectId)
    (body : EnrollmentUpdate.t) (st : Store) (e : enrollmentSchema.t)
    (He : enrollments st !! id = Some e)
    (Hvalid : Enrollment.validate (assign_body body e) = [])
    (Hdup : ¬ Enrollment.duplicate_key id st (assign_body body e)) :
  let result := updateEnrollment id body st in
  (∀ old new b_old b_new,
     enrollmentSchema.batch e = Some old →
     EnrollmentUpdate.batch body = Some (Some new) →
     old ≠ new →
     batches st !! old = Some b_old → batches st !! new = Some b_new →
     batches result.2 !! old
     = Some (batchSchema.with_currentStudents
               (batchSchema.currentStudents b_old - 1)%Z b_old)
     ∧ batches result.2 !! new
       = Some (batchSchema.with_currentStudents
                 (batchSchema.currentStudents b_new + 1)%Z b_new)
     ∧ (seats_of result.2 old + seats_of result.2 new
        = seats_of st old + seats_of st new)%Z
     ∧ ((batchSchema.maxStudents b_new ≤ batchSchema.currentStudents b_new)%Z →
        (batchSchema.maxStudents b_new < seats_of result.2 new)%Z))
  ∧ (enrollmentSchema.batch e = None → batches result.2 = batches st)
  ∧ (EnrollmentUpdate.batch body = Some None → batches result.2 = batches st).
Proof.
  intros result.
  destruct (updateEnrollment_store id body st e He Hvalid Hdup) as (_ & _ & _ & Hbat).
  fold result in Hbat.
  destruct (Enrollment_pre_save_keeps st (assign_body body e)) as (_ & _ & Hbatch & _).
  rewrite Hbatch in Hbat. cbn in Hbat.
  split; [|split].
  - intros old new b_old b_new Hold Hnew Hne Hlo Hln.
    rewrite Hold, Hnew in Hbat. cbn in Hbat. rewrite decide_False in Hbat by done.
    assert (H1 : batches result.2 !! old
                 = Some (batchSchema.with_currentStudents
                           (batchSchema.currentStudents b_old - 1)%Z b_old)).
    { rewrite Hbat, lookup_alter_ne by done.
      rewrite lookup_alter_eq, Hlo. cbn. do 2 f_equal. }
    assert (H2 : batches result.2 !! new
                 = Some (batchSchema.with_currentStudents
                           (batchSchema.currentStudents b_new + 1)%Z b_new)).
    { rewrite Hbat, lookup_alter_eq, lookup_alter_ne by done. by rewrite Hln. }
    split; [exact H1|]. split; [exact H2|].
    unfold seats_of. rewrite H1, H2, Hlo, Hln. cbn. split; lia.
  - intros Hnone. by rewrite Hnone in Hbat.
  - intros Hclear. rewrite Hclear in Hbat. cbn in Hbat.
    by destruct (enrollmentSchema.batch e).
Qed.

(** The enrollment of batch 5 is moved to batch 6, which is full. *)
Lemma X11_witness :
  let body := EnrollmentUpdate.mk None None (Some (Some 6)) None None None None None in
  enrollments More.store_batches !! 0 = Some More.enrollment_in_one
  ∧ Enrollment.validate (assign_body body More.enrollment_in_one) = []
  ∧ ¬ Enrollment.duplicate_key 0 More.store_batches
        (assign_body body More.enrollment_in_one)
  ∧ batchSchema.currentStudents
      <$> batches (updateEnrollment 0 body More.store_batches).2 !! 6
    = Some 3%Z
  ∧ batchSchema.maxStudents More.batch_two = 2%Z.
Proof.
  intros body.
  assert (He : enrollments More.store_batches !! 0 = Some More.enrollment_in_one)
    by (vm_compute; reflexivity).
  assert (Hvalid : Enrollment.validate (assign_body body More.enrollment_in_one) = [])
    by (vm_compute; reflexivity).
  assert (Hdup : ¬ Enrollment.duplicate_key 0 More.store_batches
                     (assign_body body More.enrollment_in_one)).
  { apply (bool_decide_unpack _). vm_compute. reflexivity. }
  split; [exact He|]. split; [exact Hvalid|]. split; [exact Hdup|].
  split; [|reflexivity].
  assert (Hlo : batches More.store_batches !! 5 = Some More.batch_one)
    by (vm_compute; reflexivity).
  assert (Hln : batches More.store_batches !! 6 = Some More.batch_two)
    by (vm_compute; reflexivity).
  assert (Hne : 5 ≠ 6) by discriminate.
  pose proof (proj1 (proj2 (proj1 (X11_updateEnrollment_moves_a_seat 0 body
                     More.store_batches _ He Hvalid Hdup) 5 6 More.batch_one
                     More.batch_two eq_refl eq_refl Hne Hlo Hln))) as H.
  refine (eq_trans (f_equal (fmap batchSchema.currentStudents) H) _). reflexivity.
Defined.

(** ** Payments after they are recorded *)

Section Payments.
Implicit Types (st : Store) (p payment : paymentSchema.t).

(** The hook before the save leaves a payment that has both its numbers
    as it is, and moves no counter. *)
Lemma Payment_pre_save_numbered period st p :
  ¬ falsy (paymentSchema.paymentId p) → ¬ falsy (paymentSchema.receiptNumber p) →
  Payment.pre_save period st p = (st, p).
Proof.
  intros Hid Hreceipt. unfold Payment.pre_save.
  by rewrite decide_False, decide_False.
Qed.

Lemma Payment_validate_paymentId p :
  Payment.validate p = [] → ¬ falsy (paymentSchema.paymentId p).
Proof.
  unfold Payment.validate. intros [H _]%app_eq_nil. by apply required_string_nil in H.
Qed.

(** The validation reads the status through its enum only. *)
Lemma Payment_validate_status p status :
  Payment.validate p = [] → status ∈ Payment.statuses →
  Payment.validate (paymentSchema.with_status status p) = [].
Proof.
  unfold Payment.validate. rewrite !app_nil. intros (H1 & H2 & H3 & _) Hstatus.
  cbn. split_and!; try done. by apply enum_nil.
Qed.

(** A save of a stored payment with its status changed. *)
Lemma Payment_save_status period id st payment status :
  payments st !! id = Some payment → Payment.validate payment = [] →
  ¬ falsy (paymentSchema.receiptNumber payment) → status ∈ Payment.statuses →
  Payment.save period id st (paymentSchema.with_status status payment)
  = (with_payments (<[id := paymentSchema.with_status status payment]> (payments st)) st,
     inr (paymentSchema.with_status status payment)).
Proof.
  intros Hp Hvalid Hreceipt Hstatus.
  pose proof (Payment_validate_paymentId payment Hvalid) as Hid.
  unfold Payment.save.
  rewrite Payment_save_with_spec, run_accepted.
  rewrite decide_True by (by apply Payment_validate_status).
  rewrite (Payment_pre_save_numbered period st) by done. cbn [fst snd].
  rewrite bool_decide_eq_false_2; [done|].
  intros [Hdup|Hdup]; revert Hdup; by apply (index_kept _ _ _ _ payment).
Qed.
End Payments.



(** X18.  Verifying a stored payment that passes the validation and has
    its receipt number: a payment that is completed already is answered
    400 and nothing changes; any other is stored as completed and
    answered 200.  Neither writes a student or an enrollment: the
    verification credits no ledger. *)
Theorem X18_verifying_credits_no_ledger (period : string) (id : ObjectId)
    (st : Store) (payment : paymentSchema.t)
    (Hp : payments st !! id = Some payment)
    (Hvalid : Payment.validate payment = [])
    (Hreceipt : ¬ falsy (paymentSchema.receiptNumber payment)) :
  let result := paymentController.verifyPayment period id st in
  (paymentSchema.status payment = "completed" →
   result = (mkResponse 400 "Payment already verified", st))
  ∧ (paymentSchema.status payment ≠ "completed" →
     result
     = (mkResponse 200 "Payment verified successfully",
        with_payments
          (<[id := paymentSchema.with_status "completed" payment]> (payments st)) st))
  ∧ students result.2 = students st ∧ enrollments result.2 = enrollments st
  ∧ ∀ student, stored_paid result.2 student = stored_paid st student.
Proof.
  intros result.
  assert (Hcases : (paymentSchema.status payment = "completed" →
                    result = (mkResponse 400 "Payment already verified", st))
                   ∧ (paymentSchema.status payment ≠ "completed" →
                      result
                      = (mkResponse 200 "Payment verified successfully",
                         with_payments
                           (<[id := paymentSchema.with_status "completed" payment]>
                              (payments st)) st))).
  { subst result. unfold paymentController.verifyPayment. rewrite Hp. split.
    - intros Hstatus. by rewrite decide_True.
    - intros Hstatus. rewrite decide_False by done.
      rewrite (Payment_save_status period id st payment "completed" Hp Hvalid Hreceipt)
        by (repeat constructor).
      done. }
  destruct Hcases as [Hdone Hpending].
  split; [exact Hdone|]. split; [exact Hpending|].
  destruct (decide (paymentSchema.status payment = "completed")) as [Hs|Hs].
  - by rewrite (Hdone Hs).
  - by rewrite (Hpending Hs).
Qed.

(** The pending payment of 300 is verified: the ledger of the student
    stays at 0 paid. *)
Lemma X18_witness :
  payments More.store_payments !! 0 = Some More.payment_pending
  ∧ Payment.validate More.payment_pending = []
  ∧ ¬ falsy (paymentSchema.receiptNumber More.payment_pending)
  ∧ (let result := paymentController.verifyPayment "2611" 0 More.store_payments in
     statusCode result.1 = 200
     ∧ (paymentSchema.status <$> payments result.2 !! 0) = Some "completed"
     ∧ stored_paid result.2 1 = Some 0%Z).
Proof.
  assert (Hp : payments More.store_payments !! 0 = Some More.payment_pending)
    by (vm_compute; reflexivity).
  assert (Hvalid : Payment.validate More.payment_pending = [])
    by (vm_compute; reflexivity).
  assert (Hreceipt : ¬ falsy (paymentSchema.receiptNumber More.payment_pending))
    by (by intros [?|?]).
  split; [exact Hp|]. split; [exact Hvalid|]. split; [exact Hreceipt|].
  pose proof (X18_verifying_credits_no_ledger "2611" 0 More.store_payments _ Hp Hvalid
                Hreceipt) as H. cbv zeta in H.
  destruct H as (_ & Hpending & _ & _ & Hpaid).
  cbv zeta. rewrite Hpaid. rewrite Hpending by discriminate.
  split; [done|]. split; [|vm_compute; reflexivity].
  cbn. by rewrite lookup_insert_eq.
Defined.

(** X19.  Deleting a payment that is not in the store answers 404, and
    deleting a completed one answers 400; both change nothing.  Any other
    payment is taken out of the payments, the other payments staying, and
    the answer is 200.  No student and no enrollment is written. *)
Theorem X19_deletePayment (id : ObjectId) (st : Store) :
  let result := paymentController.deletePayment id st in
  (payments st !! id = None → result = (mkResponse 404 "Payment not found", st))
  ∧ (∀ payment, payments st !! id = Some payment →
       (paymentSchema.status payment = "completed" →
        result
        = (mkResponse 400 "Cannot delete completed payment. Use refund instead.", st))
       ∧ (paymentSchema.status payment ≠ "completed" →
          result = (mkResponse 200 "Payment deleted successfully",
                    with_payments (delete id (payments st)) st)
          ∧ payments result.2 !! id = None
          ∧ ∀ other, other ≠ id → payments result.2 !! other = payments st !! other))
  ∧ students result.2 = students st ∧ enrollments result.2 = enrollments st.
Proof.
  intros result. subst result. unfold paymentController.deletePayment.
  destruct (payments st !! id) as [payment|] eqn:Hp.
  - split; [done|]. split.
    + intros ? [= <-]. split.
      * intros Hs. by rewrite decide_True.
      * intros Hs. rewrite decide_False by done. split; [done|]. cbn. split.
        -- apply lookup_delete_eq.
        -- intros other Hother. by apply lookup_delete_ne.
    + by destruct (decide (paymentSchema.status payment = "completed")).
  - split; [done|]. split; [by intros ? [=]|done].
Qed.

Lemma X19_witness :
  payments More.store_payments !! 1 = Some More.payment_completed
  ∧ paymentController.deletePayment 1 More.store_payments
    = (mkResponse 400 "Cannot delete completed payment. Use refund instead.",
       More.store_payments)
  ∧ payments (paymentController.deletePayment 0 More.store_payments).2 !! 0 = None.
Proof.
  assert (Hc : payments More.store_payments !! 1 = Some More.payment_completed)
    by (vm_compute; reflexivity).
  assert (Hp : payments More.store_payments !! 0 = Some More.payment_pending)
    by (vm_compute; reflexivity).
  split; [exact Hc|]. split.
  - exact (proj1 (proj1 (proj2 (X19_deletePayment 1 More.store_payments)) _ Hc)
             eq_refl).
  - destruct (proj2 (proj1 (proj2 (X19_deletePayment 0 More.store_payments)) _ Hp))
      as (_ & Hgone & _); [discriminate|exact Hgone].
Defined.

(** X20.  Refunding a stored payment that passes the validation and has
    its receipt number: a payment that is not completed is answered 400,
    and so is a refund of more than the amount of the payment; both
    change nothing.  Otherwise the payment is stored as refunded and the
    answer is 200.  No student and no enrollment is written: the refund
    takes nothing off a ledger. *)
Theorem X20_refund_debits_no_ledger (period : string) (id : ObjectId) (amount : Z)
    (st : Store) (payment : paymentSchema.t)
    (Hp : payments st !! id = Some payment)
    (Hvalid : Payment.validate payment = [])
    (Hreceipt : ¬ falsy (paymentSchema.receiptNumber payment)) :
  let result := paymentController.refundPayment period id amount st in
  (paymentSchema.status payment ≠ "completed" →
   result = (mkResponse 400 "Only completed payments can be refunded", st))
  ∧ (paymentSchema.status payment = "completed" →
     (paymentSchema.amount payment < amount)%Z →
     result = (mkResponse 400 "Refund amount cannot exceed payment amount", st))
  ∧ (paymentSchema.status payment = "completed" →
     (amount ≤ paymentSchema.amount payment)%Z →
     result
     = (mkResponse 200 "Payment refunded successfully",
        with_payments
          (<[id := paymentSchema.with_status "refunded" payment]> (payments st)) st))
  ∧ students result.2 = students st ∧ enrollments result.2 = enrollments st
  ∧ ∀ student, stored_paid result.2 student = stored_paid st student.
Proof.
  intros result.
  assert (Hcases :
    (paymentSchema.status payment ≠ "completed" →
     result = (mkResponse 400 "Only completed payments can be refunded", st))
    ∧ (paymentSchema.status payment = "completed" →
       (paymentSchema.amount payment < amount)%Z →
       result = (mkResponse 400 "Refund amount cannot exceed payment amount", st))
    ∧ (paymentSchema.status payment = "completed" →
       (amount ≤ paymentSchema.amount payment)%Z →
       result
       = (mkResponse 200 "Payment refunded successfully",
          with_payments
            (<[id := paymentSchema.with_status "refunded" payment]> (payments st)) st))).
  { subst result. unfold paymentController.refundPayment. rewrite Hp.
    split; [|split].
    - intros Hs. by rewrite decide_True.
    - intros Hs Hmore. rewrite decide_False by (by intros ?).
      by destruct (Z.ltb_spec (paymentSchema.amount payment) amount); [|lia].
    - intros Hs Hless. rewrite decide_False by (by intros ?).
      destruct (Z.ltb_spec (paymentSchema.amount payment) amount); [lia|].
      rewrite (Payment_save_status period id st payment "refunded" Hp Hvalid Hreceipt)
        by (repeat constructor).
      done. }
  destruct Hcases as (Hother & Hmore & Hless).
  split; [exact Hother|]. split; [exact Hmore|]. split; [exact Hless|].
  destruct (decide (paymentSchema.status payment = "completed")) as [Hs|Hs].
  - destruct (Z.lt_ge_cases (paymentSchema.amount payment) amount) as [Hlt|Hge].
    + by rewrite (Hmore Hs Hlt).
    + rewrite (Hless Hs); [done|lia].
  - by rewrite (Hother Hs).
Qed.

(** The completed payment of 300 is refunded in full: the ledger of the
    student is as it was. *)
Lemma X20_witness :
  payments More.store_payments !! 1 = Some More.payment_completed
  ∧ Payment.validate More.payment_completed = []
  ∧ ¬ falsy (paymentSchema.receiptNumber More.payment_completed)
  ∧ (let result := paymentController.refundPayment "2611" 1 300 More.store_payments in
     statusCode result.1 = 200
     ∧ (paymentSchema.status <$> payments result.2 !! 1) = Some "refunded"
     ∧ stored_paid result.2 1 = stored_paid More.store_payments 1).
Proof.
  assert (Hp : payments More.store_payments !! 1 = Some More.payment_completed)
    by (vm_compute; reflexivity).
  assert (Hvalid : Payment.validate More.payment_completed = [])
    by (vm_compute; reflexivity).
  assert (Hreceipt : ¬ falsy (paymentSchema.receiptNumber More.payment_completed))
    by (by intros [?|?]).
  split; [exact Hp|]. split; [exact Hvalid|]. split; [exact Hreceipt|].
  pose proof (X20_refund_debits_no_ledger "2611" 1 300 More.store_payments _ Hp
                Hvalid Hreceipt) as H. cbv zeta in H.
  destruct H as (_ & _ & Hrefund & _ & _ & Hpaid).
  cbv zeta. rewrite Hpaid. rewrite Hrefund by (cbn; (reflexivity || lia)).
  split; [done|]. split; [|done].
  cbn. by rewrite lookup_insert_eq.
Defined.

(** ** Leads *)

(** X21.  Deleting a lead that is not in the store answers 404, and
    deleting a converted lead answers 400; both change nothing.  A lead
    that has not been converted is taken out of the leads, the other
    leads staying, and the answer is 200. *)
Theorem X21_deleteLead (id : ObjectId) (st : Store) :
  let result := leadController.deleteLead id st in
  (leads st !! id = None → result = (mkResponse 404 "Lead not found", st))
  ∧ ∀ lead, leads st !! id = Some lead →
      (leadSchema.convertedToStudent lead = true →
       result = (mkResponse 400 "Cannot delete converted lead", st))
      ∧ (leadSchema.convertedToStudent lead = false →
         result = (mkResponse 200 "Lead deleted successfully",
                   with_leads (delete id (leads st)) st)
         ∧ leads result.2 !! id = None
         ∧ ∀ other, other ≠ id → leads result.2 !! other = leads st !! other).
Proof.
  intros result. subst result. unfold leadController.deleteLead. split.
  - by intros ->.
  - intros lead ->. split.
    + by intros ->.
    + intros ->. split; [done|]. cbn. split.
      * apply lookup_delete_eq.
      * intros other Hother. by apply lookup_delete_ne.
Qed.

Lemma X21_witness :
  leads More.store_converted !! 3 = Some More.lead_converted
  ∧ leadController.deleteLead 3 More.store_converted
    = (mkResponse 400 "Cannot delete converted lead", More.store_converted)
  ∧ leads (leadController.deleteLead 3 Scenario.store_D).2 !! 3 = None.
Proof.
  assert (Hc : leads More.store_converted !! 3 = Some More.lead_converted)
    by (vm_compute; reflexivity).
  assert (Hd : leads Scenario.store_D !! 3 = Some Scenario.lead_D)
    by (vm_compute; reflexivity).
  split; [exact Hc|]. split.
  - exact (proj1 (proj2 (X21_deleteLead 3 More.store_converted) _ Hc) eq_refl).
  - exact (proj1 (proj2 (proj2 (proj2 (X21_deleteLead 3 Scenario.store_D) _ Hd)
                           eq_refl))).
Defined.

(** ** Saving twice *)

Section Twice.
Implicit Types (st : Store) (e this : enrollmentSchema.t).

(** On a document it has left, the pre-save hook changes nothing. *)
Lemma pre_save_idempotent st st' e :
  courses st' = courses st → ¬ falsy (enrollmentSchema.enrollmentId e) →
  Enrollment.pre_save st' (Enrollment.pre_save st e).2
  = (st', (Enrollment.pre_save st e).2).
Proof.
  intros Hc Hnumbered. unfold Enrollment.pre_save.
  destruct e as [number student course batch status [total paid pending] plan
                 [percentage completed] attendance].
  cbn in *. destruct (decide (falsy number)) as [?|Hn]; [done|].
  cbn. destruct (courses st !! course) as [c|] eqn:Hcourse; cbn;
    (destruct (decide (falsy number)); [done|]); cbn; rewrite Hc, Hcourse;
    reflexivity.
Qed.

(** A save that went through, of a document that passes the validation
    as it was stored, can be repeated and changes nothing. *)
Lemma save_again id st this st1 e1 :
  Enrollment.save id st this = (st1, inr e1) →
  st1 = with_enrollments (<[id := e1]> (enrollments st)) st
  ∧ e1 = (Enrollment.pre_save st this).2
  ∧ (Enrollment.validate e1 = [] → Enrollment.save id st1 e1 = (st1, inr e1)).
Proof.
  unfold Enrollment.save at 1. rewrite Enrollment_save_with_spec, run_accepted.
  destruct (decide (Enrollment.validate this = [])) as [Hvalid|]; [|discriminate].
  pose proof (proj1 (proj1 (Enrollment_validate_nil this) Hvalid)) as Hnumbered.
  destruct (Enrollment_pre_save_numbered st this Hnumbered) as [Hst _].
  rewrite Hst. destruct (write_error _ _); [discriminate|].
  intros [= <- <-]. split; [done|]. split; [done|].
  intros Hvalid1.
  rewrite (Enrollment_save_stored id _ _ (Enrollment.pre_save st this).2 Hvalid1);
    try done; [|cbn; apply lookup_insert_eq].
  rewrite pre_save_idempotent by done. cbn [fst snd].
  cbn [enrollments with_enrollments]. rewrite insert_insert_eq. reflexivity.
Qed.

Lemma upsert_module_twice moduleId score completed :
  upsert_module moduleId score (upsert_module moduleId score completed)
  = upsert_module moduleId score completed.
Proof.
  unfold upsert_module.
  destruct (list_find _ completed) as [[i m]|] eqn:Hfind.
  - apply list_find_Some in Hfind as (Hi & Hm & Hbefore).
    assert (Hi' : i < length completed) by (by eapply lookup_lt_Some).
    assert (Hfind' :
      list_find (λ m, ModuleCompletion.moduleId m = moduleId)
                (<[i := ModuleCompletion.mk moduleId score]> completed)
      = Some (i, ModuleCompletion.mk moduleId score)).
    { apply list_find_Some. split; [by rewrite list_lookup_insert_eq|].
      split; [reflexivity|]. intros j y Hj Hlt.
      rewrite list_lookup_insert_ne in Hj by lia. by eapply Hbefore. }
    rewrite Hfind'. apply list_insert_insert_eq.
  - apply list_find_None in Hfind.
    assert (Hfind' :
      list_find (λ m, ModuleCompletion.moduleId m = moduleId)
                (completed ++ [ModuleCompletion.mk moduleId score])
      = Some (length completed, ModuleCompletion.mk moduleId score)).
    { apply list_find_Some. split.
      - rewrite lookup_app_r by lia. by rewrite Nat.sub_diag.
      - split; [reflexivity|]. intros j y Hj Hlt.
        rewrite lookup_app_l in Hj by lia.
        rewrite Forall_forall in Hfind. apply Hfind.
        by eapply list_elem_of_lookup_2. }
    rewrite Hfind'.
    rewrite insert_app_r_alt by lia. by rewrite Nat.sub_diag.
Qed.

(** The two endpoints on a stored enrollment, by the outcome of the
    save. *)
Lemma updateProgress_stored id moduleId score st e :
  enrollments st !! id = Some e →
  enrollmentController.updateProgress id moduleId score st
  = match Enrollment.save id st
            (enrollmentSchema.with_progress
               (Progress.mk (Progress.percentage (enrollmentSchema.progress e))
                            (upsert_module moduleId score
                               (Progress.completedModules
                                  (enrollmentSchema.progress e))))
               e) with
    | (st1, inr e1) =>
        (mkResponse 200 "Progress updated successfully",
         Some (Progress.percentage (enrollmentSchema.progress e1),
               length (Progress.completedModules (enrollmentSchema.progress e1))),
         st1)
    | (st1, inl _) => (mkResponse 500 "Server error", None, st1)
    end.
Proof.
  intros He. unfold enrollmentController.updateProgress.
  by rewrite He, completeModule_document.
Qed.

End Twice.

(** X22.  Recording the progress of an enrollment that does not exist
    answers 404 and changes nothing.  When the progress was recorded with
    answer 200, recording the same module with the same score again
    depends on the enrollment that was stored.  When it passes the
    validation, the second call gives the answer of the first and leaves
    the store as the first left it: no second record is added and the
    percentage does not move.  When it does not (the hook stored a
    percentage above 100, or a negative pending amount), the second call
    answers 500 and changes nothing. *)
Theorem X22_updateProgress_twice (id moduleId : ObjectId) (score : option Z)
    (st : Store) :
  let once := enrollmentController.updateProgress id moduleId score st in
  let twice := enrollmentController.updateProgress id moduleId score once.2 in
  (enrollments st !! id = None →
     once = (mkResponse 404 "Enrollment not found", None, st))
  ∧ ∀ e', statusCode once.1.1 = 200 → enrollments once.2 !! id = Some e' →
      (Enrollment.validate e' = [] → twice = once)
      ∧ (Enrollment.validate e' ≠ [] →
         twice = (mkResponse 500 "Server error", None, once.2)).
Proof.
  intros once twice. split.
  - intros Hnone. subst once. unfold enrollmentController.updateProgress.
    by rewrite Hnone.
  - intros e' Hok He'.
    destruct (enrollments st !! id) as [e|] eqn:He;
      [|subst once; unfold enrollmentController.updateProgress in Hok;
        rewrite He in Hok; discriminate].
    pose proof (updateProgress_stored id moduleId score st e He) as Honce.
    fold once in Honce.
    set (this := enrollmentSchema.with_progress _ e) in Honce.
    destruct (Enrollment.save id st this) as [st1 [error|e1]] eqn:Hsave;
      [rewrite Honce in Hok; discriminate|].
    destruct (save_again id st this st1 e1 Hsave) as (Hst1 & Hhook & Hagain).
    assert (Hstored : enrollments st1 !! id = Some e1)
      by (rewrite Hst1; cbn; apply lookup_insert_eq).
    assert (Hstore : once.2 = st1) by (by rewrite Honce).
    rewrite Hstore in He'. assert (e' = e1) as -> by congruence.
    assert (Hsame : enrollmentSchema.with_progress
                      (Progress.mk
                         (Progress.percentage (enrollmentSchema.progress e1))
                         (upsert_module moduleId score
                            (Progress.completedModules
                               (enrollmentSchema.progress e1)))) e1 = e1).
    { assert (Hcompleted :
        Progress.completedModules (enrollmentSchema.progress e1)
        = upsert_module moduleId score
            (Progress.completedModules (enrollmentSchema.progress e))).
      { rewrite Hhook.
        by destruct (Enrollment_pre_save_keeps st this)
          as (_ & _ & _ & _ & _ & _ & -> & _). }
      rewrite Hcompleted, upsert_module_twice, <- Hcompleted.
      by destruct e1 as [? ? ? ? ? ? ? [? ?] ?]. }
    subst twice. rewrite Hstore.
    rewrite (updateProgress_stored id moduleId score st1 e1 Hstored), Hsame. split.
    + intros Hvalid. by rewrite (Hagain Hvalid), Honce.
    + intros Hinvalid. by rewrite (Enrollment_save_rejected id st1 e1 Hinvalid).
Qed.

(** A second module of the four-module course is recorded twice. *)
Lemma X22_witness :
  let once := enrollmentController.updateProgress 4 12 (Some 80%Z)
                Scenario.store_progress in
  statusCode once.1.1 = 200
  ∧ (∃ e', enrollments once.2 !! 4 = Some e' ∧ Enrollment.validate e' = [])
  ∧ enrollmentController.updateProgress 4 12 (Some 80%Z) once.2 = once.
Proof.
  intros once.
  assert (Hok : statusCode once.1.1 = 200) by (vm_compute; reflexivity).
  destruct (enrollments once.2 !! 4) as [e'|] eqn:He'; [|by vm_compute in He'].
  assert (Hvalid : Enrollment.validate e' = []).
  { assert (Hsome : Enrollment.validate <$> enrollments once.2 !! 4 = Some [])
      by (vm_compute; reflexivity).
    rewrite He' in Hsome. by injection Hsome. }
  split; [exact Hok|]. split; [by exists e'|].
  exact (proj1 (proj2 (X22_updateProgress_twice 4 12 (Some 80%Z)
                         Scenario.store_progress) e' Hok He') Hvalid).
Defined.


